(** * simple_playlist.py: a model of the Jellyfin playlist generator

    The program talks to a media server over HTTP, reads answers typed at
    the console, and writes text files.  The model below follows the class
    [JellyfinPlaylistGenerator] method by method:

    - the server is a function from the history of requests and the current
      request to the outcome of [session.get];
    - the console input is a list of lines, the console output a list of
      printed lines, the working directory a list of written files;
    - a method is a computation in a state and exception monad over that
      world; the [while True] loop of [get_movies_from_library] takes fuel.

    Modelling assumptions (typed view of the JSON the server sends): a key of
    a JSON object is either absent or holds a value of the type the Jellyfin
    schema gives it (strings for [Id], [Name], [Type], [ServerName], an
    integer for [RunTimeTicks] and [TotalRecordCount], a list of objects for
    [Items]); strings are byte strings and [str.lower] and [str.strip] act
    on their ASCII range.  What [str.isdigit] and [int] answer on a token
    of the selection line is a parameter of the driver.  The lines printed by
    [get_libraries], [get_movies_from_library] and [get_all_movies] are
    modelled; the banners, prompts and progress lines that
    [generate_playlists] and [create_summary_file] print are left out. *)

From Stdlib Require Import List String Ascii ZArith Lia Bool Arith PeanoNat.
From Stdlib Require Import DecimalString.
Import ListNotations.

Local Open Scope string_scope.
Local Open Scope list_scope.
Local Open Scope nat_scope.

(** String concatenation, as done by f-strings and [+=]. *)
Infix "+++" := String.append (at level 60, right associativity).

(* ================================================================= *)
(** ** Python string operations *)

Module Py.

Definition nl : string := String (ascii_of_nat 10) "".
Definition dq : string := String (ascii_of_nat 34) "".
Definition backslash : ascii := ascii_of_nat 92.

(** Truthiness of a [str]: non-empty. *)
Definition truthy (s : string) : bool := negb (s =? "")%string.

(** [d.get(k, default)] on a key that is absent or present. *)
Definition get {A : Type} (field : option A) (default : A) : A :=
  match field with
  | Some v => v
  | None => default
  end.

Definition is_upper (c : ascii) : bool :=
  let n := nat_of_ascii c in (65 <=? n) && (n <=? 90).

Definition lower_char (c : ascii) : ascii :=
  if is_upper c then ascii_of_nat (nat_of_ascii c + 32) else c.

(** [s.lower()] *)
Fixpoint lower (s : string) : string :=
  match s with
  | EmptyString => EmptyString
  | String c r => String (lower_char c) (lower r)
  end.

(** [needle in hay] for strings. *)
Fixpoint contains (needle hay : string) : bool :=
  prefix needle hay ||
  match hay with
  | EmptyString => false
  | String _ r => contains needle r
  end.

(** [x in xs] for a list of strings. *)
Definition mem (x : string) (xs : list string) : bool :=
  existsb (String.eqb x) xs.

(** [str(n)] for integers. *)
Definition str_nat (n : nat) : string :=
  NilZero.string_of_uint (Nat.to_uint n).

Definition str_int (z : Z) : string :=
  NilZero.string_of_int (Z.to_int z).

(** [s.replace(a, b)] for single characters. *)
Fixpoint replace_char (a b : ascii) (s : string) : string :=
  match s with
  | EmptyString => EmptyString
  | String c r =>
      String (if Ascii.eqb c a then b else c) (replace_char a b r)
  end.

Definition is_space (c : ascii) : bool :=
  let n := nat_of_ascii c in
  ((9 <=? n) && (n <=? 13)) || ((28 <=? n) && (n <=? 32)).

Fixpoint lstrip (s : string) : string :=
  match s with
  | EmptyString => EmptyString
  | String c r => if is_space c then lstrip r else s
  end.

Fixpoint rstrip (s : string) : string :=
  match s with
  | EmptyString => EmptyString
  | String c r =>
      match rstrip r with
      | EmptyString => if is_space c then EmptyString else String c EmptyString
      | r' => String c r'
      end
  end.

(** [s.strip()] *)
Definition strip (s : string) : string := rstrip (lstrip s).

(** [s.split(sep)] for a one-character separator: never an empty list. *)
Fixpoint split (sep : ascii) (s : string) : list string :=
  match s with
  | EmptyString => [EmptyString]
  | String c r =>
      if Ascii.eqb c sep then EmptyString :: split sep r
      else
        match split sep r with
        | [] => [String c EmptyString]
        | w :: ws => String c w :: ws
        end
  end.

Definition is_digit (c : ascii) : bool :=
  let n := nat_of_ascii c in (48 <=? n) && (n <=? 57).

Fixpoint all_digits (s : string) : bool :=
  match s with
  | EmptyString => true
  | String c r => is_digit c && all_digits r
  end.

(** [s.isdigit()] on an ASCII string: at least one character, all of them
    among 0-9. *)
Definition ascii_isdigit (s : string) : bool := truthy s && all_digits s.

Fixpoint int_acc (acc : Z) (s : string) : Z :=
  match s with
  | EmptyString => acc
  | String c r => int_acc (10 * acc + Z.of_nat (nat_of_ascii c - 48)) r
  end.

(** The longest string of digits [int] converts by default. *)
Definition max_str_digits : nat := 4300.

(** [int(s)] for a string [s] that [ascii_isdigit] accepts: its value, or
    ValueError ([None]) when the string has more digits than the
    interpreter converts.  The driver calls [int] only behind [isdigit],
    and the other strings are not modelled: the answer [None] says nothing
    about them. *)
Definition ascii_int (s : string) : option Z :=
  if ascii_isdigit s && (String.length s <=? max_str_digits)
  then Some (int_acc 0 s)
  else None.

(** [sep.join(xs)] *)
Definition join (sep : string) (xs : list string) : string :=
  String.concat sep xs.

(** [s[:n]] *)
Definition take (n : nat) (s : string) : string := substring 0 n s.

End Py.

(* ================================================================= *)
(** ** Data model *)

(** A JSON object of the server (a [BaseItemDto]): media folders, probed
    items and movies all have this shape. *)
Record item : Type := mkItem {
  Id : option string;
  Name : option string;
  Type_ : option string;
  RunTimeTicks : option Z
}.

(** The decoded body of a response. *)
Record json_data : Type := mkData {
  Items : option (list item);
  TotalRecordCount : option Z;
  ServerName : option string
}.

(** What [response.json()] does: raise, or return the decoded body. *)
Inductive json_outcome : Type :=
| JsonError (e : string)
| Json (data : json_data).

(** What [session.get] does: raise, or return a response. *)
Inductive http_result : Type :=
| ConnError (e : string)
| Reply (status_code : Z) (body : json_outcome).

(** The four requests of the program, with the parameters that vary. *)
Inductive request : Type :=
| SystemInfo
    (* GET {server}/System/Info, timeout 10 *)
| MediaFolders
    (* GET {server}/Library/MediaFolders, timeout 10 *)
| ItemsProbe (ParentId : string)
    (* GET {server}/Items  ParentId, Recursive=false, Limit=1, timeout 10 *)
| ItemsPage (ParentId : option string) (StartIndex : nat) (Limit : nat).
    (* GET {server}/Items  Recursive=true, IncludeItemTypes=Movie,
       Fields=MediaSources,Path,RunTimeTicks,Genres, SortBy=SortName,
       Limit, [ParentId], StartIndex, timeout 30 *)

(** The server: the answer may depend on everything asked before. *)
Definition server : Type := list request -> request -> http_result.

(** An entry of the list [get_libraries] returns. *)
Record library : Type := mkLibrary {
  lib_id : string;
  lib_name : string;
  lib_type : string
}.

(** The constants of a generator object after [__init__]. *)
Record session : Type := mkSession {
  server_url : string;
  api_key : string
}.

(** The world the program acts on. *)
Record world : Type := mkWorld {
  requests : list request;          (* requests sent, oldest first *)
  stdout : list string;             (* lines printed, oldest first *)
  stdin : list string;              (* lines still to be read by input() *)
  files : list (string * string)    (* files written, oldest first *)
}.

(* ================================================================= *)
(** ** The monad of methods *)

Inductive res (A : Type) : Type :=
| Ret (a : A)
| Raise (e : string)
| Diverge.

Arguments Ret {A} a.
Arguments Raise {A} e.
Arguments Diverge {A}.

Definition M (A : Type) : Type := world -> res A * world.

Definition ret {A : Type} (a : A) : M A := fun w => (Ret a, w).

Definition bind {A B : Type} (m : M A) (k : A -> M B) : M B :=
  fun w =>
    match m w with
    | (Ret a, w') => k a w'
    | (Raise e, w') => (Raise e, w')
    | (Diverge, w') => (Diverge, w')
    end.

Definition raise {A : Type} (e : string) : M A := fun w => (Raise e, w).

Definition diverge {A : Type} : M A := fun w => (Diverge, w).

(** [try: body  except Exception as e: handler e] *)
Definition try_except {A : Type} (body : M A) (handler : string -> M A) : M A :=
  fun w =>
    match body w with
    | (Raise e, w') => handler e w'
    | r => r
    end.

Notation "x <- m ;; k" := (bind m (fun x => k))
  (at level 61, m at next level, right associativity).
Notation "m ;;; k" := (bind m (fun _ => k))
  (at level 61, right associativity).

(** [print(line)] *)
Definition print (line : string) : M unit :=
  fun w => (Ret tt, mkWorld (requests w) (stdout w ++ [line]) (stdin w) (files w)).

(** [input(prompt)]: the next line, or EOFError. *)
Definition input : M string :=
  fun w =>
    match stdin w with
    | [] => (Raise "EOFError", w)
    | line :: rest => (Ret line, mkWorld (requests w) (stdout w) rest (files w))
    end.

(* ================================================================= *)
(** ** Library discovery and the paginated fetch *)

Section Collector.

Variable srv : server.

(** [self.session.get(url, params=..., timeout=...)]; the request is
    logged whether or not it succeeds. *)
Definition session_get (req : request) : M (Z * json_outcome) :=
  fun w =>
    let w' := mkWorld (requests w ++ [req]) (stdout w) (stdin w) (files w) in
    match srv (requests w) req with
    | ConnError e => (Raise e, w')
    | Reply status_code body => (Ret (status_code, body), w')
    end.

(** [response.json()] *)
Definition response_json (body : json_outcome) : M json_data :=
  match body with
  | JsonError e => raise e
  | Json data => ret data
  end.

(** [get_library_types], lines 82-101.  The bare [except] swallows every
    exception; [None] stands for falling out of the [try] block. *)
Definition get_library_types (library_id : string) : M (list string) :=
  r <- try_except
         (response <- session_get (ItemsProbe library_id) ;;
          if (fst response =? 200)%Z then
            data <- response_json (snd response) ;;
            let items := Py.get (Items data) [] in
            match items with
            | first :: _ => ret (Some [Py.get (Type_ first) "Unknown"])
            | [] => ret None
            end
          else ret None)
         (fun _ => ret None) ;;
  match r with
  | Some types => ret types
  | None => ret ["Unknown"]
  end.

(** The [for item in data.get('Items', [])] loop of [get_libraries],
    lines 54-74. *)
Fixpoint scan_folders (items : list item) (libraries : list library)
  : M (list library) :=
  match items with
  | [] => ret libraries
  | item :: rest =>
      let library_name := Py.get (Name item) "" in
      let library_id := Py.get (Id item) "" in
      if Py.truthy library_name &&
         (Py.contains "movie" (Py.lower library_name) ||
          Py.contains "movies" (Py.lower library_name))
      then
        scan_folders rest
          (libraries ++ [mkLibrary library_id library_name "Movie"])
      else if Py.truthy library_name then
        library_types <- get_library_types library_id ;;
        if Py.mem "Movie" library_types then
          scan_folders rest
            (libraries ++ [mkLibrary library_id library_name "Mixed"])
        else scan_folders rest libraries
      else scan_folders rest libraries
  end.

(** [get_libraries], lines 44-80. *)
Definition get_libraries : M (list library) :=
  r <- try_except
         (response <- session_get MediaFolders ;;
          if (fst response =? 200)%Z then
            data <- response_json (snd response) ;;
            libraries <- scan_folders (Py.get (Items data) []) [] ;;
            ret (Some libraries)
          else ret None)
         (fun e => print ("Error fetching libraries: " +++ e) ;;; ret None) ;;
  match r with
  | Some libraries => ret libraries
  | None => ret []
  end.

(** The page size the program asks for, [params['Limit']]. *)
Definition page_limit : nat := 1000.

(** What one pass through the body of the [while True] loop decides. *)
Inductive loop_step : Type :=
| Break (all_items : list item)
| Continue (all_items : list item) (start_index : nat).

(** The body of the loop, lines 131-150. *)
Definition fetch_page (ParentId : option string) (start_index : nat)
    (all_items : list item) : M loop_step :=
  try_except
    (response <- session_get (ItemsPage ParentId start_index page_limit) ;;
     if (fst response =? 200)%Z then
       data <- response_json (snd response) ;;
       let items := Py.get (Items data) [] in
       let total := Py.get (TotalRecordCount data) 0%Z in
       let all_items := all_items ++ items in
       if (Z.of_nat (List.length all_items) >=? total)%Z then
         ret (Break all_items)
       else
         let start_index := start_index + List.length items in
         print ("  Fetched " +++ Py.str_nat (List.length all_items) +++ "/" +++
                Py.str_int total +++ " items...") ;;;
         ret (Continue all_items start_index)
     else ret (Break all_items))
    (fun e => print ("Error fetching items: " +++ e) ;;; ret (Break all_items)).

(** The [while True] loop, lines 130-152: [fuel] bounds the number of
    passes, and running out of it is divergence. *)
Fixpoint fetch_loop (fuel : nat) (ParentId : option string)
    (start_index : nat) (all_items : list item) : M (list item) :=
  match fuel with
  | O => diverge
  | S fuel' =>
      step <- fetch_page ParentId start_index all_items ;;
      match step with
      | Break all_items => ret all_items
      | Continue all_items start_index =>
          fetch_loop fuel' ParentId start_index all_items
      end
  end.

(** [for lib in libraries: if lib['name'].lower() == ...: break],
    lines 120-123. *)
Fixpoint find_library (library_name : string) (libraries : list library)
  : option string :=
  match libraries with
  | [] => None
  | lib :: rest =>
      if (Py.lower (lib_name lib) =? Py.lower library_name)%string
      then Some (lib_id lib)
      else find_library library_name rest
  end.

(** Truthiness of an optional argument that defaults to [None]. *)
Definition given (arg : option string) : bool :=
  match arg with
  | Some s => Py.truthy s
  | None => false
  end.

(** [get_movies_from_library], lines 103-152. *)
Definition get_movies_from_library (fuel : nat)
    (library_name library_id : option string) : M (list item) :=
  ParentId <-
    (if given library_id then ret library_id
     else if given library_name then
       libraries <- get_libraries ;;
       ret (find_library (Py.get library_name "") libraries)
     else ret None) ;;
  print ("Fetching movies from library: " +++
         (if given library_name then Py.get library_name ""
          else "All Libraries") +++ "...") ;;;
  fetch_loop fuel ParentId 0 [].

(** The [for lib_name in selected_libraries] loop of [get_all_movies],
    lines 165-169. *)
Fixpoint get_selected_movies (fuel : nat) (selected_libraries : list string)
    (all_movies : list item) : M (list item) :=
  match selected_libraries with
  | [] => ret all_movies
  | lib_name :: rest =>
      movies <- get_movies_from_library fuel (Some lib_name) None ;;
      match movies with
      | [] => get_selected_movies fuel rest all_movies
      | _ :: _ =>
          print ("Found " +++ Py.str_nat (List.length movies) +++ " movies in '" +++
                 lib_name +++ "'") ;;;
          get_selected_movies fuel rest (all_movies ++ movies)
      end
  end.

(** [get_all_movies], lines 154-171. *)
Definition get_all_movies (fuel : nat) (selected_libraries : list string)
  : M (list item) :=
  match selected_libraries with
  | [] =>
      print "Fetching movies from all libraries..." ;;;
      get_movies_from_library fuel None None
  | _ :: _ =>
      if Py.mem "all" selected_libraries then
        print "Fetching movies from all libraries..." ;;;
        get_movies_from_library fuel None None
      else get_selected_movies fuel selected_libraries []
  end.

End Collector.

(* ================================================================= *)
(** ** Playlist rendering *)

(** Truthiness of an [int]. *)
Definition truthy_int (z : Z) : bool := negb (z =? 0)%Z.

(** [duration_sec], lines 205-206 and 403-404 (the same two statements). *)
Definition duration_sec (movie : item) : Z :=
  let duration_ticks := Py.get (RunTimeTicks movie) 0%Z in
  if truthy_int duration_ticks then (duration_ticks / 10000000)%Z else (-1)%Z.

(** [if item_id:] for [item_id = movie.get('Id')]: the identifier when it is
    present and non-empty. *)
Definition truthy_id (movie : item) : option string :=
  match Id movie with
  | Some item_id => if Py.truthy item_id then Some item_id else None
  | None => None
  end.

Section Rendering.

Variable self : session.

(** [get_stream_url_simple], lines 173-176. *)
Definition get_stream_url_simple (item_id : string) : string :=
  server_url self +++ "/Videos/" +++ item_id +++ "/stream.mp4?static=true".

(** [get_stream_url_with_key], lines 178-180. *)
Definition get_stream_url_with_key (item_id : string) : string :=
  server_url self +++ "/Videos/" +++ item_id +++ "/stream.mp4?api_key=" +++
  api_key self +++ "&static=true".

(** The two lines an entry adds to a playlist, lines 217-218 and 412-413. *)
Definition entry_lines (movie : item) (url : string) : string :=
  "#EXTINF:" +++ Py.str_int (duration_sec movie) +++ "," +++
  Py.get (Name movie) "Unknown" +++ Py.nl +++
  url +++ Py.nl.

(** The [for movie in movies] loop of [generate_playlist_for_library],
    lines 202-218. *)
Fixpoint library_entries (url_type : string) (movies : list item)
    (playlist : string) : string :=
  match movies with
  | [] => playlist
  | movie :: rest =>
      match truthy_id movie with
      | Some item_id =>
          let url :=
            if (url_type =? "simple")%string then get_stream_url_simple item_id
            else if (url_type =? "with_key")%string
                 then get_stream_url_with_key item_id
            else get_stream_url_simple item_id in
          library_entries url_type rest (playlist +++ entry_lines movie url)
      | None => library_entries url_type rest playlist
      end
  end.

(** The header of a per-library playlist, lines 188-200. *)
Definition library_header (n_movies : nat) (library_name url_type : string)
  : string :=
  let playlist := "#EXTM3U" +++ Py.nl in
  let playlist := playlist +++ "# Jellyfin Playlist - " +++ library_name +++ Py.nl in
  let playlist := playlist +++ "# Generated from: " +++ server_url self +++ Py.nl in
  let playlist := playlist +++ "# Total movies: " +++ Py.str_nat n_movies +++ Py.nl in
  let playlist :=
    if (url_type =? "simple")%string then
      (playlist +++ "# URL Format: " +++ server_url self +++
         "/Videos/ID/stream.mp4?static=true" +++ Py.nl)
      +++ "# Note: May work without authentication in VLC" +++ Py.nl
    else if (url_type =? "with_key")%string then
      (playlist +++ "# URL Format: " +++ server_url self +++
         "/Videos/ID/stream.mp4?api_key=XXX&static=true" +++ Py.nl)
      +++ "# Note: Contains API key in URL" +++ Py.nl
    else playlist in
  playlist +++ Py.nl.

(** [generate_playlist_for_library], lines 182-220; [None] is Python's
    [None], returned for an empty list. *)
Definition generate_playlist_for_library (movies : list item)
    (library_name url_type : string) : option string :=
  match movies with
  | [] => None
  | _ :: _ =>
      Some (library_entries url_type movies
              (library_header (List.length movies) library_name url_type))
  end.

(** The header of the combined playlist, lines 390-398. *)
Definition combined_header (n_movies : nat) (url_type : string) : string :=
  let combined_playlist := "#EXTM3U" +++ Py.nl in
  let combined_playlist :=
    combined_playlist +++ "# Jellyfin Playlist - All Movies" +++ Py.nl in
  let combined_playlist :=
    combined_playlist +++ "# Generated from: " +++ server_url self +++ Py.nl in
  let combined_playlist :=
    combined_playlist +++ "# Total movies: " +++ Py.str_nat n_movies +++ Py.nl in
  if (url_type =? "simple")%string then
    combined_playlist +++ "# URL Format: " +++ server_url self +++
      "/Videos/ID/stream.mp4?static=true" +++ Py.nl +++ Py.nl
  else if (url_type =? "with_key")%string then
    combined_playlist +++ "# URL Format: " +++ server_url self +++
      "/Videos/ID/stream.mp4?api_key=XXX&static=true" +++ Py.nl +++ Py.nl
  else combined_playlist.

(** The [for movie in all_movies_combined] loop, lines 400-413.  The
    variable [url] is assigned in the two known modes only: in any other
    mode the first movie with an identifier reads it unassigned. *)
Fixpoint combined_entries (url_type : string) (movies : list item)
    (combined_playlist : string) : res string :=
  match movies with
  | [] => Ret combined_playlist
  | movie :: rest =>
      match truthy_id movie with
      | Some item_id =>
          if (url_type =? "simple")%string then
            combined_entries url_type rest
              (combined_playlist +++
               entry_lines movie (get_stream_url_simple item_id))
          else if (url_type =? "with_key")%string then
            combined_entries url_type rest
              (combined_playlist +++
               entry_lines movie (get_stream_url_with_key item_id))
          else Raise "UnboundLocalError"
      | None => combined_entries url_type rest combined_playlist
      end
  end.

(** The text of the combined playlist, lines 390-413. *)
Definition combined_playlist_text (url_type : string)
    (all_movies_combined : list item) : res string :=
  combined_entries url_type all_movies_combined
    (combined_header (List.length all_movies_combined) url_type).

End Rendering.

(* ================================================================= *)
(** ** The interactive driver *)

(** The two built-ins the driver applies to a token of the selection line:
    [num.isdigit()], and [int(num)] for a token [isdigit] accepts, where
    [None] is ValueError.  Which characters outside ASCII count as digits,
    which of them [int] converts (it refuses some that [isdigit] accepts,
    such as a superscript two), and how long a token it accepts are matters
    of the interpreter, so the driver is modelled for every such pair. *)
Record token_reader : Type := mkReader {
  isdigit : string -> bool;
  int : string -> option Z
}.

(** The two built-ins as they answer on tokens made of ASCII characters,
    with the default limit on the length of a number.  Used for the
    example runs, whose console input is ASCII. *)
Definition ascii_reader : token_reader :=
  mkReader Py.ascii_isdigit Py.ascii_int.

(** [d[k] = v] on a dict kept in insertion order: a key that is already
    there keeps its place. *)
Fixpoint dict_set {V : Type} (k : string) (v : V) (d : list (string * V))
  : list (string * V) :=
  match d with
  | [] => [(k, v)]
  | (k', v') :: rest =>
      if (k' =? k)%string then (k, v) :: rest
      else (k', v') :: dict_set k v rest
  end.

(** The last content written under a name. *)
Fixpoint file_content (filename : string) (written : list (string * string))
  : option string :=
  match written with
  | [] => None
  | (name, content) :: rest =>
      match file_content filename rest with
      | Some later => Some later
      | None => if (name =? filename)%string then Some content else None
      end
  end.

Section Generator.

Variable srv : server.
Variable py : token_reader.
Variable self : session.
(** Whether [open(filename, 'w')] succeeds. *)
Variable writable : string -> bool.

(** [with open(filename, 'w') as f: f.write(content)] inside [try]: the
    answer tells whether the [except] branch was taken. *)
Definition write_file (filename content : string) : M bool :=
  fun w =>
    if writable filename then
      (Ret true,
       mkWorld (requests w) (stdout w) (stdin w)
               (files w ++ [(filename, content)]))
    else (Ret false, w).

(** The block that falls back to all libraries, lines 269-273, 301-303
    and 308-310. *)
Definition use_all_libraries (fuel : nat)
    (library_movies : list (string * list item))
  : M (list (string * list item)) :=
  all_movies <- get_all_movies srv fuel ["all"] ;;
  match all_movies with
  | [] => ret library_movies
  | _ :: _ => ret (dict_set "All Movies" all_movies library_movies)
  end.

(** The [for num in selected_nums] loop, lines 285-296.  The list
    [selected_libraries] the loop also appends to is never read again.
    [int(num)] at line 287 is outside any [try]: its ValueError leaves the
    loop and the driver. *)
Fixpoint select_by_numbers (fuel : nat) (libraries : list library)
    (selected_nums : list string) (library_movies : list (string * list item))
  : M (list (string * list item)) :=
  match selected_nums with
  | [] => ret library_movies
  | num :: rest =>
      if isdigit py num then
        match int py num with
        | Some n =>
            let idx := (n - 1)%Z in
            if ((0 <=? idx) && (idx <? Z.of_nat (List.length libraries)))%Z then
              match nth_error libraries (Z.to_nat idx) with
              | Some lib =>
                  let lib_name := lib_name lib in
                  movies <- get_movies_from_library srv fuel (Some lib_name) None ;;
                  match movies with
                  | [] => select_by_numbers fuel libraries rest library_movies
                  | _ :: _ =>
                      select_by_numbers fuel libraries rest
                        (dict_set lib_name movies library_movies)
                  end
              | None => raise "IndexError"
              end
            else select_by_numbers fuel libraries rest library_movies
        | None => raise "ValueError"
        end
      else select_by_numbers fuel libraries rest library_movies
  end.

(** The library selection, lines 259-310. *)
Definition select_libraries (fuel : nat) (libraries : list library)
  : M (list (string * list item)) :=
  line <- input ;;
  let choice := Py.strip line in
  if (choice =? "1")%string then use_all_libraries fuel []
  else if (choice =? "2")%string then
    line <- input ;;
    let selections := Py.strip line in
    library_movies <-
      (if Py.truthy selections then
         select_by_numbers fuel libraries
           (map Py.strip (Py.split "," selections)) []
       else ret []) ;;
    match library_movies with
    | [] => use_all_libraries fuel library_movies
    | _ :: _ => ret library_movies
    end
  else use_all_libraries fuel [].

(** The URL type selection, lines 325-340. *)
Definition choose_url_types : M (list string) :=
  line <- input ;;
  let url_choice := Py.strip line in
  if (url_choice =? "1")%string then ret ["simple"]
  else if (url_choice =? "2")%string then ret ["with_key"]
  else if (url_choice =? "3")%string then ret ["simple"; "with_key"]
  else ret ["simple"].

(** [{'simple': '_simple', 'with_key': '_with_api_key'}.get(url_type, '')] *)
Definition type_suffix (url_type : string) : string :=
  if (url_type =? "simple")%string then "_simple"
  else if (url_type =? "with_key")%string then "_with_api_key"
  else "".

(** [lib_name.replace(' ', '_').replace('/', '_').replace('\\', '_')] *)
Definition safe_name (lib_name : string) : string :=
  Py.replace_char Py.backslash "_"
    (Py.replace_char "/" "_" (Py.replace_char " " "_" lib_name)).

Definition library_filename (lib_name url_type : string) : string :=
  "jellyfin_" +++ safe_name lib_name +++ type_suffix url_type +++ ".m3u".

Definition combined_filename (url_type : string) : string :=
  "jellyfin_ALL_MOVIES" +++ type_suffix url_type +++ ".m3u".

(** The [for lib_name, movies in library_movies.items()] loop,
    lines 359-380. *)
Fixpoint write_library_playlists (url_type : string)
    (library_movies : list (string * list item)) (saved_files : list string)
  : M (list string) :=
  match library_movies with
  | [] => ret saved_files
  | (lib_name, movies) :: rest =>
      match generate_playlist_for_library self movies lib_name url_type with
      | Some playlist_content =>
          if Py.truthy playlist_content then
            let filename := library_filename lib_name url_type in
            ok <- write_file filename playlist_content ;;
            write_library_playlists url_type rest
              (if ok then saved_files ++ [filename] else saved_files)
          else write_library_playlists url_type rest saved_files
      | None => write_library_playlists url_type rest saved_files
      end
  end.

(** The combined playlist, lines 383-423. *)
Definition write_combined_playlist (url_type : string)
    (library_movies : list (string * list item)) (saved_files : list string)
  : M (list string) :=
  if 1 <? List.length library_movies then
    let all_movies_combined := List.concat (map snd library_movies) in
    match all_movies_combined with
    | [] => ret saved_files
    | _ :: _ =>
        match combined_playlist_text self url_type all_movies_combined with
        | Ret combined_playlist =>
            let filename := combined_filename url_type in
            ok <- write_file filename combined_playlist ;;
            ret (if ok then saved_files ++ [filename] else saved_files)
        | Raise e => raise e
        | Diverge => diverge
        end
    end
  else ret saved_files.

(** The [for url_type in url_types] loop, lines 350-423. *)
Fixpoint write_playlists (url_types : list string)
    (library_movies : list (string * list item)) (saved_files : list string)
  : M (list string) :=
  match url_types with
  | [] => ret saved_files
  | url_type :: rest =>
      saved_files <- write_library_playlists url_type library_movies saved_files ;;
      saved_files <- write_combined_playlist url_type library_movies saved_files ;;
      write_playlists rest library_movies saved_files
  end.

(** [sum(len(movies) for movies in library_movies.values())] *)
Definition total_movies (library_movies : list (string * list item)) : nat :=
  fold_left (fun acc kv => acc + List.length (snd kv)) library_movies 0.

(** The text of the summary, lines 477-535; [current_time] is
    [datetime.datetime.now().strftime('%Y-%m-%d %H:%M:%S')]. *)
Definition summary_text (current_time : string) (saved_files : list string)
    (library_movies : list (string * list item)) (url_types : list string)
  : string :=
  let summary :=
    "# Jellyfin Playlists Summary" +++ Py.nl +++
    Py.nl +++
    "## Generated from: " +++ server_url self +++ Py.nl +++
    "## Date: " +++ current_time +++ Py.nl +++
    "## URL Types: " +++ Py.join ", " url_types +++ Py.nl +++
    Py.nl +++
    "## Playlists Created:" +++ Py.nl in
  let summary :=
    fold_left (fun summary file => summary +++ "- " +++ file +++ Py.nl)
      saved_files summary in
  let summary := summary +++ Py.nl +++ "## Library Breakdown:" +++ Py.nl in
  let summary :=
    fold_left
      (fun summary kv =>
         summary +++ "- **" +++ fst kv +++ "**: " +++
         Py.str_nat (List.length (snd kv)) +++ " movies" +++ Py.nl)
      library_movies summary in
  let summary :=
    summary +++ Py.nl +++ "## Total Movies: " +++
    Py.str_nat (total_movies library_movies) in
  summary +++
  Py.nl +++
  Py.nl +++
  "## URL Formats Used:" +++ Py.nl +++
  Py.nl +++
  "### Simple URLs (jellyfin_*_simple.m3u):" +++ Py.nl +++
  server_url self +++ "/Videos/ITEM_ID/stream.mp4?static=true" +++ Py.nl +++
  Py.nl +++
  "### URLs with API Key (jellyfin_*_with_api_key.m3u):" +++ Py.nl +++
  server_url self +++ "/Videos/ITEM_ID/stream.mp4?api_key=" +++ Py.take 10 (api_key self) +++ "...&static=true" +++ Py.nl +++
  Py.nl +++
  "## Why Simple URLs May Work:" +++ Py.nl +++
  Py.nl +++
  "1. **?static=true** parameter may bypass some authentication checks" +++ Py.nl +++
  "2. Jellyfin may have " +++ Py.dq +++ "Allow playback without authentication" +++ Py.dq +++ " enabled" +++ Py.nl +++
  "3. Your network may be trusted (local IP range)" +++ Py.nl +++
  "4. Session cookies from browser may still be valid" +++ Py.nl +++
  Py.nl +++
  "## Testing:" +++ Py.nl +++
  Py.nl +++
  "To test which URL works:" +++ Py.nl +++
  "1. Get a movie ID from Jellyfin web interface" +++ Py.nl +++
  "2. Try in VLC: " +++ server_url self +++ "/Videos/MOVIE_ID/stream.mp4?static=true" +++ Py.nl +++
  "3. If it plays, use the " +++ Py.dq +++ "simple" +++ Py.dq +++ " playlists" +++ Py.nl +++
  "4. If not, try with API key" +++ Py.nl +++
  Py.nl +++
  "## VLC Settings (if needed):" +++ Py.nl +++
  Py.nl +++
  "If authentication is required:" +++ Py.nl +++
  "1. Open VLC > Tools > Preferences > Show All Settings" +++ Py.nl +++
  "2. Input/Codecs > Access modules > HTTP" +++ Py.nl +++
  "3. Add header: X-Emby-Token: " +++ api_key self +++ Py.nl +++
  "4. OR use URLs with API key" +++ Py.nl +++
  Py.nl +++
  "## Security Note:" +++ Py.nl +++
  Py.nl +++
  "- URLs with API key expose your API key" +++ Py.nl +++
  "- Anyone with the playlist can access your Jellyfin server" +++ Py.nl +++
  "- Use simple URLs if they work" +++ Py.nl +++
  "- Regenerate API key if playlist is shared accidentally" +++ Py.nl.

Definition summary_filename : string := "PLAYLISTS_SUMMARY.txt".

(** [create_summary_file], lines 473-542; a failed write is ignored. *)
Definition create_summary_file (current_time : string)
    (saved_files : list string) (library_movies : list (string * list item))
    (url_types : list string) : M unit :=
  _ <- write_file summary_filename
         (summary_text current_time saved_files library_movies url_types) ;;
  ret tt.

(** The connection test, lines 227-237. *)
Definition test_connection : M bool :=
  try_except
    (response <- session_get srv SystemInfo ;;
     if (fst response =? 200)%Z then
       _ <- response_json (snd response) ;;
       ret true
     else ret false)
    (fun _ => ret false).

(** Everything [generate_playlists] does before the summary,
    lines 224-423: [None] when it returned [False] on the way, otherwise
    what it hands to [create_summary_file]. *)
Definition collect_and_write (fuel : nat)
  : M (option (list string * list (string * list item) * list string)) :=
  connected <- test_connection ;;
  if negb connected then ret None
  else
    libraries <- get_libraries srv ;;
    match libraries with
    | [] => ret None
    | _ :: _ =>
        library_movies <- select_libraries fuel libraries ;;
        match library_movies with
        | [] => ret None
        | _ :: _ =>
            url_types <- choose_url_types ;;
            saved_files <- write_playlists url_types library_movies [] ;;
            ret (Some (saved_files, library_movies, url_types))
        end
    end.

(** [generate_playlists], lines 222-471; [current_time] is what the
    clock shows when the summary is written. *)
Definition generate_playlists (current_time : string) (fuel : nat) : M bool :=
  r <- collect_and_write fuel ;;
  match r with
  | None => ret false
  | Some (saved_files, library_movies, url_types) =>
      create_summary_file current_time saved_files library_movies url_types ;;;
      ret true
  end.

End Generator.

(* ================================================================= *)
(** ** Notions the properties are stated with *)

(** The concatenation of a list of strings. *)
Definition flatten (parts : list string) : string :=
  fold_right String.append "" parts.

(** The two URL modes the driver can ask for. *)
Definition known_mode (url_type : string) : Prop :=
  url_type = "simple" \/ url_type = "with_key".

(** A movie that gets an entry: its identifier is present and non-empty. *)
Definition has_id (movie : item) : bool :=
  match truthy_id movie with
  | Some _ => true
  | None => false
  end.

(** The URL a mode stands for; every mode but [with_key] means the simple
    URL in [generate_playlist_for_library]. *)
Definition url_for (self : session) (url_type item_id : string) : string :=
  if (url_type =? "with_key")%string then get_stream_url_with_key self item_id
  else get_stream_url_simple self item_id.

(** What one movie contributes to a playlist. *)
Definition rendered_entry (self : session) (url_type : string) (movie : item)
  : string :=
  match truthy_id movie with
  | Some item_id => entry_lines movie (url_for self url_type item_id)
  | None => ""
  end.

(** The header lines both rendering paths write, up to and including the
    [# URL Format:] line. *)
Definition shared_header (self : session) (n_movies : nat)
    (library_name url_type : string) : string :=
  "#EXTM3U" +++ Py.nl +++
  "# Jellyfin Playlist - " +++ library_name +++ Py.nl +++
  "# Generated from: " +++ server_url self +++ Py.nl +++
  "# Total movies: " +++ Py.str_nat n_movies +++ Py.nl +++
  "# URL Format: " +++ server_url self +++
  (if (url_type =? "with_key")%string
   then "/Videos/ID/stream.mp4?api_key=XXX&static=true"
   else "/Videos/ID/stream.mp4?static=true") +++ Py.nl.

(** The line only the per-library path writes. *)
Definition note_line (url_type : string) : string :=
  (if (url_type =? "with_key")%string
   then "# Note: Contains API key in URL"
   else "# Note: May work without authentication in VLC") +++ Py.nl.

(** Sample data. *)
Module Sample.

Definition host : session := mkSession "http://host:8096" "secret-token".

Definition movie (item_id name : string) (ticks : Z) : item :=
  mkItem (Some item_id) (Some name) (Some "Movie") (Some ticks).

Definition alien : item := movie "abc123" "Alien" 36000000000.
Definition brazil : item := movie "def456" "Brazil" 79200000000.
Definition nameless : item := mkItem (Some "x9") None None None.
Definition no_id : item := mkItem None (Some "Ghost") (Some "Movie") (Some 10000000%Z).
Definition empty_id : item := mkItem (Some "") (Some "Blank") (Some "Movie") (Some 0%Z).

End Sample.

(** The world after one more request has been sent. *)
Definition sent (req : request) (w : world) : world :=
  mkWorld (requests w ++ [req]) (stdout w) (stdin w) (files w).

(** The world after one more line has been printed. *)
Definition printed (line : string) (w : world) : world :=
  mkWorld (requests w) (stdout w ++ [line]) (stdin w) (files w).

(** The item type a probe answer shows: the type of its first item when
    the answer is a 200 with a decodable body, [Unknown] in every other
    case. *)
Definition probed_type (answer : http_result) : string :=
  match answer with
  | Reply status_code (Json data) =>
      if (status_code =? 200)%Z then
        match Py.get (Items data) [] with
        | first :: _ => Py.get (Type_ first) "Unknown"
        | [] => "Unknown"
        end
      else "Unknown"
  | _ => "Unknown"
  end.

(** Whether a folder name contains [movie], whatever the case. *)
Definition movie_named (name : string) : bool :=
  Py.contains "movie" (Py.lower name).

(** Discovery, folder by folder: what a folder adds to the result when
    [probe] tells the answer to the probe of a folder. *)
Definition classify_folder (probe : string -> http_result) (folder : item)
  : list library :=
  let name := Py.get (Name folder) "" in
  let folder_id := Py.get (Id folder) "" in
  if (name =? "")%string then []
  else if movie_named name then [mkLibrary folder_id name "Movie"]
  else if (probed_type (probe folder_id) =? "Movie")%string
       then [mkLibrary folder_id name "Mixed"]
  else [].

(** The probes discovery sends for a folder. *)
Definition probe_requests (folder : item) : list request :=
  let name := Py.get (Name folder) "" in
  if (name =? "")%string then []
  else if movie_named name then []
  else [ItemsProbe (Py.get (Id folder) "")].

(** The classification as the specification words it, with no case for a
    folder without a name: [movie] in the name, else the probe. *)
Definition classify_folder_as_specified (probe : string -> http_result)
    (folder : item) : list library :=
  let name := Py.get (Name folder) "" in
  let folder_id := Py.get (Id folder) "" in
  if movie_named name then [mkLibrary folder_id name "Movie"]
  else if (probed_type (probe folder_id) =? "Movie")%string
       then [mkLibrary folder_id name "Mixed"]
  else [].

(** Mock servers. *)
Module Mock.

Definition folder (folder_id name : string) : item :=
  mkItem (Some folder_id) (Some name) (Some "CollectionFolder") None.

Definition body (items : list item) (total : Z) : json_outcome :=
  Json (mkData (Some items) (Some total) None).

Definition ok (items : list item) (total : Z) : http_result :=
  Reply 200 (body items total).

Definition start : world := mkWorld [] [] [] [].

(** Probe answers: an item of the given type. *)
Definition probe_of (item_type : string) : http_result :=
  ok [mkItem (Some "p") (Some "probe") (Some item_type) None] 1.

(** Two libraries, [Movies] (a movie inside) and [TV Shows] (an episode
    inside). *)
Definition two_libraries_probe (folder_id : string) : http_result :=
  if (folder_id =? "lib-movies")%string then probe_of "Movie"
  else probe_of "Episode".

Definition two_libraries : server :=
  fun _ req =>
    match req with
    | SystemInfo => Reply 200 (Json (mkData None None (Some "Home")))
    | MediaFolders =>
        ok [folder "lib-movies" "Movies"; folder "lib-tv" "TV Shows"] 2
    | ItemsProbe folder_id => two_libraries_probe folder_id
    | ItemsPage _ _ _ => ok [] 0
    end.

(** One folder without a name that holds movies. *)
Definition nameless_folder : item :=
  mkItem (Some "lib-x") None (Some "CollectionFolder") None.

Definition nameless_library : server :=
  fun _ req =>
    match req with
    | MediaFolders => ok [nameless_folder] 1
    | ItemsProbe _ => probe_of "Movie"
    | _ => ok [] 0
    end.

(** A server that answers every request with status 503. *)
Definition unavailable : server :=
  fun _ _ => Reply 503 (Json (mkData None None None)).

(** A server that cannot be reached. *)
Definition unreachable : server :=
  fun _ _ => ConnError "Connection refused".

End Mock.

(** [ceil(n / p)] *)
Definition ceil_div (n p : nat) : nat := (n + p - 1) / p.

(** The request for the page at an offset. *)
Definition page_request (ParentId : option string) (offset : nat) : request :=
  ItemsPage ParentId offset page_limit.

(** A server that holds the list [held] for a scope and serves it in
    pages: asked for the page at an offset, it sends the items from the
    offset on, at most [size] of them, where [size] is at least 1 and at
    most the limit asked for and may change from one request to the next,
    and it reports the size of the list as total. *)
Definition serves_in_pages (srv : server) (ParentId : option string)
    (held : list item) (size : list request -> nat -> nat) : Prop :=
  forall history start_index,
    1 <= size history start_index <= page_limit /\
    srv history (page_request ParentId start_index) =
    Reply 200
      (Json (mkData (Some (firstn (size history start_index)
                                  (skipn start_index held)))
                    (Some (Z.of_nat (List.length held))) None)).

(** The server fills every page up to the limit. *)
Definition full_pages (size : list request -> nat -> nat) : Prop :=
  forall history start_index, size history start_index = page_limit.

(** The offsets of [calls] full pages: 0, 1000, 2000, ... *)
Definition full_page_offsets (calls : nat) : list nat :=
  map (fun i => i * page_limit) (seq 0 calls).

(** The offsets a client that skips nothing asks for when it receives the
    pages [pages] one after the other, starting at [offset]. *)
Fixpoint offsets_from (offset : nat) (pages : list (list item)) : list nat :=
  match pages with
  | [] => []
  | page :: rest => offset :: offsets_from (offset + List.length page) rest
  end.

(** Every page request of a scope succeeds, reports a total of at most
    [bound], and carries at least one item unless the offset asked for has
    already reached the total it reports. *)
Definition serves_nonempty_pages (srv : server) (ParentId : option string)
    (bound : nat) : Prop :=
  forall history start_index,
    exists data,
      srv history (page_request ParentId start_index) = Reply 200 (Json data) /\
      (Py.get (TotalRecordCount data) 0 <= Z.of_nat bound)%Z /\
      (Py.get (Items data) [] = [] ->
       (Py.get (TotalRecordCount data) 0 <= Z.of_nat start_index)%Z).

(** The pagination protocol, played against a server by a client that
    has sent the requests [history] and holds [count] items: it asks for
    the page at offset [count]; the answer is a 200 whose items it adds to
    what it holds; it stops at the first answer with which the items held
    reach the total that answer reports, and otherwise asks again at the
    new count.  [receives srv ParentId history count pages] says that
    [pages] are the item lists of the answers, in order, up to the one the
    client stops at. *)
Inductive receives (srv : server) (ParentId : option string)
  : list request -> nat -> list (list item) -> Prop :=
| receives_last (history : list request) (count : nat) (data : json_data) :
    srv history (page_request ParentId count) = Reply 200 (Json data) ->
    (Py.get (TotalRecordCount data) 0 <=
     Z.of_nat (count + List.length (Py.get (Items data) [])))%Z ->
    receives srv ParentId history count [Py.get (Items data) []]
| receives_more (history : list request) (count : nat) (data : json_data)
    (rest : list (list item)) :
    srv history (page_request ParentId count) = Reply 200 (Json data) ->
    (Z.of_nat (count + List.length (Py.get (Items data) [])) <
     Py.get (TotalRecordCount data) 0)%Z ->
    receives srv ParentId (history ++ [page_request ParentId count])
      (count + List.length (Py.get (Items data) [])) rest ->
    receives srv ParentId history count (Py.get (Items data) [] :: rest).

(** The outcome of a complete fetch of the list [held], for a run given as
    a function of the fuel: the pages received make up the list; with
    enough fuel the run returns the list; the requests are the page requests
    at the offsets reached by adding up the sizes of the pages received;
    their number is at least max(1, ceil(N / 1000)) and at most max(1, N),
    and with full pages it is the former, at the offsets 0, 1000, ... *)
Definition fetches_all (ParentId : option string) (held : list item)
    (full : Prop) (w : world) (run : nat -> res (list item) * world) : Prop :=
  let n := List.length held in
  let least := Nat.max 1 (ceil_div n page_limit) in
  exists pages w',
    List.concat pages = held /\
    (forall fuel, List.length pages <= fuel -> run fuel = (Ret held, w')) /\
    requests w' =
      requests w ++ map (page_request ParentId) (offsets_from 0 pages) /\
    least <= List.length pages <= Nat.max 1 n /\
    (full ->
     List.length pages = least /\
     offsets_from 0 pages = full_page_offsets least).

Module MockPages.

(** A server that holds a list and serves it [page_size] items at a time,
    whatever the limit asked for. *)
Definition short_pages (page_size : nat) (held : list item) : server :=
  fun _ req =>
    match req with
    | ItemsPage _ start_index _ =>
        Mock.ok (firstn page_size (skipn start_index held))
                (Z.of_nat (List.length held))
    | _ => Mock.ok [] 0
    end.

(** A server that holds a list and serves it in full pages. *)
Definition full_pages (held : list item) : server :=
  fun _ req =>
    match req with
    | ItemsPage _ start_index limit =>
        Mock.ok (firstn limit (skipn start_index held))
                (Z.of_nat (List.length held))
    | _ => Mock.ok [] 0
    end.

(** A server that reports one record and never sends it. *)
Definition stalled : server :=
  fun _ _ => Mock.ok [] 1.

Definition five : list item :=
  [Sample.movie "m1" "A" 10000000; Sample.movie "m2" "B" 20000000;
   Sample.movie "m3" "C" 30000000; Sample.movie "m4" "D" 40000000;
   Sample.movie "m5" "E" 50000000].

End MockPages.

(** The world after a file has been written. *)
Definition wrote (filename content : string) (w : world) : world :=
  mkWorld (requests w) (stdout w) (stdin w) (files w ++ [(filename, content)]).

(** Every group of a library-name to movie-list mapping holds a movie. *)
Definition groups_nonempty (library_movies : list (string * list item)) : Prop :=
  Forall (fun kv => snd kv <> []) library_movies.

(** The files the per-library loop writes for a mapping: one for every
    non-empty group whose file can be opened. *)
Definition playlist_writes (self : session) (writable : string -> bool)
    (url_type : string) (library_movies : list (string * list item))
  : list (string * string) :=
  flat_map
    (fun kv =>
       match generate_playlist_for_library self (snd kv) (fst kv) url_type with
       | Some playlist_content =>
           if writable (library_filename (fst kv) url_type)
           then [(library_filename (fst kv) url_type, playlist_content)]
           else []
       | None => []
       end)
    library_movies.

(** The seconds an entry shows: the ticks divided by ten million, rounded
    down, and -1 when the ticks are absent or zero. *)
Definition shown_seconds (movie : item) : Z :=
  match RunTimeTicks movie with
  | Some ticks => if (ticks =? 0)%Z then (-1)%Z else (ticks / 10000000)%Z
  | None => (-1)%Z
  end.

(** The title an entry shows. *)
Definition shown_name (movie : item) : string :=
  match Name movie with
  | Some name => name
  | None => "Unknown"
  end.

(** The two lines of a movie in a playlist, spelled out; a movie without
    an identifier, or with an empty one, has no line. *)
Definition expected_entry (self : session) (url_type : string) (movie : item)
  : string :=
  match Id movie with
  | Some (String c r) =>
      "#EXTINF:" +++ Py.str_int (shown_seconds movie) +++ "," +++
      shown_name movie +++ Py.nl +++
      server_url self +++ "/Videos/" +++ String c r +++
      (if (url_type =? "with_key")%string
       then "/stream.mp4?api_key=" +++ api_key self +++ "&static=true"
       else "/stream.mp4?static=true") +++ Py.nl
  | _ => ""
  end.

(** The text of the combined playlist of a mapping: the header of the
    document [All Movies] with the number of all movies, a blank line, and
    the entries of the movies of all the groups, group after group in the
    order of the mapping. *)
Definition expected_combined_text (self : session) (url_type : string)
    (library_movies : list (string * list item)) : string :=
  let all_movies := List.concat (map snd library_movies) in
  "#EXTM3U" +++ Py.nl +++
  "# Jellyfin Playlist - All Movies" +++ Py.nl +++
  "# Generated from: " +++ server_url self +++ Py.nl +++
  "# Total movies: " +++ Py.str_nat (List.length all_movies) +++ Py.nl +++
  "# URL Format: " +++ server_url self +++
  (if (url_type =? "with_key")%string
   then "/Videos/ID/stream.mp4?api_key=XXX&static=true"
   else "/Videos/ID/stream.mp4?static=true") +++ Py.nl +++
  Py.nl +++
  flatten (map (expected_entry self url_type) all_movies).

(** The combined playlist the driver writes for a URL type: one file when
    the mapping has more than one key and the file can be opened, none
    otherwise. *)
Definition combined_writes (self : session) (writable : string -> bool)
    (url_type : string) (library_movies : list (string * list item))
  : list (string * string) :=
  if (1 <? List.length library_movies) && writable (combined_filename url_type)
  then [(combined_filename url_type,
         expected_combined_text self url_type library_movies)]
  else [].

(** The files a run writes before the summary: for each URL type in turn,
    the per-library playlists and then the combined playlist. *)
Definition expected_writes (self : session) (writable : string -> bool)
    (url_types : list string) (library_movies : list (string * list item))
  : list (string * string) :=
  flat_map
    (fun url_type =>
       playlist_writes self writable url_type library_movies ++
       combined_writes self writable url_type library_movies)
    url_types.

(** Two worlds from which a run meets the same answers: the same console
    input is waiting, and the server answers every request both runs may
    send, after the same further requests, in the same way.  What was
    printed and what files exist may differ. *)
Definition aligned (srv : server) (w u : world) : Prop :=
  stdin w = stdin u /\
  forall later req,
    srv (requests w ++ later) req = srv (requests u ++ later) req.

(** Two runs, from [w] to [w'] and from [u] to [u'], did the same: they
    sent the same requests, printed the same lines and wrote the same
    files with the same contents, on top of whatever was there, and leave
    aligned worlds. *)
Definition same_effects (srv : server) (w u w' u' : world) : Prop :=
  aligned srv w' u' /\
  exists sent out written,
    requests w' = requests w ++ sent /\
    requests u' = requests u ++ sent /\
    stdout w' = stdout w ++ out /\
    stdout u' = stdout u ++ out /\
    files w' = files w ++ written /\
    files u' = files u ++ written.

(** A computation that does the same from any two aligned worlds: its
    outcome and its effects depend on the console input and on the
    server's answers only, never on what was printed or written before. *)
Definition replays {A : Type} (srv : server) (m : M A) : Prop :=
  forall w u,
    aligned srv w u ->
    fst (m w) = fst (m u) /\ same_effects srv w u (snd (m w)) (snd (m u)).

(** The summary text up to the time of the run. *)
Definition summary_before (self : session) : string :=
  "# Jellyfin Playlists Summary" +++ Py.nl +++
  Py.nl +++
  "## Generated from: " +++ server_url self +++ Py.nl +++
  "## Date: ".

Module MockCinema.

Definition kids : list item :=
  [Sample.movie "k1" "Coco" 63000000000].

Definition films : list item := [Sample.alien; Sample.brazil].

(** What the server holds for a scope. *)
Definition held (ParentId : option string) : list item :=
  match ParentId with
  | None => films ++ kids
  | Some folder_id =>
      if (folder_id =? "lib-movies")%string then films
      else if (folder_id =? "lib-kids")%string then kids
      else []
  end.

(** Two movie libraries, served in full pages. *)
Definition cinema : server :=
  fun _ req =>
    match req with
    | SystemInfo => Reply 200 (Json (mkData None None (Some "Home")))
    | MediaFolders =>
        Mock.ok [Mock.folder "lib-movies" "Movies";
                 Mock.folder "lib-kids" "Kids Movies/New"] 2
    | ItemsProbe _ => Mock.probe_of "Movie"
    | ItemsPage ParentId start_index limit =>
        Mock.ok (firstn limit (skipn start_index (held ParentId)))
                (Z.of_nat (List.length (held ParentId)))
    end.

Definition libraries : list library :=
  [mkLibrary "lib-movies" "Movies" "Movie";
   mkLibrary "lib-kids" "Kids Movies/New" "Movie"].

Definition any_file : string -> bool := fun _ => true.

(** A working directory that already holds playlists and a summary of an
    earlier day, and a console that has already shown some lines; the user
    picks all libraries and simple URLs. *)
Definition second_visit : world :=
  mkWorld [] ["(earlier output)"] ["1"; "1"]
    [("jellyfin_All_Movies_simple.m3u", "#EXTM3U (old)");
     ("PLAYLISTS_SUMMARY.txt", "(old summary)");
     ("notes.txt", "keep me")].

(** The user picks libraries 1 and 2, then both URL types. *)
Definition both_libraries : world := mkWorld [] [] ["2"; "1,2"; "3"] [].

(** The user picks all libraries and simple URLs. *)
Definition all_libraries : world := mkWorld [] [] ["1"; "1"] [].

End MockCinema.

(* ================================================================= *)
(** ** The constructor *)

(** The two environment variables [__init__] reads. *)
Record environ : Type := mkEnviron {
  JELLYFIN_SERVER : option string;
  JELLYFIN_API_KEY : option string
}.

(** [a or b] on optional strings: [a] when it is truthy, else [b]. *)
Definition py_or (a b : option string) : option string :=
  if given a then a else b.

(** [url.startswith(('http://', 'https://'))] *)
Definition has_scheme (url : string) : bool :=
  prefix "http://" url || prefix "https://" url.

(** ["="*50] *)
Definition rule50 : string :=
  "==================================================".

Section Constructor.

(** [getpass.getpass(prompt)]: where the key is read from is left open. *)
Variable getpass : M string.

(** [prompt_for_credentials], lines 28-42, on the two attributes
    [self.server_url] and [self.api_key]; the prompts themselves and the
    update of the session headers are not modelled. *)
Definition prompt_for_credentials (server_url api_key : option string)
  : M (option string * option string) :=
  print (Py.nl +++ rule50) ;;;
  print "Jellyfin Configuration" ;;;
  print rule50 ;;;
  server_url <-
    (if negb (given server_url) then
       line <- input ;;
       let server_url := Py.strip line in
       let server_url :=
         if negb (has_scheme server_url) then "http://" +++ server_url
         else server_url in
       ret (Some server_url)
     else ret server_url) ;;
  api_key <-
    (if negb (given api_key) then
       key <- getpass ;;
       ret (Some key)
     else ret api_key) ;;
  ret (server_url, api_key).

(** [__init__], lines 11-26: the values of [self.server_url] and
    [self.api_key] when the constructor returns. *)
Definition init (server_url api_key : option string) (env : environ)
  : M (option string * option string) :=
  let server_url := py_or server_url (JELLYFIN_SERVER env) in
  let api_key := py_or api_key (JELLYFIN_API_KEY env) in
  if negb (given server_url) || negb (given api_key) then
    prompt_for_credentials server_url api_key
  else ret (server_url, api_key).

End Constructor.

(* ================================================================= *)
(** ** Notions for the further properties *)

(** A computation [m] respects a relation between the world before and
    after, and raises only exceptions that satisfy [exn_ok]. *)
Definition respects {A : Type} (rel : world -> world -> Prop)
    (exn_ok : string -> Prop) (m : M A) : Prop :=
  forall w,
    rel w (snd (m w)) /\
    match fst (m w) with
    | Raise e => exn_ok e
    | _ => True
    end.

(** No exception at all. *)
Definition no_exception : string -> Prop := fun _ => False.

(** Any exception. *)
Definition any_exception : string -> Prop := fun _ => True.

(** Only the end of the console input. *)
Definition only_eof : string -> Prop := fun e => e = "EOFError".

(** The console input and the files are as before. *)
Definition same_io (w w' : world) : Prop :=
  stdin w' = stdin w /\ files w' = files w.

(** The files are as before. *)
Definition same_files (w w' : world) : Prop :=
  files w' = files w.

(** No constraint on the world. *)
Definition any_world (w w' : world) : Prop := True.

(** Whether the answer to the connection test lets the run go on: status
    200 and a body that can be decoded. *)
Definition connected (answer : http_result) : bool :=
  match answer with
  | Reply status_code (Json _) => (status_code =? 200)%Z
  | _ => false
  end.

(** What discovery guarantees of a library it returns: a name, and the
    type [Movie] exactly when the name contains [movie]. *)
Definition well_classified (lib : library) : Prop :=
  lib_name lib <> "" /\
  ((lib_type lib = "Movie" /\ movie_named (lib_name lib) = true) \/
   (lib_type lib = "Mixed" /\ movie_named (lib_name lib) = false)).

(** The lines a failed page request makes the loop print, [None] when the
    answer is no failure: an exception of the request or of the decoding
    prints a message, a status other than 200 prints nothing. *)
Definition failed (answer : http_result) : option (list string) :=
  match answer with
  | ConnError e => Some ["Error fetching items: " +++ e]
  | Reply status_code body =>
      if (status_code =? 200)%Z then
        match body with
        | JsonError e => Some ["Error fetching items: " +++ e]
        | Json _ => None
        end
      else Some []
  end.

(** A server that serves the list [held] for a scope in full pages at every
    offset below [fail_at], and fails at [fail_at] with the given answer. *)
Definition serves_until (srv : server) (ParentId : option string)
    (held : list item) (fail_at : nat) (answer : http_result) : Prop :=
  (forall history start_index,
     start_index < fail_at ->
     srv history (page_request ParentId start_index) =
     Reply 200
       (Json (mkData (Some (firstn page_limit (skipn start_index held)))
                     (Some (Z.of_nat (List.length held))) None))) /\
  (forall history, srv history (page_request ParentId fail_at) = answer).

(** The characters [safe_name] replaces. *)
Definition unsafe_char (c : ascii) : bool :=
  Ascii.eqb c " " || Ascii.eqb c "/" || Ascii.eqb c Py.backslash.

Fixpoint chars (s : string) : list ascii :=
  match s with
  | EmptyString => []
  | String c r => c :: chars r
  end.

(** A token of the selection line that the loop passes over: not digits,
    or a number that is not between 1 and the number of libraries.  (A
    token of digits that [int] refuses is not passed over: it raises.) *)
Definition skipped (py : token_reader) (n_libraries : nat) (num : string)
  : bool :=
  if isdigit py num then
    match int py num with
    | Some n =>
        negb ((0 <=? n - 1)%Z && (n - 1 <? Z.of_nat n_libraries)%Z)
    | None => false
    end
  else true.

(** The tokens of a selection line. *)
Definition selection_tokens (line : string) : list string :=
  map Py.strip (Py.split "," (Py.strip line)).

(** A token of digits that [int] refuses. *)
Definition refused (py : token_reader) (num : string) : Prop :=
  isdigit py num = true /\ int py num = None.

(** The exception of a selection loop over [tokens]: ValueError, at a
    token of digits that [int] refuses. *)
Definition only_refused (py : token_reader) (tokens : list string)
  : string -> Prop :=
  fun e => e = "ValueError" /\ exists num, In num tokens /\ refused py num.

(** The console input that makes the selection raise ValueError: choice 2,
    then a line with a token of digits that [int] refuses. *)
Definition bad_selection (py : token_reader) (lines : list string) : Prop :=
  exists line1 line2 rest num,
    lines = line1 :: line2 :: rest /\
    Py.strip line1 = "2" /\
    In num (selection_tokens line2) /\
    refused py num.

(** The keys the selection step can put in the mapping: the name of a
    discovered library, or [All Movies]. *)
Definition selectable (libraries : list library) (k : string) : Prop :=
  k = "All Movies" \/ In k (map lib_name libraries).

(** What the selection step guarantees of the mapping it returns. *)
Definition selection_ok (libraries : list library)
    (library_movies : list (string * list item)) : Prop :=
  groups_nonempty library_movies /\
  NoDup (map fst library_movies) /\
  Forall (selectable libraries) (map fst library_movies).

Module MockFailing.

(** Serves 2500 copies of one movie in full pages, and answers the request
    at offset 2000 with status 500. *)
Definition many : list item := repeat Sample.alien 2500.

Definition breaks_at_2000 : server :=
  fun _ req =>
    match req with
    | ItemsPage _ start_index limit =>
        if start_index =? 2000 then Reply 500 (Json (mkData None None None))
        else Mock.ok (firstn limit (skipn start_index many))
                     (Z.of_nat (List.length many))
    | _ => Mock.ok [] 0
    end.


(** Opens every file but the playlist of the library [Movies]. *)
Definition read_only_movies : string -> bool :=
  fun filename => negb (filename =? "jellyfin_Movies_simple.m3u")%string.

End MockFailing.

(* ================================================================= *)
(** ** Facts about strings *)

Lemma append_assoc (a b c : string) : (a +++ b) +++ c = a +++ (b +++ c).
Proof. induction a as [|ch a IH]; simpl; [reflexivity | now rewrite IH]. Qed.

Lemma append_nil_r (a : string) : a +++ "" = a.
Proof. induction a as [|ch a IH]; simpl; [reflexivity | now rewrite IH]. Qed.

Lemma append_inj_l (a b c : string) : a +++ b = a +++ c -> b = c.
Proof.
  induction a as [|ch a IH]; simpl; intros H; [exact H|].
  injection H as H. now apply IH.
Qed.

Lemma length_append (a b : string) :
  String.length (a +++ b) = String.length a + String.length b.
Proof. induction a as [|ch a IH]; simpl; [reflexivity | now rewrite IH]. Qed.

Lemma truthy_true (s : string) : Py.truthy s = true <-> s <> "".
Proof.
  unfold Py.truthy. destruct (String.eqb_spec s ""); simpl; split; congruence.
Qed.

Lemma truthy_id_some (movie : item) (item_id : string) :
  truthy_id movie = Some item_id <-> Id movie = Some item_id /\ item_id <> "".
Proof.
  unfold truthy_id.
  destruct (Id movie) as [i|]; [|split; [discriminate|intros [H _]; discriminate]].
  destruct (Py.truthy i) eqn:E.
  - apply truthy_true in E. split.
    + intros H; injection H as <-. now split.
    + intros [H _]. exact H.
  - split; [discriminate|]. intros [H Hne]. injection H as ->.
    apply truthy_true in Hne. congruence.
Qed.

Lemma truthy_id_none (movie : item) :
  truthy_id movie = None <-> Id movie = None \/ Id movie = Some "".
Proof.
  unfold truthy_id. destruct (Id movie) as [i|]; [|split; auto].
  unfold Py.truthy. destruct (String.eqb_spec i ""); simpl.
  - subst. split; auto.
  - split; [discriminate|]. intros [H|H]; congruence.
Qed.

(* ================================================================= *)
(** ** Rendering: the entry loops *)

Section RenderingFacts.

Variable self : session.

Lemma library_entries_step (url_type : string) (movie : item)
    (rest : list item) (playlist : string) :
  library_entries self url_type (movie :: rest) playlist =
  library_entries self url_type rest
    (playlist +++ rendered_entry self url_type movie).
Proof.
  simpl. unfold rendered_entry, url_for.
  destruct (truthy_id movie) as [i|]; [|now rewrite append_nil_r].
  destruct (String.eqb_spec url_type "simple") as [->|]; [reflexivity|].
  destruct (String.eqb_spec url_type "with_key"); reflexivity.
Qed.

Lemma library_entries_flatten (url_type : string) (movies : list item)
    (playlist : string) :
  library_entries self url_type movies playlist =
  playlist +++ flatten (map (rendered_entry self url_type) movies).
Proof.
  revert playlist.
  induction movies as [|movie rest IH]; intros playlist.
  - simpl. now rewrite append_nil_r.
  - rewrite library_entries_step, IH, append_assoc. reflexivity.
Qed.

Lemma combined_entries_known (url_type : string) (movies : list item)
    (combined_playlist : string) :
  known_mode url_type ->
  combined_entries self url_type movies combined_playlist =
  Ret (library_entries self url_type movies combined_playlist).
Proof.
  intros Hmode. revert combined_playlist.
  induction movies as [|movie rest IH]; intros p; simpl; [reflexivity|].
  destruct (truthy_id movie) as [i|]; [|apply IH].
  destruct Hmode as [-> | ->]; simpl; apply IH.
Qed.

Lemma flatten_skip (f : item -> string) (keep : item -> bool)
    (movies : list item) :
  (forall m, keep m = false -> f m = "") ->
  flatten (map f movies) = flatten (map f (filter keep movies)).
Proof.
  intros Hskip. induction movies as [|m rest IH]; [reflexivity|].
  simpl filter. destruct (keep m) eqn:K; simpl.
  - now rewrite IH.
  - now rewrite (Hskip m K), IH.
Qed.

Lemma rendered_entry_no_id (url_type : string) (movie : item) :
  has_id movie = false -> rendered_entry self url_type movie = "".
Proof.
  unfold has_id, rendered_entry. now destruct (truthy_id movie).
Qed.

Lemma library_header_known (n_movies : nat) (library_name url_type : string) :
  known_mode url_type ->
  library_header self n_movies library_name url_type =
  shared_header self n_movies library_name url_type +++
  note_line url_type +++ Py.nl.
Proof.
  intros [-> | ->]; unfold library_header, shared_header, note_line; simpl;
    repeat (rewrite ?append_assoc; simpl); reflexivity.
Qed.

Lemma combined_header_known (n_movies : nat) (url_type : string) :
  known_mode url_type ->
  combined_header self n_movies url_type =
  shared_header self n_movies "All Movies" url_type +++ Py.nl.
Proof.
  intros [-> | ->]; unfold combined_header, shared_header; simpl;
    repeat (rewrite ?append_assoc; simpl); reflexivity.
Qed.

End RenderingFacts.

(* ================================================================= *)
(** ** Rendering: the properties *)

(** C9.  The simple stream URL is [{server}/Videos/{id}/stream.mp4?static=true]
    and does not depend on the access token; the URL with key is
    [{server}/Videos/{id}/stream.mp4?api_key={token}&static=true] with the
    token as it is; item [abc123] on [http://host:8096] gives
    [http://host:8096/Videos/abc123/stream.mp4?static=true]. *)
Theorem stream_url_format (self : session) (item_id : string) :
  get_stream_url_simple self item_id =
    flatten [server_url self; "/Videos/"; item_id; "/stream.mp4?static=true"] /\
  get_stream_url_with_key self item_id =
    flatten [server_url self; "/Videos/"; item_id; "/stream.mp4?api_key=";
             api_key self; "&static=true"] /\
  (forall token,
     get_stream_url_simple (mkSession (server_url self) token) item_id =
     get_stream_url_simple self item_id) /\
  get_stream_url_simple (mkSession "http://host:8096" (api_key self)) "abc123" =
    "http://host:8096/Videos/abc123/stream.mp4?static=true" /\
  get_stream_url_with_key (mkSession "http://host:8096" "t0k3n") "abc123" =
    "http://host:8096/Videos/abc123/stream.mp4?api_key=t0k3n&static=true".
Proof.
  unfold get_stream_url_simple, get_stream_url_with_key, flatten. simpl.
  repeat split.
Qed.

(** C8.  The duration of a movie is -1 when [RunTimeTicks] is absent or
    zero, and otherwise the floor of ticks / 10,000,000; 36,000,000,000
    ticks are 3600 seconds.  Every entry either path writes for a movie
    starts with [#EXTINF:] followed by that number. *)
Theorem duration_rendering (self : session) (movie : item) :
  (RunTimeTicks movie = None \/ RunTimeTicks movie = Some 0%Z ->
   duration_sec movie = (-1)%Z) /\
  (forall t, RunTimeTicks movie = Some t -> t <> 0%Z ->
     duration_sec movie = (t / 10000000)%Z /\
     (10000000 * duration_sec movie <= t < 10000000 * (duration_sec movie + 1))%Z) /\
  duration_sec (mkItem (Id movie) (Name movie) (Type_ movie)
                       (Some 36000000000%Z)) = 3600%Z /\
  (forall url_type item_id playlist,
     truthy_id movie = Some item_id ->
     known_mode url_type ->
     let lines :=
       "#EXTINF:" +++ Py.str_int (duration_sec movie) +++ "," +++
       Py.get (Name movie) "Unknown" +++ Py.nl +++
       url_for self url_type item_id +++ Py.nl in
     library_entries self url_type [movie] playlist = playlist +++ lines /\
     combined_entries self url_type [movie] playlist = Ret (playlist +++ lines)).
Proof.
  split; [|split; [|split]].
  - unfold duration_sec. intros [-> | ->]; reflexivity.
  - intros t Ht Hnz. unfold duration_sec, Py.get, truthy_int. rewrite Ht.
    destruct (Z.eqb_spec t 0); [contradiction|]. cbn [negb].
    split; [reflexivity|].
    pose proof (Z.div_mod t 10000000 ltac:(lia)) as Hdm.
    pose proof (Z.mod_pos_bound t 10000000 ltac:(lia)) as Hb. lia.
  - reflexivity.
  - intros url_type item_id playlist Hid Hmode lines.
    assert (E : library_entries self url_type [movie] playlist = playlist +++ lines).
    { rewrite library_entries_flatten. simpl. unfold rendered_entry.
      rewrite Hid, append_nil_r. reflexivity. }
    split; [exact E|].
    rewrite combined_entries_known by exact Hmode. now rewrite E.
Qed.

Lemma duration_rendering_witness :
  RunTimeTicks Sample.alien = Some 36000000000%Z /\
  duration_sec Sample.alien = 3600%Z /\
  library_entries Sample.host "simple" [Sample.alien] "" =
    "#EXTINF:3600,Alien" +++ Py.nl +++
    "http://host:8096/Videos/abc123/stream.mp4?static=true" +++ Py.nl.
Proof.
  destruct (duration_rendering Sample.host Sample.alien) as (_ & Hdiv & _ & Hline).
  split; [reflexivity|]. split.
  - destruct (Hdiv 36000000000%Z eq_refl) as [-> _]; [discriminate | reflexivity].
  - destruct (Hline "simple" "abc123" "" eq_refl (or_introl eq_refl)) as [-> _].
    reflexivity.
Defined.

(** C10.  A playlist, per-library or combined, is its header followed by
    the entries of the movies whose identifier is present and non-empty, in
    order; a movie whose identifier is missing or empty adds nothing, and
    neither path fails on it. *)
Theorem entries_need_identifier (self : session) (url_type library_name : string)
    (movie : item) (rest : list item) :
  let movies := movie :: rest in
  let entries :=
    flatten (map (rendered_entry self url_type) (filter has_id movies)) in
  generate_playlist_for_library self movies library_name url_type =
    Some (library_header self (List.length movies) library_name url_type +++ entries) /\
  (known_mode url_type ->
   combined_playlist_text self url_type movies =
     Ret (combined_header self (List.length movies) url_type +++ entries)) /\
  (forall m, In m (filter has_id movies) ->
     exists item_id, Id m = Some item_id /\ item_id <> "" /\
       rendered_entry self url_type m =
       entry_lines m (url_for self url_type item_id)) /\
  (forall m, Id m = None \/ Id m = Some "" ->
     has_id m = false /\ rendered_entry self url_type m = "").
Proof.
  intros movies entries.
  assert (E : forall p, library_entries self url_type movies p = p +++ entries).
  { intros p. rewrite library_entries_flatten. f_equal.
    apply flatten_skip. intros m. apply rendered_entry_no_id. }
  split; [|split; [|split]].
  - unfold generate_playlist_for_library. fold movies. subst movies.
    cbv zeta. now rewrite E.
  - intros Hmode. unfold combined_playlist_text.
    rewrite combined_entries_known by exact Hmode. now rewrite E.
  - intros m Hin. apply filter_In in Hin as [_ Hid].
    unfold has_id in Hid. destruct (truthy_id m) as [i|] eqn:Ei; [|discriminate].
    apply truthy_id_some in Ei as Hi. destruct Hi as [Hi Hne].
    exists i. repeat split; try assumption.
    unfold rendered_entry. now rewrite Ei.
  - intros m Hm. apply truthy_id_none in Hm.
    unfold has_id, rendered_entry. rewrite Hm. now split.
Qed.

Lemma entries_need_identifier_witness :
  combined_playlist_text Sample.host "with_key"
    [Sample.no_id; Sample.alien; Sample.empty_id] =
  Ret (combined_header Sample.host 3 "with_key" +++
       "#EXTINF:3600,Alien" +++ Py.nl +++
       "http://host:8096/Videos/abc123/stream.mp4?api_key=secret-token&static=true"
       +++ Py.nl).
Proof.
  destruct (entries_need_identifier Sample.host "with_key" "Movies"
              Sample.no_id [Sample.alien; Sample.empty_id]) as (_ & H & _).
  rewrite H by (right; reflexivity). reflexivity.
Defined.

(** C6 (as stated, refuted).  For one movie in simple mode the per-library
    path called with the name [All Movies] and the combined path give
    different texts. *)
Lemma combined_text_lacks_note :
  exists per_library combined,
    generate_playlist_for_library Sample.host [Sample.alien] "All Movies" "simple"
      = Some per_library /\
    combined_playlist_text Sample.host "simple" [Sample.alien] = Ret combined /\
    per_library <> combined.
Proof.
  eexists. eexists. split; [reflexivity|]. split; [reflexivity|].
  vm_compute. discriminate.
Qed.

(** C6 (amended).  In the two URL modes and for a non-empty list of
    movies, both paths write the same header lines up to the [# URL Format:]
    line and the same blank line and entries after it; the per-library path
    puts one [# Note:] line in between, which the combined path does not
    write, so the two texts are never equal. *)
Theorem rendering_paths_differ_by_note (self : session) (url_type : string)
    (movie : item) (rest : list item) :
  known_mode url_type ->
  let movies := movie :: rest in
  let before := shared_header self (List.length movies) "All Movies" url_type in
  let after := Py.nl +++ flatten (map (rendered_entry self url_type) movies) in
  generate_playlist_for_library self movies "All Movies" url_type =
    Some (before +++ note_line url_type +++ after) /\
  combined_playlist_text self url_type movies = Ret (before +++ after) /\
  before +++ note_line url_type +++ after <> before +++ after.
Proof.
  intros Hmode movies before after.
  split; [|split].
  - unfold generate_playlist_for_library. fold movies. subst movies. cbv zeta.
    rewrite library_entries_flatten, library_header_known by exact Hmode.
    subst before after. now rewrite !append_assoc.
  - unfold combined_playlist_text.
    rewrite combined_entries_known, library_entries_flatten,
      combined_header_known by exact Hmode.
    subst before after. now rewrite !append_assoc.
  - intros H. apply append_inj_l in H.
    apply (f_equal String.length) in H. rewrite length_append in H.
    destruct Hmode as [-> | ->]; simpl in H; lia.
Qed.

Lemma rendering_paths_differ_by_note_witness :
  known_mode "with_key" /\
  generate_playlist_for_library Sample.host [Sample.alien; Sample.brazil]
    "All Movies" "with_key" =
  Some (shared_header Sample.host 2 "All Movies" "with_key" +++
        "# Note: Contains API key in URL" +++ Py.nl +++ Py.nl +++
        flatten (map (rendered_entry Sample.host "with_key")
                     [Sample.alien; Sample.brazil])).
Proof.
  split; [right; reflexivity|].
  destruct (rendering_paths_differ_by_note Sample.host "with_key" Sample.alien
              [Sample.brazil] (or_intror eq_refl)) as (H & _).
  rewrite H. reflexivity.
Defined.

(* ================================================================= *)
(** ** Library discovery *)

Lemma prefix_append (a b s : string) :
  prefix (a +++ b) s = true -> prefix a s = true.
Proof.
  revert s. induction a as [|c a IH]; intros s.
  - intros _. now destruct s.
  - destruct s as [|d s]; simpl; [discriminate|].
    destruct (ascii_dec c d); [apply IH | discriminate].
Qed.

Lemma contains_append (a b s : string) :
  Py.contains (a +++ b) s = true -> Py.contains a s = true.
Proof.
  induction s as [|d s IH].
  - cbn [Py.contains]. rewrite !orb_false_r. apply prefix_append.
  - cbn [Py.contains]. intros H. apply orb_true_iff in H as [H|H].
    + apply prefix_append in H. now rewrite H.
    + rewrite (IH H). apply orb_true_r.
Qed.

(** The second test of line 59 adds nothing to the first. *)
Lemma movie_test (name : string) :
  Py.contains "movie" (Py.lower name) || Py.contains "movies" (Py.lower name) =
  movie_named name.
Proof.
  unfold movie_named.
  destruct (Py.contains "movie" (Py.lower name)) eqn:E; [reflexivity|].
  destruct (Py.contains "movies" (Py.lower name)) eqn:E'; [|reflexivity].
  apply (contains_append "movie" "s") in E'. congruence.
Qed.

Section DiscoveryFacts.

Variable srv : server.

Lemma get_library_types_eq (library_id : string) (w : world) :
  get_library_types srv library_id w =
  (Ret [probed_type (srv (requests w) (ItemsProbe library_id))],
   sent (ItemsProbe library_id) w).
Proof.
  unfold get_library_types, bind, try_except, session_get, probed_type, sent.
  destruct (srv (requests w) (ItemsProbe library_id)) as [e|status_code [e|data]];
    cbn [fst snd]; try reflexivity.
  - destruct (status_code =? 200)%Z; reflexivity.
  - destruct (status_code =? 200)%Z; [|reflexivity].
    cbn. destruct (Py.get (Items data) []); reflexivity.
Qed.

(** One pass of the folder loop, whatever the server does. *)
Lemma scan_folders_step (folder : item) (rest : list item)
    (libraries : list library) (w : world) :
  scan_folders srv (folder :: rest) libraries w =
  scan_folders srv rest
    (libraries ++
     classify_folder (fun folder_id => srv (requests w) (ItemsProbe folder_id))
       folder)
    (fold_left (fun w req => sent req w) (probe_requests folder) w).
Proof.
  cbn [scan_folders]. rewrite movie_test.
  unfold classify_folder, probe_requests, Py.truthy.
  destruct (String.eqb_spec (Py.get (Name folder) "") "") as [E|E]; cbn [negb andb].
  - now rewrite app_nil_r.
  - destruct (movie_named (Py.get (Name folder) "")); [reflexivity|].
    unfold bind. rewrite get_library_types_eq. cbn [Py.mem existsb fold_left].
    rewrite orb_false_r, String.eqb_sym.
    destruct (probed_type _ =? "Movie")%string; [reflexivity|].
    now rewrite app_nil_r.
Qed.

Variable probe : string -> http_result.
Hypothesis probe_answers : forall history folder_id,
  srv history (ItemsProbe folder_id) = probe folder_id.

Lemma scan_folders_eq (folders : list item) (libraries : list library)
    (w : world) :
  scan_folders srv folders libraries w =
  (Ret (libraries ++ flat_map (classify_folder probe) folders),
   mkWorld (requests w ++ flat_map probe_requests folders)
           (stdout w) (stdin w) (files w)).
Proof.
  revert libraries w.
  induction folders as [|folder rest IH]; intros libraries w.
  - cbn. rewrite !app_nil_r. now destruct w.
  - rewrite scan_folders_step, IH. cbn [flat_map]. f_equal.
    + f_equal. rewrite <- app_assoc. do 2 f_equal.
      unfold classify_folder. now rewrite probe_answers.
    + unfold probe_requests.
      destruct (Py.get (Name folder) "" =? "")%string; [reflexivity|].
      destruct (movie_named _); [reflexivity|].
      cbn. now rewrite <- app_assoc.
Qed.

End DiscoveryFacts.

Lemma scan_folders_returns (srv : server) (folders : list item)
    (libraries : list library) (w : world) :
  exists libraries' w',
    scan_folders srv folders libraries w = (Ret libraries', w') /\
    stdout w' = stdout w.
Proof.
  revert libraries w.
  induction folders as [|folder rest IH]; intros libraries w.
  - exists libraries, w. now split.
  - rewrite scan_folders_step.
    destruct (IH (libraries ++
                  classify_folder
                    (fun folder_id => srv (requests w) (ItemsProbe folder_id))
                    folder)
                 (fold_left (fun w req => sent req w) (probe_requests folder) w))
      as (libraries' & w' & Hrun & Hout).
    exists libraries', w'. split; [exact Hrun|]. rewrite Hout.
    unfold probe_requests.
    destruct (Py.get (Name folder) "" =? "")%string; [reflexivity|].
    destruct (movie_named _); reflexivity.
Qed.

Lemma get_libraries_200 (srv : server) (data : json_data) (w : world) :
  srv (requests w) MediaFolders = Reply 200 (Json data) ->
  get_libraries srv w =
  scan_folders srv (Py.get (Items data) []) [] (sent MediaFolders w).
Proof.
  intros Hsrv.
  unfold get_libraries, bind, try_except, session_get. rewrite Hsrv.
  cbn [fst snd Z.eqb Pos.eqb response_json ret]. fold (sent MediaFolders w).
  destruct (scan_folders_returns srv (Py.get (Items data) []) []
              (sent MediaFolders w)) as (libraries & w' & -> & _).
  reflexivity.
Qed.

(** C5 (as stated, refuted).  A folder without a name that holds movies:
    the rule of the specification probes it and includes it as [Mixed];
    discovery returns nothing and sends no probe. *)
Lemma discovery_skips_nameless_folder :
  flat_map (classify_folder_as_specified (fun _ => Mock.probe_of "Movie"))
    [Mock.nameless_folder] = [mkLibrary "lib-x" "" "Mixed"] /\
  get_libraries Mock.nameless_library Mock.start =
    (Ret [], sent MediaFolders Mock.start).
Proof. split; reflexivity. Qed.

(** C5 (amended).  When the folder list is fetched, discovery classifies
    every folder with a non-empty name: [movie] in the name, whatever the
    case, includes it as [Movie] with no probe; any other name sends one
    probe scoped to the folder and includes it as [Mixed] exactly when the
    probed item's type is [Movie].  A folder whose name is missing or empty
    is left out and not probed.  The order of the folders is kept. *)
Theorem discovery_classifies (srv : server) (probe : string -> http_result)
    (data : json_data) (w : world) :
  srv (requests w) MediaFolders = Reply 200 (Json data) ->
  (forall history folder_id, srv history (ItemsProbe folder_id) = probe folder_id) ->
  let folders := Py.get (Items data) [] in
  get_libraries srv w =
    (Ret (flat_map (classify_folder probe) folders),
     mkWorld (requests w ++ MediaFolders :: flat_map probe_requests folders)
             (stdout w) (stdin w) (files w)) /\
  (forall folder, In folder folders ->
     let name := Py.get (Name folder) "" in
     let folder_id := Py.get (Id folder) "" in
     (name = "" ->
      classify_folder probe folder = [] /\ probe_requests folder = []) /\
     (name <> "" -> Py.contains "movie" (Py.lower name) = true ->
      classify_folder probe folder = [mkLibrary folder_id name "Movie"] /\
      probe_requests folder = []) /\
     (name <> "" -> Py.contains "movie" (Py.lower name) = false ->
      probe_requests folder = [ItemsProbe folder_id] /\
      (probed_type (probe folder_id) = "Movie" ->
       classify_folder probe folder = [mkLibrary folder_id name "Mixed"]) /\
      (probed_type (probe folder_id) <> "Movie" ->
       classify_folder probe folder = []))).
Proof.
  intros Hsrv Hprobe folders. split.
  - rewrite (get_libraries_200 srv data w Hsrv).
    rewrite (scan_folders_eq srv probe Hprobe). cbn [sent requests stdout stdin files app].
    now rewrite <- app_assoc.
  - intros folder _ name folder_id.
    unfold classify_folder, probe_requests, movie_named.
    fold name folder_id.
    destruct (String.eqb_spec name "") as [Hname|Hname].
    + split; [now split|]. split; intros Hne; contradiction.
    + split; [intros Hempty; contradiction|].
      split; intros _ Hmovie; rewrite Hmovie; [now split|].
      split; [reflexivity|].
      destruct (String.eqb_spec (probed_type (probe folder_id)) "Movie");
        split; intros Hty; try reflexivity; contradiction.
Qed.

Lemma discovery_classifies_witness :
  get_libraries Mock.two_libraries Mock.start =
  (Ret [mkLibrary "lib-movies" "Movies" "Movie"],
   mkWorld [MediaFolders; ItemsProbe "lib-tv"] [] [] []).
Proof.
  destruct (discovery_classifies Mock.two_libraries Mock.two_libraries_probe
              (mkData (Some [Mock.folder "lib-movies" "Movies";
                             Mock.folder "lib-tv" "TV Shows"])
                      (Some 2%Z) None)
              Mock.start eq_refl (fun _ _ => eq_refl)) as [H _].
  rewrite H. reflexivity.
Defined.

(** C7 (as stated, refuted).  A server that answers with status 503:
    discovery returns the empty list and prints nothing. *)
Lemma discovery_silent_on_bad_status :
  get_libraries Mock.unavailable Mock.start =
    (Ret [], sent MediaFolders Mock.start) /\
  stdout (snd (get_libraries Mock.unavailable Mock.start)) = [].
Proof. split; reflexivity. Qed.

(** C7 (amended).  Discovery never raises: it always returns a list.  When
    the request raises, or the body of a 200 answer cannot be decoded, it
    prints [Error fetching libraries: ...] and returns the empty list; when
    the answer has a status other than 200 it returns the empty list and
    prints nothing. *)
Theorem discovery_failure (srv : server) (w : world) :
  (exists libraries w', get_libraries srv w = (Ret libraries, w')) /\
  (forall e, srv (requests w) MediaFolders = ConnError e ->
     get_libraries srv w =
     (Ret [], printed ("Error fetching libraries: " +++ e) (sent MediaFolders w))) /\
  (forall e, srv (requests w) MediaFolders = Reply 200 (JsonError e) ->
     get_libraries srv w =
     (Ret [], printed ("Error fetching libraries: " +++ e) (sent MediaFolders w))) /\
  (forall status_code body,
     srv (requests w) MediaFolders = Reply status_code body ->
     status_code <> 200%Z ->
     get_libraries srv w = (Ret [], sent MediaFolders w)).
Proof.
  assert (Hconn : forall e, srv (requests w) MediaFolders = ConnError e ->
     get_libraries srv w =
     (Ret [], printed ("Error fetching libraries: " +++ e) (sent MediaFolders w))).
  { intros e Hsrv.
    unfold get_libraries, bind, try_except, session_get. now rewrite Hsrv. }
  assert (Hjson : forall e, srv (requests w) MediaFolders = Reply 200 (JsonError e) ->
     get_libraries srv w =
     (Ret [], printed ("Error fetching libraries: " +++ e) (sent MediaFolders w))).
  { intros e Hsrv.
    unfold get_libraries, bind, try_except, session_get. now rewrite Hsrv. }
  assert (Hstatus : forall status_code body,
     srv (requests w) MediaFolders = Reply status_code body ->
     status_code <> 200%Z ->
     get_libraries srv w = (Ret [], sent MediaFolders w)).
  { intros status_code body Hsrv Hne.
    unfold get_libraries, bind, try_except, session_get. rewrite Hsrv.
    cbn [fst snd]. destruct (Z.eqb_spec status_code 200); [contradiction|].
    reflexivity. }
  repeat split; try assumption.
  destruct (srv (requests w) MediaFolders) as [e|status_code [e|data]] eqn:Hsrv.
  - rewrite (Hconn e eq_refl). eauto.
  - destruct (Z.eqb_spec status_code 200) as [->|Hne].
    + rewrite (Hjson e eq_refl). eauto.
    + rewrite (Hstatus _ _ eq_refl Hne). eauto.
  - destruct (Z.eqb_spec status_code 200) as [->|Hne].
    + rewrite (get_libraries_200 srv data w Hsrv).
      destruct (scan_folders_returns srv (Py.get (Items data) []) []
                  (sent MediaFolders w)) as (libraries & w' & H & _).
      eauto.
    + rewrite (Hstatus _ _ eq_refl Hne). eauto.
Qed.

Lemma discovery_failure_witness :
  get_libraries Mock.unreachable Mock.start =
  (Ret [],
   mkWorld [MediaFolders] ["Error fetching libraries: Connection refused"] [] []).
Proof.
  destruct (discovery_failure Mock.unreachable Mock.start) as (_ & H & _).
  rewrite (H "Connection refused" eq_refl). reflexivity.
Defined.

(* ================================================================= *)
(** ** The paginated fetch *)

Section FetchFacts.

Variable srv : server.
Variable ParentId : option string.

(** One pass of the loop on a successful answer. *)
Lemma fetch_page_200 (start_index : nat) (all_items : list item)
    (data : json_data) (w : world) :
  srv (requests w) (page_request ParentId start_index) = Reply 200 (Json data) ->
  let items := Py.get (Items data) [] in
  let total := Py.get (TotalRecordCount data) 0%Z in
  fetch_page srv ParentId start_index all_items w =
  if (Z.of_nat (List.length (all_items ++ items)) >=? total)%Z then
    (Ret (Break (all_items ++ items)),
     sent (page_request ParentId start_index) w)
  else
    (Ret (Continue (all_items ++ items) (start_index + List.length items)),
     printed ("  Fetched " +++ Py.str_nat (List.length (all_items ++ items)) +++
              "/" +++ Py.str_int total +++ " items...")
       (sent (page_request ParentId start_index) w)).
Proof.
  intros Hsrv items total.
  unfold fetch_page, bind, try_except, session_get.
  unfold page_request in Hsrv. rewrite Hsrv.
  cbn [fst snd Z.eqb Pos.eqb response_json ret]. fold items total.
  destruct (Z.of_nat (List.length (all_items ++ items)) >=? total)%Z; reflexivity.
Qed.

Lemma fetch_loop_break (fuel : nat) (start_index : nat)
    (all_items all_items' : list item) (w w' : world) :
  fetch_page srv ParentId start_index all_items w = (Ret (Break all_items'), w') ->
  fetch_loop srv (S fuel) ParentId start_index all_items w = (Ret all_items', w').
Proof. intros H. cbn [fetch_loop]. unfold bind. now rewrite H. Qed.

Lemma fetch_loop_continue (fuel : nat) (start_index start_index' : nat)
    (all_items all_items' : list item) (w w' : world) :
  fetch_page srv ParentId start_index all_items w =
    (Ret (Continue all_items' start_index'), w') ->
  fetch_loop srv (S fuel) ParentId start_index all_items w =
  fetch_loop srv fuel ParentId start_index' all_items' w'.
Proof. intros H. cbn [fetch_loop]. unfold bind. now rewrite H. Qed.

End FetchFacts.

Lemma firstn_app_skipn {A : Type} (n m : nat) (l : list A) :
  firstn n l ++ firstn m (skipn n l) = firstn (n + m) l.
Proof.
  revert l. induction n as [|n IH]; intros l; [reflexivity|].
  destruct l as [|x l]; cbn [firstn skipn Nat.add app].
  - now rewrite firstn_nil.
  - now rewrite IH.
Qed.

Section FullPages.

Variable srv : server.
Variable ParentId : option string.
Variable held : list item.
Variable size : list request -> nat -> nat.
Hypothesis pages : serves_in_pages srv ParentId held size.
Hypothesis full : full_pages size.

Lemma full_pages_loop (k : nat) :
  forall start_index w fuel,
    start_index <= List.length held ->
    List.length held - start_index <= S k * page_limit ->
    (k = 0 \/ k * page_limit < List.length held - start_index) ->
    S k <= fuel ->
    exists w',
      fetch_loop srv fuel ParentId start_index (firstn start_index held) w =
        (Ret held, w') /\
      requests w' =
        requests w ++
        map (fun i => page_request ParentId (start_index + i * page_limit))
            (seq 0 (S k)) /\
      stdin w' = stdin w /\ files w' = files w.
Proof.
  induction k as [|k IH]; intros start_index w fuel Hle Hup Hlow Hfuel;
    (destruct fuel as [|fuel]; [lia|]);
    pose proof (fetch_page_200 srv ParentId start_index
                  (firstn start_index held) _ w
                  (proj2 (pages (requests w) start_index))) as Hpage;
    rewrite full in Hpage;
    cbn [Py.get Items TotalRecordCount] in Hpage;
    rewrite firstn_app_skipn in Hpage;
    rewrite length_firstn in Hpage.
  - destruct (Z.geb_spec (Z.of_nat (Nat.min (start_index + page_limit)
                                           (List.length held)))
                         (Z.of_nat (List.length held))) as [Hge|Hlt]; [|lia].
    rewrite (fetch_loop_break _ _ _ _ _ _ _ _ Hpage).
    rewrite firstn_all2 by lia.
    eexists. split; [reflexivity|]. split; [|split; reflexivity].
    cbn. now rewrite Nat.add_0_r.
  - destruct (Z.geb_spec (Z.of_nat (Nat.min (start_index + page_limit)
                                           (List.length held)))
                         (Z.of_nat (List.length held))) as [Hge|Hlt].
    { unfold page_limit in *. lia. }
    rewrite (fetch_loop_continue _ _ _ _ _ _ _ _ _ Hpage).
    rewrite length_firstn, length_skipn.
    replace (Nat.min page_limit (List.length held - start_index))
      with page_limit by (unfold page_limit in *; lia).
    match goal with
    | |- context [fetch_loop srv fuel ParentId _ _ ?w1] =>
        destruct (IH (start_index + page_limit) w1 fuel)
          as (w' & Hrun & Hreq & Hin & Hfiles);
          try (unfold page_limit in *; lia)
    end.
    exists w'. split; [exact Hrun|]. split; [|split; assumption].
    rewrite Hreq. cbn [printed sent requests]. rewrite <- app_assoc.
    f_equal. cbn [app]. change (seq 0 (S (S k))) with (0 :: seq 1 (S k)).
    rewrite <- seq_shift. cbn [map]. rewrite Nat.add_0_r. f_equal.
    rewrite map_map. apply map_ext. intros i. f_equal.
    unfold page_limit. lia.
Qed.

End FullPages.

Section AnyPages.

Variable srv : server.
Variable ParentId : option string.
Variable held : list item.
Variable size : list request -> nat -> nat.
Hypothesis pages : serves_in_pages srv ParentId held size.

Lemma pages_loop (m : nat) :
  forall start_index w,
    start_index <= List.length held ->
    List.length held - start_index <= m ->
    exists received w',
      firstn start_index held ++ List.concat received = held /\
      (forall fuel, List.length received <= fuel ->
         fetch_loop srv fuel ParentId start_index (firstn start_index held) w =
         (Ret held, w')) /\
      requests w' =
        requests w ++
        map (page_request ParentId) (offsets_from start_index received) /\
      1 <= List.length received <=
        Nat.max 1 (List.length held - start_index) /\
      List.length held - start_index <= List.length received * page_limit.
Proof.
  induction m as [|m IH]; intros start_index w Hle Hm;
    destruct (pages (requests w) start_index) as [Hsize Hsrv];
    pose proof (fetch_page_200 srv ParentId start_index
                  (firstn start_index held) _ w Hsrv) as Hpage;
    cbn [Py.get Items TotalRecordCount] in Hpage;
    rewrite firstn_app_skipn, length_firstn in Hpage;
    set (sz := size (requests w) start_index) in *;
    destruct (Z.geb_spec (Z.of_nat (Nat.min (start_index + sz)
                                           (List.length held)))
                         (Z.of_nat (List.length held))) as [Hge|Hlt];
    try lia.
  1, 2:
    exists [firstn sz (skipn start_index held)]; eexists;
    split; [cbn [List.concat]; rewrite app_nil_r, firstn_app_skipn;
            apply firstn_all2; lia|];
    split; [intros [|fuel] Hfuel; [cbn in Hfuel; lia|];
            rewrite (fetch_loop_break _ _ _ _ _ _ _ _ Hpage);
            rewrite firstn_all2 by lia; reflexivity|];
    split; [reflexivity|];
    split; cbn [List.length]; lia.
  rewrite <- (firstn_app_skipn start_index sz held) in Hpage.
  assert (Hlen : List.length (firstn sz (skipn start_index held)) = sz).
  { rewrite length_firstn, length_skipn. lia. }
  destruct (IH (start_index + sz)
              (printed ("  Fetched " +++
                        Py.str_nat (Nat.min (start_index + sz) (List.length held))
                        +++ "/" +++
                        Py.str_int (Z.of_nat (List.length held)) +++ " items...")
                 (sent (page_request ParentId start_index) w)))
    as (received & w' & Hall & Hrun & Hreq & Hcount & Hceil); try lia.
  exists (firstn sz (skipn start_index held) :: received), w'.
  split.
  { cbn [List.concat]. rewrite app_assoc, firstn_app_skipn. exact Hall. }
  split.
  { intros [|fuel] Hfuel; [cbn in Hfuel; lia|].
    rewrite (fetch_loop_continue _ _ _ _ _ _ _ _ _ Hpage).
    rewrite Hlen, firstn_app_skipn. apply Hrun. cbn in Hfuel. lia. }
  split.
  { rewrite Hreq. cbn [printed sent requests offsets_from map].
    rewrite <- app_assoc, Hlen. reflexivity. }
  split; cbn [List.length]; lia.
Qed.

End AnyPages.

Lemma length_offsets_from (pages : list (list item)) (offset : nat) :
  List.length (offsets_from offset pages) = List.length pages.
Proof.
  revert offset. induction pages as [|page rest IH]; intros offset;
    cbn [offsets_from List.length]; [reflexivity | now rewrite IH].
Qed.

Lemma page_request_inj (ParentId : option string) (offsets offsets' : list nat) :
  map (page_request ParentId) offsets = map (page_request ParentId) offsets' ->
  offsets = offsets'.
Proof.
  revert offsets'. induction offsets as [|o rest IH]; intros [|o' rest'];
    cbn [map]; intros H; try discriminate; [reflexivity|].
  injection H as Ho Hrest. f_equal; [exact Ho | now apply IH].
Qed.

Lemma ceil_div_le (n k : nat) :
  n <= k * page_limit -> ceil_div n page_limit <= k.
Proof.
  unfold ceil_div, page_limit. intros H.
  pose proof (Nat.div_mod_eq (n + 1000 - 1) 1000) as Hdm.
  pose proof (Nat.mod_upper_bound (n + 1000 - 1) 1000 ltac:(lia)) as Hb.
  remember ((n + 1000 - 1) / 1000) as q.
  remember ((n + 1000 - 1) mod 1000) as r. nia.
Qed.

Lemma full_pages_calls (n : nat) :
  let calls := Nat.max 1 (ceil_div n page_limit) in
  n <= calls * page_limit /\
  (forall k, 1 <= k < calls -> k * page_limit < n) /\
  (0 < n -> calls = ceil_div n page_limit) /\
  (n = 0 -> calls = 1).
Proof.
  unfold ceil_div, page_limit. cbn zeta.
  pose proof (Nat.div_mod_eq (n + 1000 - 1) 1000) as Hdm.
  pose proof (Nat.mod_upper_bound (n + 1000 - 1) 1000 ltac:(lia)) as Hb.
  remember ((n + 1000 - 1) / 1000) as q.
  remember ((n + 1000 - 1) mod 1000) as r.
  repeat split; intros; lia.
Qed.

(** C1 (as stated, refuted).  An empty library served in full pages:
    [ceil(0 / 1000)] is 0, and the fetch sends one request. *)
Lemma empty_library_costs_one_call :
  serves_in_pages (MockPages.full_pages []) None [] (fun _ _ => page_limit) /\
  ceil_div (List.length (@nil item)) page_limit = 0 /\
  forall fuel,
    fetch_loop (MockPages.full_pages []) (S fuel) None 0 [] Mock.start =
    (Ret [], mkWorld [ItemsPage None 0 1000] [] [] []).
Proof.
  split; [intros history start_index; split; [unfold page_limit; lia | reflexivity]|].
  split; [reflexivity|].
  intros fuel. reflexivity.
Qed.

Lemma fetch_loop_fetches_all (srv : server) (ParentId : option string)
    (held : list item) (size : list request -> nat -> nat) (w : world) :
  serves_in_pages srv ParentId held size ->
  fetches_all ParentId held (full_pages size) w
    (fun fuel => fetch_loop srv fuel ParentId 0 [] w).
Proof.
  intros Hpages. unfold fetches_all.
  destruct (pages_loop srv ParentId held size Hpages (List.length held) 0 w)
    as (received & w' & Hall & Hrun & Hreq & Hcount & Hceil); try lia.
  cbn [firstn app] in Hall, Hrun. rewrite Nat.sub_0_r in Hcount, Hceil.
  exists received, w'.
  split; [exact Hall|]. split; [exact Hrun|]. split; [exact Hreq|].
  destruct (full_pages_calls (List.length held)) as (Hup & Hlow & _).
  split.
  { split; [|lia]. apply Nat.max_lub; [lia | now apply ceil_div_le]. }
  intros Hfull.
  set (least := Nat.max 1 (ceil_div (List.length held) page_limit)) in *.
  destruct (full_pages_loop srv ParentId held size Hpages Hfull (least - 1) 0 w
              (Nat.max least (List.length received)))
    as (w'' & Hrun' & Hreq' & _); try lia.
  { destruct (Nat.eq_dec (least - 1) 0) as [E|E]; [now left|right].
    rewrite Nat.sub_0_r. apply Hlow. lia. }
  cbn [firstn] in Hrun'. rewrite Hrun in Hrun' by lia.
  injection Hrun' as <-. rewrite Hreq in Hreq'.
  apply app_inv_head in Hreq'.
  replace (S (least - 1)) with least in Hreq' by lia.
  rewrite <- (map_map (fun i => 0 + i * page_limit) (page_request ParentId))
    in Hreq'.
  apply page_request_inj in Hreq'.
  assert (Hoff : offsets_from 0 received = full_page_offsets least).
  { rewrite Hreq'. unfold full_page_offsets. apply map_ext. intros i. lia. }
  split; [|exact Hoff].
  apply (f_equal (@List.length nat)) in Hoff.
  rewrite length_offsets_from in Hoff. rewrite Hoff.
  unfold full_page_offsets. now rewrite length_map, length_seq.
Qed.

(** C1 (amended).  For every scope and every list of N items the server
    holds for it and serves in pages of at least one and at most 1000
    items, the fetch starts at offset 0 and asks, request after request,
    for the offset that is the number of items received so far; it returns
    exactly the N items, each once, in the order received.  It sends at
    least max(1, ceil(N / 1000)) and at most max(1, N) requests; when the
    server fills every page it sends exactly max(1, ceil(N / 1000)), at the
    offsets 0, 1000, 2000, ..., which is ceil(N / 1000) for a non-empty
    list and one request for an empty one, and that is the first request by
    which 1000 items a page reach the reported total.  The method
    [get_movies_from_library] called with a library identifier, or with no
    argument, does the same for that scope. *)
Theorem paginated_fetch (srv : server) (ParentId : option string)
    (held : list item) (size : list request -> nat -> nat) (w : world) :
  serves_in_pages srv ParentId held size ->
  let n := List.length held in
  let least := Nat.max 1 (ceil_div n page_limit) in
  fetches_all ParentId held (full_pages size) w
    (fun fuel => fetch_loop srv fuel ParentId 0 [] w) /\
  (forall library_id,
     (if given library_id then library_id else None) = ParentId ->
     fetches_all ParentId held (full_pages size) w
       (fun fuel => get_movies_from_library srv fuel None library_id w)) /\
  (0 < n -> least = ceil_div n page_limit) /\
  (n = 0 -> least = 1) /\
  n <= least * page_limit /\
  (forall k, 1 <= k < least -> k * page_limit < n).
Proof.
  intros Hpages n least.
  destruct (full_pages_calls n) as (Hup & Hlow & Hpos & Hzero).
  split; [now apply fetch_loop_fetches_all|].
  split; [|now repeat split].
  intros library_id Hscope.
  assert (Hmethod : forall fuel,
    get_movies_from_library srv fuel None library_id w =
    fetch_loop srv fuel ParentId 0 []
      (printed "Fetching movies from library: All Libraries..." w)).
  { intros fuel. unfold get_movies_from_library. rewrite <- Hscope.
    cbn [given]. now destruct (given library_id). }
  destruct (fetch_loop_fetches_all srv ParentId held size
              (printed "Fetching movies from library: All Libraries..." w)
              Hpages)
    as (received & w' & Hall & Hrun & Hreq & Hcount & Hfull).
  exists received, w'.
  split; [exact Hall|].
  split; [intros fuel Hfuel; rewrite Hmethod; now apply Hrun|].
  split; [exact Hreq|]. split; [exact Hcount | exact Hfull].
Qed.

Lemma paginated_fetch_witness :
  serves_in_pages (MockPages.short_pages 2 MockPages.five) (Some "lib-movies")
    MockPages.five (fun _ _ => 2) /\
  exists received w',
    List.concat received = MockPages.five /\
    1 <= List.length received <= 5 /\
    fetch_loop (MockPages.short_pages 2 MockPages.five) 5 (Some "lib-movies")
      0 [] Mock.start = (Ret MockPages.five, w') /\
    requests w' =
      map (page_request (Some "lib-movies")) (offsets_from 0 received).
Proof.
  assert (Hpages : serves_in_pages (MockPages.short_pages 2 MockPages.five)
                     (Some "lib-movies") MockPages.five (fun _ _ => 2)).
  { intros history start_index. split; [unfold page_limit; lia | reflexivity]. }
  split; [exact Hpages|].
  destruct (paginated_fetch (MockPages.short_pages 2 MockPages.five)
              (Some "lib-movies") MockPages.five (fun _ _ => 2) Mock.start
              Hpages)
    as ((received & w' & Hall & Hrun & Hreq & Hcount & _) & _).
  exists received, w'. cbn in Hcount.
  split; [exact Hall|]. split; [lia|].
  split; [apply Hrun; lia | exact Hreq].
Defined.

(* ----------------------------------------------------------------- *)
(** *** Short pages *)

Section ShortPages.

Variable srv : server.
Variable ParentId : option string.
Variable bound : nat.
Hypothesis nonempty : serves_nonempty_pages srv ParentId bound.

Lemma nonempty_pages_loop (m : nat) :
  forall all_items w,
    bound - List.length all_items <= m ->
    exists pages w',
      1 <= List.length pages <= Nat.max 1 m /\
      (forall fuel, List.length pages <= fuel ->
         fetch_loop srv fuel ParentId (List.length all_items) all_items w =
         (Ret (all_items ++ List.concat pages), w')) /\
      requests w' =
        requests w ++
        map (page_request ParentId)
            (offsets_from (List.length all_items) pages) /\
      stdin w' = stdin w /\ files w' = files w /\
      receives srv ParentId (requests w) (List.length all_items) pages.
Proof.
  induction m as [|m IH]; intros all_items w Hm;
    destruct (nonempty (requests w) (List.length all_items))
      as (data & Hsrv & Htotal & Hempty);
    pose proof (fetch_page_200 srv ParentId (List.length all_items) all_items
                  data w Hsrv) as Hpage;
    cbn zeta in Hpage;
    set (items := Py.get (Items data) []) in *;
    set (total := Py.get (TotalRecordCount data) 0%Z) in *;
    destruct (Z.geb_spec (Z.of_nat (List.length (all_items ++ items))) total)
      as [Hge|Hlt].
  1, 3:
    exists [items]; eexists; split; [cbn; lia|];
    split; [intros [|fuel] Hfuel; [cbn in Hfuel; lia|];
            rewrite (fetch_loop_break _ _ _ _ _ _ _ _ Hpage);
            cbn [List.concat]; rewrite app_nil_r; reflexivity|];
    split; [reflexivity|]; split; [reflexivity|]; split; [reflexivity|];
    apply receives_last; [exact Hsrv|];
    fold items; fold total; rewrite length_app in Hge; lia.
  - exfalso. rewrite length_app in Hlt.
    destruct items as [|x items]; [specialize (Hempty eq_refl)|]; cbn in Hlt; lia.
  - assert (Hgrow : items <> []).
    { intros E. specialize (Hempty E). rewrite E, app_nil_r in Hlt. lia. }
    destruct (IH (all_items ++ items)
                 (printed ("  Fetched " +++
                           Py.str_nat (List.length (all_items ++ items)) +++
                           "/" +++ Py.str_int total +++ " items...")
                    (sent (page_request ParentId (List.length all_items)) w)))
      as (pages & w' & Hlen & Hrun & Hreq & Hin & Hfiles & Hrec).
    { rewrite length_app. destruct items; [congruence|]. cbn. lia. }
    exists (items :: pages), w'.
    split.
    { cbn [List.length]. rewrite length_app in Hlt.
      assert (List.length pages <= m).
      { destruct m; [|lia]. exfalso.
        destruct items; [congruence|]. cbn in Hlt. lia. }
      lia. }
    split.
    { intros [|fuel] Hfuel; [cbn in Hfuel; lia|].
      rewrite (fetch_loop_continue _ _ _ _ _ _ _ _ _ Hpage).
      rewrite <- length_app. rewrite Hrun by (cbn in Hfuel; lia).
      cbn [List.concat]. now rewrite app_assoc. }
    split.
    { rewrite Hreq. cbn [printed sent requests offsets_from map].
      rewrite <- app_assoc. cbn [app]. now rewrite length_app. }
    split; [assumption|]. split; [assumption|].
    apply receives_more with (data := data); [exact Hsrv| |].
    + fold items; fold total. rewrite length_app in Hlt. lia.
    + fold items. rewrite length_app in Hrec. exact Hrec.
Qed.

End ShortPages.

Lemma stalled_loop_diverges (fuel : nat) (w : world) :
  fst (fetch_loop MockPages.stalled fuel None 0 [] w) = Diverge.
Proof.
  revert w. induction fuel as [|fuel IH]; intros w; [reflexivity|].
  cbn [fetch_loop]. unfold bind.
  assert (Hstep : exists w', fetch_page MockPages.stalled None 0 [] w =
                             (Ret (Continue [] 0), w')).
  { eexists. reflexivity. }
  destruct Hstep as (w' & ->). apply IH.
Qed.

(** C2 (as stated, refuted).  A server that answers every page request
    with status 200, no item and a total of one record: no number of passes
    is enough for the loop to return. *)
Lemma fetch_stalls_on_empty_pages :
  ~ exists fuel all_items w',
      fetch_loop MockPages.stalled fuel None 0 [] Mock.start =
      (Ret all_items, w').
Proof.
  intros (fuel & all_items & w' & Hrun).
  pose proof (stalled_loop_diverges fuel Mock.start) as Hdiv.
  rewrite Hrun in Hdiv. discriminate.
Qed.

(** The protocol leaves the client no choice: the server's answers fix the
    pages. *)
Lemma receives_unique (srv : server) (ParentId : option string)
    (history : list request) (count : nat) (pages pages' : list (list item)) :
  receives srv ParentId history count pages ->
  receives srv ParentId history count pages' ->
  pages = pages'.
Proof.
  intros Hrec. revert pages'.
  induction Hrec as [history count data Hsrv Hstop
                    |history count data rest Hsrv Hgo Hrest IH];
    intros pages' Hrec'; inversion Hrec' as [h c data' Hsrv' Hstop' | h c data' rest' Hsrv' Hgo' Hrest'];
    subst; rewrite Hsrv in Hsrv'; injection Hsrv' as <-.
  - reflexivity.
  - lia.
  - lia.
  - f_equal. apply IH. exact Hrest'.
Qed.

(** C2 (amended).  When every page request succeeds, the reported totals
    are bounded, and every answer carries at least one item unless the
    offset asked for has already reached the total it reports, the fetch
    terminates after at most max(1, bound) requests.  The pages it is made
    of are the server's answers under the pagination protocol: each
    request asks for the offset that is the number of items received
    before it, whatever the sizes of the pages; an answer that leaves the
    count below the total it reports is followed by another request, and
    the first answer that reaches its total is the last; the result is the
    pages received, one after the other.  (A page with no item before the
    total is reached is outside this statement.) *)
Theorem fetch_advances_by_count (srv : server) (ParentId : option string)
    (bound : nat) (w : world) :
  serves_nonempty_pages srv ParentId bound ->
  exists pages w',
    1 <= List.length pages <= Nat.max 1 bound /\
    receives srv ParentId (requests w) 0 pages /\
    (forall fuel, List.length pages <= fuel ->
       fetch_loop srv fuel ParentId 0 [] w = (Ret (List.concat pages), w')) /\
    requests w' =
      requests w ++ map (page_request ParentId) (offsets_from 0 pages).
Proof.
  intros Hsrv.
  destruct (nonempty_pages_loop srv ParentId bound Hsrv bound [] w)
    as (pages & w' & Hlen & Hrun & Hreq & _ & _ & Hrec); [cbn; lia|].
  exists pages, w'. split; [exact Hlen|]. split; [exact Hrec|].
  split; [exact Hrun|exact Hreq].
Qed.

Lemma fetch_advances_by_count_witness :
  serves_nonempty_pages (MockPages.short_pages 2 MockPages.five) None 5 /\
  exists w',
    fetch_loop (MockPages.short_pages 2 MockPages.five) 5 None 0 [] Mock.start =
      (Ret [Sample.movie "m1" "A" 10000000; Sample.movie "m2" "B" 20000000;
            Sample.movie "m3" "C" 30000000; Sample.movie "m4" "D" 40000000;
            Sample.movie "m5" "E" 50000000], w') /\
    requests w' =
      [ItemsPage None 0 1000; ItemsPage None 2 1000; ItemsPage None 4 1000].
Proof.
  assert (Hsrv : serves_nonempty_pages (MockPages.short_pages 2 MockPages.five)
                   None 5).
  { intros history start_index. eexists. split; [reflexivity|].
    cbn [Py.get TotalRecordCount Items]. split; [cbn; lia|].
    do 5 (destruct start_index as [|start_index]; [discriminate|]).
    intros _. cbn. lia. }
  split; [exact Hsrv|].
  destruct (fetch_advances_by_count (MockPages.short_pages 2 MockPages.five)
              None 5 Mock.start Hsrv)
    as (pages & w' & Hlen & Hrec & Hrun & Hreq).
  assert (Hpages : pages =
            [[Sample.movie "m1" "A" 10000000; Sample.movie "m2" "B" 20000000];
             [Sample.movie "m3" "C" 30000000; Sample.movie "m4" "D" 40000000];
             [Sample.movie "m5" "E" 50000000]]).
  { apply (receives_unique _ _ _ _ _ _ Hrec).
    apply (receives_more _ _ _ _ (mkData (Some _) (Some 5%Z) None));
      [reflexivity|cbn; lia|].
    apply (receives_more _ _ _ _ (mkData (Some _) (Some 5%Z) None));
      [reflexivity|cbn; lia|].
    apply (receives_last _ _ _ _ (mkData (Some _) (Some 5%Z) None));
      [reflexivity|cbn; lia]. }
  subst pages. exists w'.
  split; [apply (Hrun 5); cbn; lia|exact Hreq].
Defined.

(** What the short-page server of the example makes the loop do: three
    requests at the offsets 0, 2 and 4, and the five items in order. *)
Example short_pages_run :
  fetch_loop (MockPages.short_pages 2 MockPages.five) 3 None 0 [] Mock.start =
  (Ret MockPages.five,
   mkWorld [ItemsPage None 0 1000; ItemsPage None 2 1000; ItemsPage None 4 1000]
           ["  Fetched 2/5 items..."; "  Fetched 4/5 items..."] [] []).
Proof. reflexivity. Qed.

(* ================================================================= *)
(** ** The driver: selection, playlists, summary *)

Lemma file_content_last (filename name content : string)
    (written : list (string * string)) :
  file_content filename (written ++ [(name, content)]) =
  if (name =? filename)%string then Some content
  else file_content filename written.
Proof.
  induction written as [|[name' content'] rest IH]; cbn [app file_content].
  - reflexivity.
  - rewrite IH. destruct (name =? filename)%string; [reflexivity|].
    reflexivity.
Qed.

Lemma dict_set_nonempty (k : string) (movies : list item)
    (library_movies : list (string * list item)) :
  movies <> [] ->
  groups_nonempty library_movies ->
  groups_nonempty (dict_set k movies library_movies).
Proof.
  intros Hne. unfold groups_nonempty.
  induction library_movies as [|[k' v'] rest IH]; intros Hall; cbn [dict_set].
  - constructor; [exact Hne | constructor].
  - inversion Hall as [|? ? Hhead Hrest]; subst.
    destruct (k' =? k)%string; constructor; auto.
Qed.

Section SelectionFacts.

Variable srv : server.
Variable py : token_reader.

Lemma use_all_libraries_nonempty (fuel : nat)
    (library_movies result : list (string * list item)) (w w' : world) :
  groups_nonempty library_movies ->
  use_all_libraries srv fuel library_movies w = (Ret result, w') ->
  groups_nonempty result.
Proof.
  intros Hall. unfold use_all_libraries, bind.
  destruct (get_all_movies srv fuel ["all"] w) as [[all_movies|e|] w1];
    try discriminate.
  destruct all_movies as [|m ms]; cbn [ret]; intros H; injection H as <- _.
  - exact Hall.
  - apply dict_set_nonempty; [discriminate | exact Hall].
Qed.

Lemma select_by_numbers_nonempty (fuel : nat) (libraries : list library)
    (selected_nums : list string) :
  forall (library_movies result : list (string * list item)) (w w' : world),
    groups_nonempty library_movies ->
    select_by_numbers srv py fuel libraries selected_nums library_movies w =
      (Ret result, w') ->
    groups_nonempty result.
Proof.
  induction selected_nums as [|num rest IH]; intros library_movies result w w' Hall;
    cbn [select_by_numbers].
  - cbn [ret]. intros H. injection H as <- _. exact Hall.
  - destruct (isdigit py num); [|apply IH; exact Hall].
    destruct (int py num) as [n|]; [|discriminate].
    cbv zeta.
    destruct ((0 <=? n - 1)%Z && (n - 1 <? Z.of_nat (List.length libraries))%Z);
      [|apply IH; exact Hall].
    destruct (nth_error libraries (Z.to_nat (n - 1))) as [lib|];
      [|discriminate].
    unfold bind.
    destruct (get_movies_from_library srv fuel (Some (lib_name lib)) None w)
      as [[movies|e|] w1]; try discriminate.
    destruct movies as [|m ms]; [apply IH; exact Hall|].
    apply IH. apply dict_set_nonempty; [discriminate | exact Hall].
Qed.

Lemma select_libraries_nonempty (fuel : nat) (libraries : list library)
    (result : list (string * list item)) (w w' : world) :
  select_libraries srv py fuel libraries w = (Ret result, w') ->
  groups_nonempty result.
Proof.
  unfold select_libraries, bind, input.
  destruct (stdin w) as [|line1 rest1]; [discriminate|].
  destruct (Py.strip line1 =? "1")%string.
  { apply use_all_libraries_nonempty. constructor. }
  destruct (Py.strip line1 =? "2")%string.
  2: { apply use_all_libraries_nonempty. constructor. }
  cbn [stdin]. destruct rest1 as [|line2 rest2]; [discriminate|].
  destruct (Py.truthy (Py.strip line2)).
  - match goal with
    | |- context [select_by_numbers srv py fuel libraries ?nums [] ?w0] =>
        destruct (select_by_numbers srv py fuel libraries nums [] w0)
          as [[selected|e|] w1] eqn:Hsel; try discriminate
    end.
    apply select_by_numbers_nonempty in Hsel; [|constructor].
    destruct selected as [|kv kvs].
    + apply use_all_libraries_nonempty. constructor.
    + cbn [ret]. intros H. injection H as <- _. exact Hsel.
  - cbn [ret]. apply use_all_libraries_nonempty. constructor.
Qed.

End SelectionFacts.

Lemma concat_groups_nonempty (library_movies : list (string * list item)) :
  groups_nonempty library_movies ->
  library_movies <> [] ->
  List.concat (map snd library_movies) <> [].
Proof.
  intros Hall Hne. destruct library_movies as [|[k v] rest]; [congruence|].
  inversion Hall as [|? ? Hhead _]; subst. cbn in *.
  destruct v; [congruence | discriminate].
Qed.

(* ----------------------------------------------------------------- *)
(** *** The summary and the clock *)

Lemma fold_left_prefix {A : Type} (g : A -> string) (l : list A) (a b : string) :
  fold_left (fun s x => s +++ g x) l (a +++ b) =
  a +++ fold_left (fun s x => s +++ g x) l b.
Proof.
  revert b. induction l as [|x l IH]; intros b; cbn [fold_left]; [reflexivity|].
  now rewrite append_assoc, IH.
Qed.

Lemma summary_text_date (self : session) (saved_files : list string)
    (library_movies : list (string * list item)) (url_types : list string) :
  exists after, forall current_time,
    summary_text self current_time saved_files library_movies url_types =
    summary_before self +++ current_time +++ after.
Proof.
  eexists. intros current_time.
  unfold summary_text, summary_before. cbv zeta.
  rewrite !(fold_left_prefix (fun file => "- " +++ file +++ Py.nl)).
  rewrite !append_assoc.
  rewrite !(fold_left_prefix
              (fun kv : string * list item =>
                 "- **" +++ fst kv +++ "**: " +++
                 Py.str_nat (List.length (snd kv)) +++ " movies" +++ Py.nl)).
  rewrite !append_assoc.
  reflexivity.
Qed.

Section ClockFacts.

Variable srv : server.
Variable py : token_reader.
Variable self : session.
Variable writable : string -> bool.

Lemma generate_playlists_eq (current_time : string) (fuel : nat) (w : world) :
  generate_playlists srv py self writable current_time fuel w =
  match collect_and_write srv py self writable fuel w with
  | (Ret (Some (saved_files, library_movies, url_types)), w1) =>
      (Ret true,
       if writable summary_filename then
         wrote summary_filename
           (summary_text self current_time saved_files library_movies url_types)
           w1
       else w1)
  | (Ret None, w1) => (Ret false, w1)
  | (Raise e, w1) => (Raise e, w1)
  | (Diverge, w1) => (Diverge, w1)
  end.
Proof.
  unfold generate_playlists, bind.
  destruct (collect_and_write srv py self writable fuel w)
    as [[[[[saved_files library_movies] url_types]|]|e|] w1]; try reflexivity.
  unfold create_summary_file, bind, write_file.
  destruct (writable summary_filename); reflexivity.
Qed.

End ClockFacts.


(* ================================================================= *)
(** ** What a method leaves alone, and what it may raise *)

Section Respects.

Variable rel : world -> world -> Prop.
Hypothesis rel_refl : forall w, rel w w.
Hypothesis rel_trans : forall w1 w2 w3, rel w1 w2 -> rel w2 w3 -> rel w1 w3.

Lemma respects_ret {A : Type} (exn_ok : string -> Prop) (a : A) :
  respects rel exn_ok (ret a).
Proof. intros w. split; [apply rel_refl | exact I]. Qed.

Lemma respects_bind {A B : Type} (exn_ok : string -> Prop)
    (m : M A) (k : A -> M B) :
  respects rel exn_ok m ->
  (forall a, respects rel exn_ok (k a)) ->
  respects rel exn_ok (bind m k).
Proof.
  intros Hm Hk w. unfold bind.
  destruct (Hm w) as [Hrel Hexn].
  destruct (m w) as [[a|e|] w1]; cbn [fst snd] in *.
  - destruct (Hk a w1) as [Hrel' Hexn']. split; [|exact Hexn'].
    eapply rel_trans; eassumption.
  - now split.
  - now split.
Qed.

Lemma respects_try {A : Type} (exn_ok : string -> Prop)
    (body : M A) (handler : string -> M A) :
  respects rel any_exception body ->
  (forall e, respects rel exn_ok (handler e)) ->
  respects rel exn_ok (try_except body handler).
Proof.
  intros Hbody Hhandler w. unfold try_except.
  destruct (Hbody w) as [Hrel _].
  destruct (body w) as [[a|e|] w1]; cbn [fst snd] in *.
  - now split.
  - destruct (Hhandler e w1) as [Hrel' Hexn']. split; [|exact Hexn'].
    eapply rel_trans; eassumption.
  - now split.
Qed.

Lemma respects_weaken {A : Type} (exn_ok exn_ok' : string -> Prop) (m : M A) :
  (forall e, exn_ok e -> exn_ok' e) ->
  respects rel exn_ok m -> respects rel exn_ok' m.
Proof.
  intros Himp Hm w. destruct (Hm w) as [Hrel Hexn]. split; [exact Hrel|].
  destruct (fst (m w)); auto.
Qed.

End Respects.

Lemma same_io_refl (w : world) : same_io w w.
Proof. now split. Qed.

Lemma same_io_trans (w1 w2 w3 : world) :
  same_io w1 w2 -> same_io w2 w3 -> same_io w1 w3.
Proof. unfold same_io. intros [-> ->] [-> ->]. now split. Qed.

Lemma same_files_refl (w : world) : same_files w w.
Proof. reflexivity. Qed.

Lemma same_files_trans (w1 w2 w3 : world) :
  same_files w1 w2 -> same_files w2 w3 -> same_files w1 w3.
Proof. unfold same_files. congruence. Qed.

Lemma same_io_files {A : Type} (exn_ok : string -> Prop) (m : M A) :
  respects same_io exn_ok m -> respects same_files exn_ok m.
Proof.
  intros Hm w. destruct (Hm w) as [[_ Hfiles] Hexn]. now split.
Qed.

Lemma io_bind {A B : Type} (exn_ok : string -> Prop) (m : M A) (k : A -> M B) :
  respects same_io exn_ok m ->
  (forall a, respects same_io exn_ok (k a)) ->
  respects same_io exn_ok (bind m k).
Proof. apply respects_bind. exact same_io_trans. Qed.

Lemma io_try {A : Type} (exn_ok : string -> Prop)
    (body : M A) (handler : string -> M A) :
  respects same_io any_exception body ->
  (forall e, respects same_io exn_ok (handler e)) ->
  respects same_io exn_ok (try_except body handler).
Proof. apply respects_try. exact same_io_trans. Qed.

Lemma io_ret {A : Type} (exn_ok : string -> Prop) (a : A) :
  respects same_io exn_ok (ret a).
Proof. apply respects_ret. exact same_io_refl. Qed.

Lemma files_bind {A B : Type} (exn_ok : string -> Prop)
    (m : M A) (k : A -> M B) :
  respects same_files exn_ok m ->
  (forall a, respects same_files exn_ok (k a)) ->
  respects same_files exn_ok (bind m k).
Proof. apply respects_bind. exact same_files_trans. Qed.

Lemma files_ret {A : Type} (exn_ok : string -> Prop) (a : A) :
  respects same_files exn_ok (ret a).
Proof. apply respects_ret. exact same_files_refl. Qed.

Lemma respects_print (exn_ok : string -> Prop) (line : string) :
  respects same_io exn_ok (print line).
Proof. intros w. split; [now split | exact I]. Qed.

Lemma respects_session_get (srv : server) (req : request) :
  respects same_io any_exception (session_get srv req).
Proof.
  intros w. unfold session_get.
  destruct (srv (requests w) req); split; try exact I; now split.
Qed.

Lemma respects_response_json (body : json_outcome) :
  respects same_io any_exception (response_json body).
Proof. intros w. destruct body; split; try exact I; now split. Qed.

Lemma respects_input : respects same_files only_eof input.
Proof.
  intros w. unfold input. destruct (stdin w); split; try reflexivity; exact I.
Qed.

(** Composition steps for the two relations. *)
Ltac frame_io :=
  repeat first
    [ apply io_bind
    | apply io_try
    | apply io_ret
    | apply respects_print
    | apply respects_session_get
    | apply respects_response_json
    | intro ].

Section CollectorFrame.

Variable srv : server.

Lemma respects_get_library_types (library_id : string) :
  respects same_io no_exception (get_library_types srv library_id).
Proof.
  unfold get_library_types.
  apply io_bind.
  - apply io_try.
    + apply io_bind;
        [apply respects_session_get|].
      intros response. destruct (fst response =? 200)%Z; [|frame_io].
      apply io_bind;
        [apply respects_response_json|].
      intros data. destruct (Py.get (Items data) []); frame_io.
    + frame_io.
  - intros [types|]; frame_io.
Qed.

Lemma respects_scan_folders (exn_ok : string -> Prop) (folders : list item) :
  forall libraries, respects same_io exn_ok (scan_folders srv folders libraries).
Proof.
  induction folders as [|folder rest IH]; intros libraries; cbn [scan_folders].
  - frame_io.
  - destruct (Py.truthy (Py.get (Name folder) "") && _); [apply IH|].
    destruct (Py.truthy (Py.get (Name folder) "")); [|apply IH].
    apply io_bind.
    + apply (respects_weaken same_io no_exception); [intros e []|].
      apply respects_get_library_types.
    + intros library_types. destruct (Py.mem "Movie" library_types); apply IH.
Qed.

Lemma respects_get_libraries :
  respects same_io no_exception (get_libraries srv).
Proof.
  unfold get_libraries.
  apply io_bind.
  - apply io_try.
    + apply io_bind;
        [apply respects_session_get|].
      intros response. destruct (fst response =? 200)%Z; [|frame_io].
      apply io_bind;
        [apply respects_response_json|].
      intros data.
      apply io_bind;
        [apply respects_scan_folders | frame_io].
    + frame_io.
  - intros [libraries|]; frame_io.
Qed.

Lemma respects_fetch_page (ParentId : option string) (start_index : nat)
    (all_items : list item) :
  respects same_io no_exception (fetch_page srv ParentId start_index all_items).
Proof.
  unfold fetch_page.
  apply io_try; [|frame_io].
  apply io_bind;
    [apply respects_session_get|].
  intros response. destruct (fst response =? 200)%Z; [|frame_io].
  apply io_bind;
    [apply respects_response_json|].
  intros data. cbv zeta.
  destruct (_ >=? _)%Z; frame_io.
Qed.

Lemma respects_fetch_loop (fuel : nat) :
  forall ParentId start_index all_items,
    respects same_io no_exception
      (fetch_loop srv fuel ParentId start_index all_items).
Proof.
  induction fuel as [|fuel IH]; intros ParentId start_index all_items;
    cbn [fetch_loop].
  - intros w. split; [apply same_io_refl | exact I].
  - apply io_bind;
      [apply respects_fetch_page|].
    intros [items|items next]; [frame_io | apply IH].
Qed.

Lemma respects_get_movies_from_library (fuel : nat)
    (library_name library_id : option string) :
  respects same_io no_exception
    (get_movies_from_library srv fuel library_name library_id).
Proof.
  unfold get_movies_from_library.
  apply io_bind.
  - destruct (given library_id); [frame_io|].
    destruct (given library_name); [|frame_io].
    apply io_bind;
      [apply respects_get_libraries | frame_io].
  - intros ParentId.
    apply io_bind;
      [apply respects_print|].
    intros _. apply respects_fetch_loop.
Qed.

Lemma respects_get_selected_movies (fuel : nat)
    (selected_libraries : list string) :
  forall all_movies,
    respects same_io no_exception
      (get_selected_movies srv fuel selected_libraries all_movies).
Proof.
  induction selected_libraries as [|lib_name rest IH]; intros all_movies;
    cbn [get_selected_movies]; [frame_io|].
  apply io_bind;
    [apply respects_get_movies_from_library|].
  intros [|m ms]; [apply IH|].
  apply io_bind;
    [apply respects_print|].
  intros _. apply IH.
Qed.

Lemma respects_get_all_movies (fuel : nat) (selected_libraries : list string) :
  respects same_io no_exception
    (get_all_movies srv fuel selected_libraries).
Proof.
  unfold get_all_movies.
  destruct selected_libraries as [|name rest].
  - apply io_bind;
      [apply respects_print|].
    intros _. apply respects_get_movies_from_library.
  - destruct (Py.mem "all" (name :: rest)).
    + apply io_bind;
        [apply respects_print|].
      intros _. apply respects_get_movies_from_library.
    + apply respects_get_selected_movies.
Qed.

End CollectorFrame.
(* ================================================================= *)
(** ** The driver step by step *)

Section SelectionFrame.

Variable srv : server.
Variable py : token_reader.

Lemma respects_use_all_libraries (fuel : nat)
    (library_movies : list (string * list item)) :
  respects same_io no_exception (use_all_libraries srv fuel library_movies).
Proof.
  unfold use_all_libraries. apply io_bind; [apply respects_get_all_movies|].
  intros [|m ms]; apply io_ret.
Qed.

Lemma only_refused_tail (num : string) (rest : list string) (e : string) :
  only_refused py rest e -> only_refused py (num :: rest) e.
Proof.
  intros (He & num' & Hin & Href). split; [exact He|].
  exists num'. split; [now right | exact Href].
Qed.

Lemma respects_select_by_numbers (fuel : nat) (libraries : list library)
    (selected_nums : list string) :
  forall library_movies,
    respects same_io (only_refused py selected_nums)
      (select_by_numbers srv py fuel libraries selected_nums library_movies).
Proof.
  induction selected_nums as [|num rest IH]; intros library_movies;
    cbn [select_by_numbers]; [apply io_ret|].
  assert (Hrest : forall library_movies',
            respects same_io (only_refused py (num :: rest))
              (select_by_numbers srv py fuel libraries rest library_movies')).
  { intros library_movies'.
    apply (respects_weaken same_io (only_refused py rest));
      [apply only_refused_tail | apply IH]. }
  destruct (isdigit py num) eqn:Hdigit; [|apply Hrest].
  destruct (int py num) as [n|] eqn:Hint.
  - cbv zeta.
    destruct ((0 <=? n - 1)%Z && (n - 1 <? Z.of_nat (List.length libraries))%Z)
      eqn:Hrange; [|apply Hrest].
    destruct (nth_error libraries (Z.to_nat (n - 1))) as [lib|] eqn:Hnth.
    + apply io_bind.
      * apply (respects_weaken same_io no_exception); [intros e []|].
        apply respects_get_movies_from_library.
      * intros [|m ms]; apply Hrest.
    + exfalso. apply nth_error_None in Hnth.
      apply andb_true_iff in Hrange as [Hlo Hhi]. lia.
  - intros w. split; [apply same_io_refl|]. cbn [raise fst].
    split; [reflexivity|]. exists num. split; [now left | now split].
Qed.

(** What the selection step does to the world and what it may raise. *)
Lemma select_libraries_cases (fuel : nat) (libraries : list library)
    (w : world) :
  files (snd (select_libraries srv py fuel libraries w)) = files w /\
  match fst (select_libraries srv py fuel libraries w) with
  | Raise e =>
      (e = "EOFError" /\ List.length (stdin w) <= 1) \/
      (e = "ValueError" /\ bad_selection py (stdin w))
  | Ret _ =>
      List.length (stdin w) <=
      List.length (stdin (snd (select_libraries srv py fuel libraries w))) + 2
  | Diverge => True
  end.
Proof.
  unfold select_libraries, bind, input.
  destruct (stdin w) as [|line1 rest1] eqn:Hin; cbn [fst snd];
    [split; [reflexivity | left; split; [reflexivity | cbn; lia]]|].
  assert (Hall : forall (Q : string -> Prop) w0,
                 stdin w0 = rest1 \/ (exists l, rest1 = l :: stdin w0) ->
                 files w0 = files w ->
    files (snd (use_all_libraries srv fuel [] w0)) = files w /\
    match fst (use_all_libraries srv fuel [] w0) with
    | Raise e => Q e
    | Ret _ =>
        List.length (line1 :: rest1) <=
        List.length (stdin (snd (use_all_libraries srv fuel [] w0))) + 2
    | Diverge => True
    end).
  { intros Q w0 Hstdin Hfiles.
    destruct (respects_use_all_libraries fuel [] w0) as [[Hi Hf] Hexn].
    split; [congruence|].
    destruct (fst (use_all_libraries srv fuel [] w0)); try exact Hexn.
    - rewrite Hi. destruct Hstdin as [-> | (l & ->)]; cbn; lia.
    - destruct Hexn. }
  destruct (Py.strip line1 =? "1")%string;
    [apply (Hall (fun e => _ \/ _)); [now left | reflexivity]|].
  destruct (String.eqb_spec (Py.strip line1) "2") as [Htwo|];
    [|apply (Hall (fun e => _ \/ _)); [now left | reflexivity]].
  cbn [stdin]. destruct rest1 as [|line2 rest2]; cbn [fst snd];
    [split; [reflexivity | left; split; [reflexivity | cbn; lia]]|].
  cbn [requests stdout files].
  set (w2 := mkWorld (requests w) (stdout w) rest2 (files w)).
  destruct (Py.truthy (Py.strip line2)).
  - destruct (respects_select_by_numbers fuel libraries
                (map Py.strip (Py.split "," (Py.strip line2))) [] w2)
      as [[Hi Hf] Hexn].
    destruct (select_by_numbers srv py fuel libraries
                (map Py.strip (Py.split "," (Py.strip line2))) [] w2)
      as [[selected|e|] w3]; cbn [fst snd] in *.
    + destruct selected as [|kv kvs].
      * cbv beta iota.
        apply (Hall (fun e => _ \/ _));
          [right; exists line2; now rewrite Hi | exact Hf].
      * cbn [ret fst snd]. split; [exact Hf|]. rewrite Hi. cbn. lia.
    + split; [exact Hf|]. right.
      destruct Hexn as (He & num & Hnum & Href). split; [exact He|].
      exists line1, line2, rest2, num.
      split; [try rewrite Hin; reflexivity|]. split; [exact Htwo|].
      split; [exact Hnum | exact Href].
    + split; [exact Hf | exact I].
  - cbn [ret]. cbv beta iota.
    apply (Hall (fun e => _ \/ _));
      [right; exists line2; reflexivity | reflexivity].
Qed.

End SelectionFrame.

Lemma choose_url_types_cases (w : world) :
  files (snd (choose_url_types w)) = files w /\
  match fst (choose_url_types w) with
  | Raise e => e = "EOFError" /\ stdin w = []
  | Ret url_types => Forall known_mode url_types
  | Diverge => False
  end.
Proof.
  unfold choose_url_types, bind, input.
  destruct (stdin w) as [|line rest]; cbn [fst snd]; [now repeat split|].
  split.
  - repeat match goal with
           | |- context [if ?c then _ else _] => destruct c
           end; reflexivity.
  - repeat match goal with
           | |- context [if ?c then _ else _] => destruct c
           end; cbn [ret fst];
      repeat (apply Forall_cons || apply Forall_nil);
      unfold known_mode; auto.
Qed.

Lemma respects_test_connection (srv : server) :
  respects same_io no_exception (test_connection srv).
Proof.
  unfold test_connection. apply io_try; [|intros e; apply io_ret].
  apply io_bind; [apply respects_session_get|].
  intros response. destruct (fst response =? 200)%Z; [|apply io_ret].
  apply io_bind; [apply respects_response_json | intros _; apply io_ret].
Qed.

Section TextFacts.

Variable self : session.

Lemma library_header_head (n_movies : nat) (library_name url_type : string) :
  exists rest,
    library_header self n_movies library_name url_type = String "#" rest.
Proof.
  unfold library_header. cbv zeta.
  destruct (url_type =? "simple")%string;
    [|destruct (url_type =? "with_key")%string]; eexists; reflexivity.
Qed.

Lemma generate_playlist_truthy (movies : list item)
    (library_name url_type playlist_content : string) :
  generate_playlist_for_library self movies library_name url_type =
    Some playlist_content ->
  Py.truthy playlist_content = true.
Proof.
  unfold generate_playlist_for_library.
  destruct movies as [|m ms]; [discriminate|].
  rewrite library_entries_flatten.
  destruct (library_header_head (List.length (m :: ms)) library_name url_type)
    as (rest & ->).
  intros H. injection H as <-. reflexivity.
Qed.

(** The entry the loops append is the entry spelled out. *)
Lemma rendered_entry_expected (url_type : string) (movie : item) :
  rendered_entry self url_type movie = expected_entry self url_type movie.
Proof.
  unfold rendered_entry, expected_entry, truthy_id.
  destruct (Id movie) as [[|c r]|]; [reflexivity| |reflexivity].
  cbn [Py.truthy String.eqb negb].
  unfold entry_lines, url_for, get_stream_url_with_key, get_stream_url_simple,
    duration_sec, truthy_int, shown_seconds, shown_name, Py.get.
  destruct (RunTimeTicks movie) as [ticks|]; cbv zeta;
    [destruct (ticks =? 0)%Z|]; cbn [negb Z.eqb];
  destruct (url_type =? "with_key")%string; rewrite !append_assoc; reflexivity.
Qed.

(** The text the combined block builds, in the two modes of the driver. *)
Lemma combined_playlist_text_expected (url_type : string)
    (library_movies : list (string * list item)) :
  known_mode url_type ->
  combined_playlist_text self url_type (List.concat (map snd library_movies)) =
  Ret (expected_combined_text self url_type library_movies).
Proof.
  intros Hmode. unfold combined_playlist_text, expected_combined_text.
  rewrite combined_entries_known by exact Hmode.
  rewrite library_entries_flatten. cbv zeta.
  rewrite (map_ext _ _ (rendered_entry_expected url_type)).
  f_equal.
  destruct Hmode as [-> | ->]; unfold combined_header; cbn [String.eqb Ascii.eqb Bool.eqb];
    cbv zeta; cbv iota; rewrite !append_assoc; reflexivity.
Qed.

End TextFacts.

Section DriverFrame.

Variable srv : server.
Variable py : token_reader.
Variable self : session.
Variable writable : string -> bool.

Lemma write_library_playlists_eq (url_type : string)
    (library_movies : list (string * list item)) :
  forall saved_files w,
    write_library_playlists self writable url_type library_movies saved_files w =
    (Ret (saved_files ++
          map fst (playlist_writes self writable url_type library_movies)),
     mkWorld (requests w) (stdout w) (stdin w)
             (files w ++ playlist_writes self writable url_type library_movies)).
Proof.
  induction library_movies as [|[lib_name movies] rest IH]; intros saved_files w.
  - cbn. rewrite !app_nil_r. now destruct w.
  - cbn [write_library_playlists playlist_writes flat_map fst snd].
    fold (playlist_writes self writable url_type rest).
    destruct (generate_playlist_for_library self movies lib_name url_type)
      as [playlist_content|] eqn:Hgen.
    + rewrite (generate_playlist_truthy _ _ _ _ _ Hgen).
      unfold bind, write_file.
      destruct (writable (library_filename lib_name url_type)).
      * rewrite IH. cbn [requests stdout stdin files map fst app].
        now rewrite <- !app_assoc.
      * rewrite IH. reflexivity.
    + rewrite IH. reflexivity.
Qed.

(** The combined block: one write when the mapping has more than one key,
    none otherwise. *)
Lemma write_combined_playlist_eq (url_type : string)
    (library_movies : list (string * list item)) (saved_files : list string)
    (w : world) :
  known_mode url_type ->
  groups_nonempty library_movies ->
  write_combined_playlist self writable url_type library_movies saved_files w =
  (Ret (saved_files ++
        map fst (combined_writes self writable url_type library_movies)),
   mkWorld (requests w) (stdout w) (stdin w)
           (files w ++ combined_writes self writable url_type library_movies)).
Proof.
  intros Hmode Hgroups. unfold write_combined_playlist, combined_writes.
  destruct (Nat.ltb_spec 1 (List.length library_movies)) as [Hmany|Hfew];
    cbn [andb].
  2: { cbn [ret map]. rewrite !app_nil_r. now destruct w. }
  assert (Hne : List.concat (map snd library_movies) <> []).
  { apply concat_groups_nonempty; [exact Hgroups|].
    intros E. rewrite E in Hmany. cbn in Hmany. lia. }
  pose proof (combined_playlist_text_expected self url_type library_movies Hmode)
    as Htext.
  destruct (List.concat (map snd library_movies)) as [|m ms] eqn:E;
    [congruence|].
  rewrite Htext. unfold bind, write_file.
  destruct (writable (combined_filename url_type)); cbn [ret map fst].
  - reflexivity.
  - rewrite !app_nil_r. now destruct w.
Qed.

Lemma write_playlists_eq (url_types : list string)
    (library_movies : list (string * list item)) :
  Forall known_mode url_types ->
  groups_nonempty library_movies ->
  forall saved_files w,
    write_playlists self writable url_types library_movies saved_files w =
    (Ret (saved_files ++
          map fst (expected_writes self writable url_types library_movies)),
     mkWorld (requests w) (stdout w) (stdin w)
             (files w ++
              expected_writes self writable url_types library_movies)).
Proof.
  intros Hmodes Hgroups.
  induction Hmodes as [|url_type rest Hmode _ IH]; intros saved_files w;
    cbn [write_playlists expected_writes flat_map].
  - cbn [ret map]. rewrite !app_nil_r. now destruct w.
  - fold (expected_writes self writable rest library_movies).
    unfold bind. rewrite write_library_playlists_eq.
    rewrite (write_combined_playlist_eq _ _ _ _ Hmode Hgroups).
    rewrite IH. cbn [requests stdout stdin files].
    rewrite !map_app, <- !app_assoc. reflexivity.
Qed.

(** The stages of a run that reaches the summary. *)
Lemma collect_and_write_inv (fuel : nat) (w w1 : world)
    (saved_files : list string) (library_movies : list (string * list item))
    (url_types : list string) :
  collect_and_write srv py self writable fuel w =
    (Ret (Some (saved_files, library_movies, url_types)), w1) ->
  exists w_a libraries w_b w_c w_d,
    test_connection srv w = (Ret true, w_a) /\
    get_libraries srv w_a = (Ret libraries, w_b) /\
    select_libraries srv py fuel libraries w_b = (Ret library_movies, w_c) /\
    choose_url_types w_c = (Ret url_types, w_d) /\
    write_playlists self writable url_types library_movies [] w_d =
      (Ret saved_files, w1).
Proof.
  unfold collect_and_write, bind at 1.
  destruct (test_connection srv w) as [[connected|e|] w_a]; try discriminate.
  destruct connected; cbn [negb ret]; [|discriminate].
  unfold bind at 1.
  destruct (get_libraries srv w_a) as [[libraries|e|] w_b] eqn:Hlibs;
    try discriminate.
  destruct libraries as [|lib libs]; cbn [ret]; [discriminate|].
  unfold bind at 1.
  destruct (select_libraries srv py fuel (lib :: libs) w_b)
    as [[selected|e|] w_c] eqn:Hsel; try discriminate.
  destruct selected as [|kv kvs]; cbn [ret]; [discriminate|].
  unfold bind at 1.
  destruct (choose_url_types w_c) as [[chosen|e|] w_d] eqn:Hurl;
    try discriminate.
  unfold bind.
  destruct (write_playlists self writable chosen (kv :: kvs) [] w_d)
    as [[saved|e|] w_e] eqn:Hwrite; try discriminate.
  cbn [ret]. intros H. injection H as <- <- <- <-.
  exists w_a, (lib :: libs), w_b, w_c, w_d. now repeat split.
Qed.

(** What a run that reaches the summary has written. *)
Lemma collect_and_write_writes (fuel : nat) (w w1 : world)
    (saved_files : list string) (library_movies : list (string * list item))
    (url_types : list string) :
  collect_and_write srv py self writable fuel w =
    (Ret (Some (saved_files, library_movies, url_types)), w1) ->
  Forall known_mode url_types /\
  groups_nonempty library_movies /\
  library_movies <> [] /\
  saved_files =
    map fst (expected_writes self writable url_types library_movies) /\
  files w1 =
    files w ++ expected_writes self writable url_types library_movies.
Proof.
  intros Hrun.
  destruct (collect_and_write_inv _ _ _ _ _ _ Hrun)
    as (w_a & libraries & w_b & w_c & w_d & Hconn & Hlibs & Hsel & Hurl & Hwrite).
  pose proof (respects_test_connection srv w) as [[_ Hf0] _].
  pose proof (respects_get_libraries srv w_a) as [[_ Hf1] _].
  pose proof (select_libraries_cases srv py fuel libraries w_b) as [Hf2 _].
  pose proof (choose_url_types_cases w_c) as [Hf3 Hmodes].
  rewrite Hconn in Hf0. rewrite Hlibs in Hf1. rewrite Hsel in Hf2.
  rewrite Hurl in Hf3, Hmodes. cbn [fst snd] in *.
  pose proof (select_libraries_nonempty _ _ _ _ _ _ _ Hsel) as Hgroups.
  rewrite (write_playlists_eq _ _ Hmodes Hgroups) in Hwrite.
  injection Hwrite as <- <-. cbn [files app].
  split; [exact Hmodes|]. split; [exact Hgroups|].
  split.
  { intros E. subst library_movies.
    unfold collect_and_write, bind in Hrun.
    rewrite Hconn in Hrun. cbn [negb] in Hrun. rewrite Hlibs in Hrun.
    destruct libraries; [discriminate|]. rewrite Hsel in Hrun.
    discriminate. }
  split; [reflexivity|]. congruence.
Qed.

(** What the run does before the summary. *)
Lemma collect_and_write_cases (fuel : nat) (w : world) :
  match collect_and_write srv py self writable fuel w with
  | (Ret (Some (_, library_movies, url_types)), _) =>
      Forall known_mode url_types /\ library_movies <> []
  | (Ret None, w1) => files w1 = files w
  | (Raise e, w1) =>
      files w1 = files w /\
      ((e = "EOFError" /\ List.length (stdin w) <= 2) \/
       (e = "ValueError" /\ bad_selection py (stdin w)))
  | (Diverge, w1) => files w1 = files w
  end.
Proof.
  unfold collect_and_write, bind at 1.
  destruct (respects_test_connection srv w) as [[Hi0 Hf0] He0].
  destruct (test_connection srv w) as [[connected|e|] w0]; cbn [fst snd] in *;
    [|contradiction | exact Hf0].
  destruct connected; cbn [negb ret]; [|exact Hf0].
  unfold bind at 1.
  destruct (respects_get_libraries srv w0) as [[Hi1 Hf1] He1].
  destruct (get_libraries srv w0) as [[libraries|e|] w1]; cbn [fst snd] in *;
    [|contradiction | congruence].
  destruct libraries as [|lib libs]; cbn [ret]; [congruence|].
  unfold bind at 1.
  destruct (select_libraries_cases srv py fuel (lib :: libs) w1) as [Hf2 He2].
  destruct (select_libraries srv py fuel (lib :: libs) w1)
    as [[library_movies|e|] w2] eqn:Hsel; cbn [fst snd] in *.
  2: { split; [congruence|]. rewrite <- Hi0, <- Hi1.
       destruct He2 as [[-> Hlen]|[-> Hbad]]; [left|right]; split;
         try reflexivity; [lia | exact Hbad]. }
  2: { congruence. }
  destruct library_movies as [|kv kvs]; cbn [ret]; [congruence|].
  unfold bind at 1.
  destruct (choose_url_types_cases w2) as [Hf3 He3].
  destruct (choose_url_types w2) as [[url_types|e|] w3]; cbn [fst snd] in *.
  2: { destruct He3 as [-> Hempty]. split; [congruence|]. left.
       split; [reflexivity|].
       rewrite Hempty in He2. cbn in He2. rewrite <- Hi0, <- Hi1. lia. }
  2: { contradiction. }
  pose proof (select_libraries_nonempty _ _ _ _ _ _ _ Hsel) as Hgroups.
  unfold bind. rewrite (write_playlists_eq _ _ He3 Hgroups).
  cbn [ret]. split; [exact He3 | discriminate].
Qed.

End DriverFrame.

(* ================================================================= *)
(** ** What a run depends on *)

Lemma file_content_app (filename : string) (older newer : list (string * string)) :
  file_content filename (older ++ newer) =
  match file_content filename newer with
  | Some content => Some content
  | None => file_content filename older
  end.
Proof.
  induction older as [|[name content] older IH]; cbn [app file_content].
  - now destruct (file_content filename newer).
  - rewrite IH. destruct (file_content filename newer); [reflexivity|].
    reflexivity.
Qed.

Lemma file_content_written (filename : string) (written : list (string * string)) :
  In filename (map fst written) -> file_content filename written <> None.
Proof.
  induction written as [|[name content] written IH]; cbn [map fst In file_content];
    [tauto|].
  intros [->|Hin].
  - rewrite String.eqb_refl. now destruct (file_content filename written).
  - specialize (IH Hin). now destruct (file_content filename written).
Qed.

Section Replay.

Variable srv : server.

Lemma same_effects_refl (w u : world) :
  aligned srv w u -> same_effects srv w u w u.
Proof.
  intros Hal. split; [exact Hal|]. exists [], [], [].
  now rewrite !app_nil_r.
Qed.

Lemma same_effects_trans (w u w1 u1 w2 u2 : world) :
  same_effects srv w u w1 u1 ->
  same_effects srv w1 u1 w2 u2 ->
  same_effects srv w u w2 u2.
Proof.
  intros [_ (s1 & o1 & f1 & Hrw & Hru & How & Hou & Hfw & Hfu)]
         [Hal (s2 & o2 & f2 & Hrw' & Hru' & How' & Hou' & Hfw' & Hfu')].
  split; [exact Hal|]. exists (s1 ++ s2), (o1 ++ o2), (f1 ++ f2).
  rewrite Hrw', Hru', How', Hou', Hfw', Hfu', Hrw, Hru, How, Hou, Hfw, Hfu.
  now rewrite !app_assoc.
Qed.

Lemma replays_ret {A : Type} (a : A) : replays srv (ret a).
Proof.
  intros w u Hal. split; [reflexivity | now apply same_effects_refl].
Qed.

Lemma replays_raise {A : Type} (e : string) : replays srv (@raise A e).
Proof.
  intros w u Hal. split; [reflexivity | now apply same_effects_refl].
Qed.

Lemma replays_diverge {A : Type} : replays srv (@diverge A).
Proof.
  intros w u Hal. split; [reflexivity | now apply same_effects_refl].
Qed.

Lemma replays_bind {A B : Type} (m : M A) (k : A -> M B) :
  replays srv m ->
  (forall a, replays srv (k a)) ->
  replays srv (bind m k).
Proof.
  intros Hm Hk w u Hal. unfold bind.
  destruct (Hm w u Hal) as [Hfst Heff].
  destruct (m w) as [[a|e|] w1], (m u) as [[a'|e'|] u1];
    cbn [fst snd] in *; try discriminate.
  - injection Hfst as <-.
    destruct (Hk a w1 u1 (proj1 Heff)) as [Hfst' Heff'].
    split; [exact Hfst'|]. eapply same_effects_trans; eassumption.
  - injection Hfst as <-. now split.
  - now split.
Qed.

Lemma replays_try {A : Type} (body : M A) (handler : string -> M A) :
  replays srv body ->
  (forall e, replays srv (handler e)) ->
  replays srv (try_except body handler).
Proof.
  intros Hbody Hhandler w u Hal. unfold try_except.
  destruct (Hbody w u Hal) as [Hfst Heff].
  destruct (body w) as [[a|e|] w1], (body u) as [[a'|e'|] u1];
    cbn [fst snd] in *; try discriminate.
  - now split.
  - injection Hfst as <-.
    destruct (Hhandler e w1 u1 (proj1 Heff)) as [Hfst' Heff'].
    split; [exact Hfst'|]. eapply same_effects_trans; eassumption.
  - now split.
Qed.

Lemma replays_print (line : string) : replays srv (print line).
Proof.
  intros w u [Hin Hsrv]. unfold print. cbn [fst snd].
  split; [reflexivity|]. split; [now split|].
  exists [], [line], []. cbn [requests stdout files].
  now rewrite !app_nil_r.
Qed.

Lemma replays_input : replays srv input.
Proof.
  intros w u [Hin Hsrv]. unfold input. rewrite <- Hin.
  destruct (stdin w) as [|line rest] eqn:Hw; cbn [fst snd].
  - split; [reflexivity|]. apply same_effects_refl. split; [congruence|exact Hsrv].
  - split; [reflexivity|]. split; [now split|].
    exists [], [], []. cbn [requests stdout files]. now rewrite !app_nil_r.
Qed.

Lemma replays_session_get (req : request) : replays srv (session_get srv req).
Proof.
  intros w u [Hin Hsrv]. unfold session_get.
  pose proof (Hsrv [] req) as Hanswer. rewrite !app_nil_r in Hanswer.
  rewrite <- Hanswer.
  assert (Heff :
    same_effects srv w u
      (mkWorld (requests w ++ [req]) (stdout w) (stdin w) (files w))
      (mkWorld (requests u ++ [req]) (stdout u) (stdin u) (files u))).
  { split.
    - split; [exact Hin|]. intros later req'. cbn [requests].
      rewrite <- !app_assoc. apply Hsrv.
    - exists [req], [], []. cbn [requests stdout files].
      now rewrite !app_nil_r. }
  destruct (srv (requests w) req); cbn [fst snd]; now split.
Qed.

Lemma replays_response_json (body : json_outcome) :
  replays srv (response_json body).
Proof. destruct body; [apply replays_raise | apply replays_ret]. Qed.

End Replay.

(** Composition steps. *)
Ltac replay :=
  repeat first
    [ apply replays_ret
    | apply replays_raise
    | apply replays_diverge
    | apply replays_print
    | apply replays_input
    | apply replays_session_get
    | apply replays_response_json
    | apply replays_bind
    | apply replays_try
    | match goal with
      | |- forall _, _ => intro
      | |- replays _ (if ?c then _ else _) => destruct c
      | |- replays _ (match ?x with _ => _ end) => destruct x
      end ].

Section ReplayCollector.

Variable srv : server.

Lemma replays_get_library_types (library_id : string) :
  replays srv (get_library_types srv library_id).
Proof. unfold get_library_types. replay. Qed.

Lemma replays_scan_folders (folders : list item) :
  forall libraries, replays srv (scan_folders srv folders libraries).
Proof.
  induction folders as [|folder rest IH]; intros libraries; cbn [scan_folders].
  - replay.
  - destruct (Py.truthy (Py.get (Name folder) "") && _); [apply IH|].
    destruct (Py.truthy (Py.get (Name folder) "")); [|apply IH].
    apply replays_bind; [apply replays_get_library_types|].
    intros library_types. destruct (Py.mem "Movie" library_types); apply IH.
Qed.

Lemma replays_get_libraries : replays srv (get_libraries srv).
Proof.
  unfold get_libraries.
  apply replays_bind; [|replay].
  apply replays_try; [|replay].
  apply replays_bind; [apply replays_session_get|].
  intros response. destruct (fst response =? 200)%Z; [|replay].
  apply replays_bind; [apply replays_response_json|].
  intros data. apply replays_bind; [apply replays_scan_folders | replay].
Qed.

Lemma replays_fetch_page (ParentId : option string) (start_index : nat)
    (all_items : list item) :
  replays srv (fetch_page srv ParentId start_index all_items).
Proof. unfold fetch_page. cbv zeta. replay. Qed.

Lemma replays_fetch_loop (fuel : nat) :
  forall ParentId start_index all_items,
    replays srv (fetch_loop srv fuel ParentId start_index all_items).
Proof.
  induction fuel as [|fuel IH]; intros ParentId start_index all_items;
    cbn [fetch_loop]; [apply replays_diverge|].
  apply replays_bind; [apply replays_fetch_page|].
  intros [items|items next]; [apply replays_ret | apply IH].
Qed.

Lemma replays_get_movies_from_library (fuel : nat)
    (library_name library_id : option string) :
  replays srv (get_movies_from_library srv fuel library_name library_id).
Proof.
  unfold get_movies_from_library.
  apply replays_bind.
  - destruct (given library_id); [apply replays_ret|].
    destruct (given library_name); [|apply replays_ret].
    apply replays_bind; [apply replays_get_libraries|].
    intros libraries. apply replays_ret.
  - intros ParentId. apply replays_bind; [apply replays_print|].
    intros _. apply replays_fetch_loop.
Qed.

Lemma replays_get_selected_movies (fuel : nat)
    (selected_libraries : list string) :
  forall all_movies,
    replays srv (get_selected_movies srv fuel selected_libraries all_movies).
Proof.
  induction selected_libraries as [|lib_name rest IH]; intros all_movies;
    cbn [get_selected_movies]; [apply replays_ret|].
  apply replays_bind; [apply replays_get_movies_from_library|].
  intros [|m ms]; [apply IH|].
  apply replays_bind; [apply replays_print|].
  intros _. apply IH.
Qed.

Lemma replays_get_all_movies (fuel : nat) (selected_libraries : list string) :
  replays srv (get_all_movies srv fuel selected_libraries).
Proof.
  unfold get_all_movies.
  destruct selected_libraries as [|name rest].
  - apply replays_bind; [apply replays_print|].
    intros _. apply replays_get_movies_from_library.
  - destruct (Py.mem "all" (name :: rest)).
    + apply replays_bind; [apply replays_print|].
      intros _. apply replays_get_movies_from_library.
    + apply replays_get_selected_movies.
Qed.

Lemma replays_use_all_libraries (fuel : nat)
    (library_movies : list (string * list item)) :
  replays srv (use_all_libraries srv fuel library_movies).
Proof.
  unfold use_all_libraries.
  apply replays_bind; [apply replays_get_all_movies|].
  intros [|m ms]; apply replays_ret.
Qed.

Lemma replays_test_connection : replays srv (test_connection srv).
Proof. unfold test_connection. replay. Qed.

Lemma replays_choose_url_types : replays srv choose_url_types.
Proof. unfold choose_url_types. replay. Qed.

End ReplayCollector.

Section ReplayDriver.

Variable srv : server.
Variable py : token_reader.

Lemma replays_select_by_numbers (fuel : nat) (libraries : list library)
    (selected_nums : list string) :
  forall library_movies,
    replays srv
      (select_by_numbers srv py fuel libraries selected_nums library_movies).
Proof.
  induction selected_nums as [|num rest IH]; intros library_movies;
    cbn [select_by_numbers]; [apply replays_ret|].
  destruct (isdigit py num); [|apply IH].
  destruct (int py num) as [n|]; [|apply replays_raise].
  cbv zeta.
  destruct ((0 <=? n - 1)%Z && (n - 1 <? Z.of_nat (List.length libraries))%Z);
    [|apply IH].
  destruct (nth_error libraries (Z.to_nat (n - 1))) as [lib|];
    [|apply replays_raise].
  apply replays_bind; [apply replays_get_movies_from_library|].
  intros [|m ms]; apply IH.
Qed.

Lemma replays_select_libraries (fuel : nat) (libraries : list library) :
  replays srv (select_libraries srv py fuel libraries).
Proof.
  unfold select_libraries.
  apply replays_bind; [apply replays_input|].
  intros line1. cbv zeta.
  destruct (Py.strip line1 =? "1")%string; [apply replays_use_all_libraries|].
  destruct (Py.strip line1 =? "2")%string; [|apply replays_use_all_libraries].
  apply replays_bind; [apply replays_input|].
  intros line2. apply replays_bind.
  - destruct (Py.truthy (Py.strip line2));
      [apply replays_select_by_numbers | apply replays_ret].
  - intros [|kv kvs]; [apply replays_use_all_libraries | apply replays_ret].
Qed.

Variable self : session.
Variable writable : string -> bool.

Lemma replays_write_file (filename content : string) :
  replays srv (write_file writable filename content).
Proof.
  intros w u [Hin Hsrv]. unfold write_file.
  destruct (writable filename); cbn [fst snd].
  - split; [reflexivity|]. split; [now split|].
    exists [], [], [(filename, content)]. cbn [requests stdout files].
    now rewrite !app_nil_r.
  - split; [reflexivity|]. apply same_effects_refl. now split.
Qed.

Lemma replays_write_library_playlists (url_type : string)
    (library_movies : list (string * list item)) :
  forall saved_files,
    replays srv
      (write_library_playlists self writable url_type library_movies
         saved_files).
Proof.
  induction library_movies as [|[lib_name movies] rest IH]; intros saved_files;
    cbn [write_library_playlists]; [apply replays_ret|].
  destruct (generate_playlist_for_library self movies lib_name url_type)
    as [playlist_content|]; [|apply IH].
  destruct (Py.truthy playlist_content); [|apply IH].
  apply replays_bind; [apply replays_write_file|].
  intros ok. apply IH.
Qed.

Lemma replays_write_combined_playlist (url_type : string)
    (library_movies : list (string * list item)) (saved_files : list string) :
  replays srv
    (write_combined_playlist self writable url_type library_movies saved_files).
Proof.
  unfold write_combined_playlist.
  destruct (1 <? List.length library_movies); [|apply replays_ret].
  destruct (List.concat (map snd library_movies)) as [|m ms];
    [apply replays_ret|].
  destruct (combined_playlist_text self url_type (m :: ms)) as [text|e|];
    [|apply replays_raise | apply replays_diverge].
  apply replays_bind; [apply replays_write_file|].
  intros ok. apply replays_ret.
Qed.

Lemma replays_write_playlists (url_types : list string)
    (library_movies : list (string * list item)) :
  forall saved_files,
    replays srv
      (write_playlists self writable url_types library_movies saved_files).
Proof.
  induction url_types as [|url_type rest IH]; intros saved_files;
    cbn [write_playlists]; [apply replays_ret|].
  apply replays_bind; [apply replays_write_library_playlists|].
  intros saved. apply replays_bind; [apply replays_write_combined_playlist|].
  intros saved'. apply IH.
Qed.

(** Everything before the summary depends on the console input and the
    server's answers only. *)
Lemma replays_collect_and_write (fuel : nat) :
  replays srv (collect_and_write srv py self writable fuel).
Proof.
  unfold collect_and_write.
  apply replays_bind; [apply replays_test_connection|].
  intros connected. destruct (negb connected); [apply replays_ret|].
  apply replays_bind; [apply replays_get_libraries|].
  intros [|lib libs]; [apply replays_ret|].
  apply replays_bind; [apply replays_select_libraries|].
  intros [|kv kvs]; [apply replays_ret|].
  apply replays_bind; [apply replays_choose_url_types|].
  intros url_types.
  apply replays_bind; [apply replays_write_playlists|].
  intros saved_files. apply replays_ret.
Qed.

End ReplayDriver.

(* ================================================================= *)
(** ** The driver: the combined playlist and repeated runs *)

(** C4.  A run that reaches the summary with the mapping [library_movies]
    and the URL types [url_types] has written, for each URL type in turn,
    the per-library playlists and then, when the mapping has more than
    one key, the file [jellyfin_ALL_MOVIES...] (if it can be opened), whose
    text is the header of the document [All Movies] followed by the
    entries of all the groups' movies, group after group in the insertion
    order of the mapping; when the mapping has one key it has written the
    per-library playlists and nothing else.  The names it reports as saved
    are the names of the files written, in order. *)
Theorem combined_playlist_iff (srv : server) (py : token_reader)
    (self : session) (writable : string -> bool) (fuel : nat) (w w1 : world)
    (saved_files : list string) (library_movies : list (string * list item))
    (url_types : list string) :
  collect_and_write srv py self writable fuel w =
    (Ret (Some (saved_files, library_movies, url_types)), w1) ->
  exists written,
    files w1 = files w ++ written /\
    saved_files = map fst written /\
    (1 < List.length library_movies ->
     written =
       flat_map
         (fun url_type =>
            playlist_writes self writable url_type library_movies ++
            (if writable (combined_filename url_type)
             then [(combined_filename url_type,
                    expected_combined_text self url_type library_movies)]
             else []))
         url_types) /\
    (List.length library_movies <= 1 ->
     written =
       flat_map
         (fun url_type =>
            playlist_writes self writable url_type library_movies)
         url_types).
Proof.
  intros Hrun.
  destruct (collect_and_write_writes _ _ _ _ _ _ _ _ _ _ Hrun)
    as (_ & _ & _ & Hsaved & Hfiles).
  exists (expected_writes self writable url_types library_movies).
  split; [exact Hfiles|]. split; [exact Hsaved|].
  unfold expected_writes, combined_writes. split.
  - intros Hmany. apply flat_map_ext. intros url_type.
    destruct (Nat.ltb_spec 1 (List.length library_movies)); [reflexivity | lia].
  - intros Hfew. apply flat_map_ext. intros url_type.
    destruct (Nat.ltb_spec 1 (List.length library_movies)); [lia|].
    cbn [andb]. now rewrite app_nil_r.
Qed.

Lemma combined_playlist_iff_witness :
  (exists w1,
     collect_and_write MockCinema.cinema ascii_reader Sample.host
       MockCinema.any_file 5 MockCinema.both_libraries =
     (Ret (Some (["jellyfin_Movies_simple.m3u";
                  "jellyfin_Kids_Movies_New_simple.m3u";
                  "jellyfin_ALL_MOVIES_simple.m3u";
                  "jellyfin_Movies_with_api_key.m3u";
                  "jellyfin_Kids_Movies_New_with_api_key.m3u";
                  "jellyfin_ALL_MOVIES_with_api_key.m3u"],
                 [("Movies", [Sample.alien; Sample.brazil]);
                  ("Kids Movies/New", [Sample.movie "k1" "Coco" 63000000000])],
                 ["simple"; "with_key"])), w1) /\
     nth_error (files w1) 2 =
     Some ("jellyfin_ALL_MOVIES_simple.m3u",
           "#EXTM3U" +++ Py.nl +++
           "# Jellyfin Playlist - All Movies" +++ Py.nl +++
           "# Generated from: http://host:8096" +++ Py.nl +++
           "# Total movies: 3" +++ Py.nl +++
           "# URL Format: http://host:8096/Videos/ID/stream.mp4?static=true" +++ Py.nl +++
           Py.nl +++
           "#EXTINF:3600,Alien" +++ Py.nl +++
           "http://host:8096/Videos/abc123/stream.mp4?static=true" +++ Py.nl +++
           "#EXTINF:7920,Brazil" +++ Py.nl +++
           "http://host:8096/Videos/def456/stream.mp4?static=true" +++ Py.nl +++
           "#EXTINF:6300,Coco" +++ Py.nl +++
           "http://host:8096/Videos/k1/stream.mp4?static=true" +++ Py.nl) /\
     nth_error (files w1) 5 =
     Some ("jellyfin_ALL_MOVIES_with_api_key.m3u",
           "#EXTM3U" +++ Py.nl +++
           "# Jellyfin Playlist - All Movies" +++ Py.nl +++
           "# Generated from: http://host:8096" +++ Py.nl +++
           "# Total movies: 3" +++ Py.nl +++
           "# URL Format: http://host:8096/Videos/ID/stream.mp4?api_key=XXX&static=true" +++ Py.nl +++
           Py.nl +++
           "#EXTINF:3600,Alien" +++ Py.nl +++
           "http://host:8096/Videos/abc123/stream.mp4?api_key=secret-token&static=true" +++ Py.nl +++
           "#EXTINF:7920,Brazil" +++ Py.nl +++
           "http://host:8096/Videos/def456/stream.mp4?api_key=secret-token&static=true" +++ Py.nl +++
           "#EXTINF:6300,Coco" +++ Py.nl +++
           "http://host:8096/Videos/k1/stream.mp4?api_key=secret-token&static=true" +++ Py.nl) /\
     List.length (files w1) = 6) /\
  (exists w1,
     collect_and_write MockCinema.cinema ascii_reader Sample.host
       MockCinema.any_file 5 MockCinema.all_libraries =
     (Ret (Some (["jellyfin_All_Movies_simple.m3u"],
                 [("All Movies",
                   [Sample.alien; Sample.brazil;
                    Sample.movie "k1" "Coco" 63000000000])],
                 ["simple"])), w1) /\
     map fst (files w1) = ["jellyfin_All_Movies_simple.m3u"]).
Proof.
  split.
  - set (run := collect_and_write MockCinema.cinema ascii_reader Sample.host
                  MockCinema.any_file 5 MockCinema.both_libraries).
    assert (Hfst : fst run =
      Ret (Some (["jellyfin_Movies_simple.m3u";
                  "jellyfin_Kids_Movies_New_simple.m3u";
                  "jellyfin_ALL_MOVIES_simple.m3u";
                  "jellyfin_Movies_with_api_key.m3u";
                  "jellyfin_Kids_Movies_New_with_api_key.m3u";
                  "jellyfin_ALL_MOVIES_with_api_key.m3u"],
                 [("Movies", [Sample.alien; Sample.brazil]);
                  ("Kids Movies/New", [Sample.movie "k1" "Coco" 63000000000])],
                 ["simple"; "with_key"]))) by (vm_compute; reflexivity).
    assert (Hrun : run = (fst run, snd run)) by apply surjective_pairing.
    rewrite Hfst in Hrun.
    destruct (combined_playlist_iff _ _ _ _ _ _ _ _ _ _ Hrun)
      as (written & Hfiles & _ & Hmany & _).
    specialize (Hmany ltac:(cbn; lia)).
    exists (snd run). split; [exact Hrun|].
    rewrite Hfiles, Hmany.
    split; [vm_compute; reflexivity|].
    split; [vm_compute; reflexivity|].
    vm_compute; reflexivity.
  - set (run := collect_and_write MockCinema.cinema ascii_reader Sample.host
                  MockCinema.any_file 5 MockCinema.all_libraries).
    assert (Hfst : fst run =
      Ret (Some (["jellyfin_All_Movies_simple.m3u"],
                 [("All Movies",
                   [Sample.alien; Sample.brazil;
                    Sample.movie "k1" "Coco" 63000000000])],
                 ["simple"]))) by (vm_compute; reflexivity).
    assert (Hrun : run = (fst run, snd run)) by apply surjective_pairing.
    rewrite Hfst in Hrun.
    destruct (combined_playlist_iff _ _ _ _ _ _ _ _ _ _ Hrun)
      as (written & Hfiles & _ & _ & Hone).
    specialize (Hone ltac:(cbn; lia)).
    exists (snd run). split; [exact Hrun|].
    rewrite Hfiles, Hone. vm_compute; reflexivity.
Defined.

(** C3 (as stated, refuted).  The same server, the same answers at the
    console, the clock one second later: the summary file differs. *)
Lemma summary_depends_on_clock :
  file_content "PLAYLISTS_SUMMARY.txt"
    (files (snd (generate_playlists MockCinema.cinema ascii_reader Sample.host
                   MockCinema.any_file "2024-01-01 10:00:00" 5
                   MockCinema.all_libraries))) <>
  file_content "PLAYLISTS_SUMMARY.txt"
    (files (snd (generate_playlists MockCinema.cinema ascii_reader Sample.host
                   MockCinema.any_file "2024-01-01 10:00:01" 5
                   MockCinema.all_libraries))).
Proof. vm_compute. discriminate. Qed.

(** C3 (amended).  Take two runs of the generator that meet the same
    console input and the same server answers, one when the clock shows
    [t1] and one when it shows [t2]; the files that exist and the lines
    already on the console before each run may differ, as they do when the
    second run follows the first.  The two runs return the same value,
    leave the same console input, send the same requests and print the
    same lines (of the fetch methods, the ones modelled).  They write the same playlist files, in the same order and
    with the same contents: a playlist that existed before has, after
    either run, the content that run wrote.  What differs is the summary
    alone, when one is written: its text is the same around the time of the
    run, which stands on its [## Date:] line, and the two summaries are the
    same text when the clock shows the same time. *)
Theorem output_fixed_up_to_date (srv : server) (py : token_reader)
    (self : session) (writable : string -> bool) (fuel : nat) (w u : world)
    (t1 t2 : string) :
  aligned srv w u ->
  let run1 := generate_playlists srv py self writable t1 fuel w in
  let run2 := generate_playlists srv py self writable t2 fuel u in
  fst run1 = fst run2 /\
  stdin (snd run1) = stdin (snd run2) /\
  exists sent out playlists summary1 summary2,
    requests (snd run1) = requests w ++ sent /\
    requests (snd run2) = requests u ++ sent /\
    stdout (snd run1) = stdout w ++ out /\
    stdout (snd run2) = stdout u ++ out /\
    files (snd run1) = files w ++ playlists ++ summary1 /\
    files (snd run2) = files u ++ playlists ++ summary2 /\
    ((summary1 = [] /\ summary2 = []) \/
     exists after,
       summary1 = [(summary_filename, summary_before self +++ t1 +++ after)] /\
       summary2 = [(summary_filename, summary_before self +++ t2 +++ after)]) /\
    (t1 = t2 -> summary1 = summary2) /\
    (forall filename,
       In filename (map fst playlists) ->
       filename <> summary_filename ->
       file_content filename (files (snd run1)) =
         file_content filename playlists /\
       file_content filename (files (snd run2)) =
         file_content filename playlists).
Proof.
  intros Hal run1 run2. subst run1 run2.
  rewrite !generate_playlists_eq.
  destruct (replays_collect_and_write srv py self writable fuel w u Hal)
    as [Hfst [[Hin _] (sent & out & written & Hrw & Hru & How & Hou & Hfw & Hfu)]].
  assert (Hcontent : forall (older : list (string * string)) summary filename,
            In filename (map fst written) ->
            (summary = [] \/
             exists text, summary = [(summary_filename, text)]) ->
            filename <> summary_filename ->
            file_content filename (older ++ written ++ summary) =
            file_content filename written).
  { intros older summary filename Hwritten Hsummary Hne.
    rewrite file_content_app.
    assert (Hsame : file_content filename (written ++ summary) =
                    file_content filename written).
    { destruct Hsummary as [-> | (text & ->)]; [now rewrite app_nil_r|].
      rewrite file_content_last.
      destruct (String.eqb_spec summary_filename filename); congruence. }
    rewrite Hsame.
    pose proof (file_content_written filename written Hwritten).
    now destruct (file_content filename written). }
  destruct (collect_and_write srv py self writable fuel w)
    as [[[[[saved_files library_movies] url_types]|]|e|] w1],
     (collect_and_write srv py self writable fuel u)
    as [[[[[saved_files' library_movies'] url_types']|]|e'|] u1];
    cbn [fst snd] in *; try discriminate.
  - injection Hfst as <- <- <-.
    destruct (summary_text_date self saved_files library_movies url_types)
      as (after & Hdate).
    destruct (writable summary_filename).
    + cbn [wrote requests stdout stdin files].
      split; [reflexivity|]. split; [exact Hin|].
      exists sent, out, written,
        [(summary_filename, summary_before self +++ t1 +++ after)],
        [(summary_filename, summary_before self +++ t2 +++ after)].
      rewrite !Hdate, Hfw, Hfu, <- !app_assoc.
      do 6 (split; [assumption || reflexivity|]).
      split; [right; exists after; now split|].
      split; [now intros ->|].
      intros filename Hwritten Hne.
      split; apply Hcontent; eauto.
    + split; [reflexivity|]. split; [exact Hin|].
      exists sent, out, written, [], [].
      rewrite Hfw, Hfu, !app_nil_r.
      do 6 (split; [assumption || reflexivity|]).
      split; [now left|]. split; [reflexivity|].
      intros filename Hwritten Hne.
      rewrite <- (app_nil_r written) at 1 3.
      split; apply Hcontent; auto.
  - split; [reflexivity|]. split; [exact Hin|].
    exists sent, out, written, [], [].
    rewrite Hfw, Hfu, !app_nil_r.
    do 6 (split; [assumption || reflexivity|]).
    split; [now left|]. split; [reflexivity|].
    intros filename Hwritten Hne.
    rewrite <- (app_nil_r written) at 1 3.
    split; apply Hcontent; auto.
  - injection Hfst as <-. split; [reflexivity|]. split; [exact Hin|].
    exists sent, out, written, [], [].
    rewrite Hfw, Hfu, !app_nil_r.
    do 6 (split; [assumption || reflexivity|]).
    split; [now left|]. split; [reflexivity|].
    intros filename Hwritten Hne.
    rewrite <- (app_nil_r written) at 1 3.
    split; apply Hcontent; auto.
  - split; [reflexivity|]. split; [exact Hin|].
    exists sent, out, written, [], [].
    rewrite Hfw, Hfu, !app_nil_r.
    do 6 (split; [assumption || reflexivity|]).
    split; [now left|]. split; [reflexivity|].
    intros filename Hwritten Hne.
    rewrite <- (app_nil_r written) at 1 3.
    split; apply Hcontent; auto.
Qed.

Lemma output_fixed_up_to_date_witness :
  aligned MockCinema.cinema MockCinema.all_libraries MockCinema.second_visit /\
  file_content "jellyfin_All_Movies_simple.m3u"
    (files MockCinema.second_visit) = Some "#EXTM3U (old)" /\
  file_content "jellyfin_All_Movies_simple.m3u"
    (files (snd (generate_playlists MockCinema.cinema ascii_reader Sample.host
                   MockCinema.any_file "2031-12-31 23:59:59" 5
                   MockCinema.second_visit))) =
  file_content "jellyfin_All_Movies_simple.m3u"
    (files (snd (generate_playlists MockCinema.cinema ascii_reader Sample.host
                   MockCinema.any_file "2024-01-01 10:00:00" 5
                   MockCinema.all_libraries))).
Proof.
  assert (Hal : aligned MockCinema.cinema MockCinema.all_libraries
                  MockCinema.second_visit).
  { split; reflexivity. }
  split; [exact Hal|]. split; [reflexivity|].
  destruct (output_fixed_up_to_date MockCinema.cinema ascii_reader Sample.host
              MockCinema.any_file 5 MockCinema.all_libraries
              MockCinema.second_visit
              "2024-01-01 10:00:00" "2031-12-31 23:59:59" Hal)
    as (_ & _ & sent & out & playlists & summary1 & summary2 &
        _ & _ & _ & _ & Hfiles & _ & Hsummary & _ & Hcontent).
  assert (Hnames :
    map fst (files (snd (generate_playlists MockCinema.cinema ascii_reader
                           Sample.host MockCinema.any_file
                           "2024-01-01 10:00:00" 5
                           MockCinema.all_libraries))) =
    ["jellyfin_All_Movies_simple.m3u"] ++ ["PLAYLISTS_SUMMARY.txt"])
    by (vm_compute; reflexivity).
  rewrite Hfiles in Hnames.
  change (files MockCinema.all_libraries) with (@nil (string * string)) in Hnames.
  rewrite app_nil_l in Hnames.
  rewrite map_app in Hnames.
  assert (Hin : In "jellyfin_All_Movies_simple.m3u" (map fst playlists)).
  { destruct Hsummary as [[-> _] | (after & -> & _)].
    - cbn [map] in Hnames. rewrite app_nil_r in Hnames.
      rewrite Hnames. now left.
    - cbn [map fst] in Hnames. apply app_inj_tail in Hnames as [-> _].
      now left. }
  destruct (Hcontent "jellyfin_All_Movies_simple.m3u" Hin ltac:(discriminate))
    as [H1 H2].
  now rewrite H1, H2.
Defined.


(* ================================================================= *)
(** ** Further properties: probes, discovery, the fetch loop *)

(** X1.  A probe always answers with exactly one type, after exactly one
    request, without raising or printing, whatever the server does; a type
    other than [Unknown] is the type of the first item of a 200 answer. *)
Theorem probe_always_answers (srv : server) (library_id : string) (w : world) :
  exists item_type,
    get_library_types srv library_id w =
      (Ret [item_type], sent (ItemsProbe library_id) w) /\
    (item_type <> "Unknown" ->
     exists data first rest,
       srv (requests w) (ItemsProbe library_id) = Reply 200 (Json data) /\
       Items data = Some (first :: rest) /\
       Type_ first = Some item_type).
Proof.
  exists (probed_type (srv (requests w) (ItemsProbe library_id))).
  split; [apply get_library_types_eq|].
  unfold probed_type.
  destruct (srv (requests w) (ItemsProbe library_id))
    as [e|status_code [e|data]]; try congruence.
  destruct (Z.eqb_spec status_code 200) as [->|]; [|congruence].
  destruct (Items data) as [[|first rest]|] eqn:Hitems; cbn [Py.get];
    try congruence.
  destruct (Type_ first) as [item_type|] eqn:Htype; cbn [Py.get];
    [|congruence].
  intros _. exists data, first, rest. repeat split; assumption.
Qed.

Lemma classify_folder_well (probe : string -> http_result) (folder : item) :
  Forall well_classified (classify_folder probe folder).
Proof.
  unfold classify_folder.
  destruct (String.eqb_spec (Py.get (Name folder) "") "") as [|Hname];
    [constructor|].
  destruct (movie_named (Py.get (Name folder) "")) eqn:Hmovie.
  - constructor; [|constructor]. split; [exact Hname|]. left. now split.
  - destruct (probed_type _ =? "Movie")%string; [|constructor].
    constructor; [|constructor]. split; [exact Hname|]. right. now split.
Qed.

Lemma scan_folders_well (srv : server) (folders : list item) :
  forall libraries w libraries' w',
    Forall well_classified libraries ->
    scan_folders srv folders libraries w = (Ret libraries', w') ->
    Forall well_classified libraries'.
Proof.
  induction folders as [|folder rest IH]; intros libraries w libraries' w' Hall.
  - cbn. intros H. injection H as <- _. exact Hall.
  - rewrite scan_folders_step. apply IH.
    apply Forall_app. split; [exact Hall | apply classify_folder_well].
Qed.

(** X2.  Whatever the server answers, every library discovery returns has
    a non-empty name, and its type is [Movie] exactly when the name
    contains [movie] (any case) and [Mixed] otherwise; discovery reads no
    console input and writes no file. *)
Theorem discovered_libraries_well_classified (srv : server) (w w' : world)
    (libraries : list library) :
  get_libraries srv w = (Ret libraries, w') ->
  Forall well_classified libraries /\
  stdin w' = stdin w /\ files w' = files w.
Proof.
  intros Hrun. split.
  - destruct (srv (requests w) MediaFolders) as [e|status_code [e|data]] eqn:Hsrv.
    + unfold get_libraries, bind, try_except, session_get in Hrun.
      rewrite Hsrv in Hrun. injection Hrun as <- _. constructor.
    + unfold get_libraries, bind, try_except, session_get in Hrun.
      rewrite Hsrv in Hrun. cbn [fst snd] in Hrun.
      destruct (status_code =? 200)%Z; injection Hrun as <- _; constructor.
    + destruct (Z.eqb_spec status_code 200) as [->|Hne].
      * rewrite (get_libraries_200 srv data w Hsrv) in Hrun.
        eapply scan_folders_well; [constructor | exact Hrun].
      * unfold get_libraries, bind, try_except, session_get in Hrun.
        rewrite Hsrv in Hrun. cbn [fst snd] in Hrun.
        destruct (Z.eqb_spec status_code 200); [contradiction|].
        injection Hrun as <- _. constructor.
  - destruct (respects_get_libraries srv w) as [[Hin Hfiles] _].
    rewrite Hrun in Hin, Hfiles. now split.
Qed.

Lemma discovered_libraries_well_classified_witness :
  Forall well_classified [mkLibrary "lib-movies" "Movies" "Movie"].
Proof.
  exact (proj1 (discovered_libraries_well_classified Mock.two_libraries
                  Mock.start _ _ eq_refl)).
Defined.

Lemma fetch_loop_extends (srv : server) (fuel : nat) :
  forall ParentId start_index all_items w items w',
    fetch_loop srv fuel ParentId start_index all_items w = (Ret items, w') ->
    exists more, items = all_items ++ more.
Proof.
  induction fuel as [|fuel IH];
    intros ParentId start_index all_items w items w'; cbn [fetch_loop].
  - discriminate.
  - unfold bind.
    assert (Hpage : forall step w1,
      fetch_page srv ParentId start_index all_items w = (Ret step, w1) ->
      exists more,
        match step with
        | Break all_items' => all_items' = all_items ++ more
        | Continue all_items' _ => all_items' = all_items ++ more
        end).
    { intros step w1. unfold fetch_page, bind, try_except, session_get.
      destruct (srv (requests w) (ItemsPage ParentId start_index page_limit))
        as [e|status_code [e|data]]; cbn [fst snd].
      - intros H. injection H as <- _. exists []. now rewrite app_nil_r.
      - destruct (status_code =? 200)%Z; intros H; injection H as <- _;
          exists []; now rewrite app_nil_r.
      - destruct (status_code =? 200)%Z; cbn [response_json ret].
        + destruct (_ >=? _)%Z; intros H; injection H as <- _; eauto.
        + intros H; injection H as <- _. exists []. now rewrite app_nil_r. }
    destruct (fetch_page srv ParentId start_index all_items w)
      as [[[all_items'|all_items' next]|e|] w1]; try discriminate.
    + destruct (Hpage _ _ eq_refl) as (more & ->).
      intros H. injection H as <- _. eauto.
    + destruct (Hpage _ _ eq_refl) as (more & ->).
      intros H. apply IH in H as (more' & ->).
      exists (more ++ more'). now rewrite app_assoc.
Qed.

(** X3.  Whatever the server does and however many passes are allowed,
    the fetch loop never raises, reads no console input and writes no file;
    when it returns, the items it was started with are the beginning of the
    result, so nothing already received is lost or reordered. *)
Theorem fetch_loop_is_safe (srv : server) (fuel : nat)
    (ParentId : option string) (start_index : nat) (all_items : list item)
    (w : world) :
  let run := fetch_loop srv fuel ParentId start_index all_items w in
  (forall e, fst run <> Raise e) /\
  stdin (snd run) = stdin w /\
  files (snd run) = files w /\
  (forall items, fst run = Ret items -> exists more, items = all_items ++ more).
Proof.
  intros run. subst run.
  destruct (respects_fetch_loop srv fuel ParentId start_index all_items w)
    as [[Hin Hfiles] Hexn].
  split.
  { intros e He. rewrite He in Hexn. exact Hexn. }
  split; [exact Hin|]. split; [exact Hfiles|].
  intros items Hret.
  destruct (fetch_loop srv fuel ParentId start_index all_items w)
    as [r w'] eqn:Hrun. cbn [fst] in Hret. subst r.
  eapply fetch_loop_extends. exact Hrun.
Qed.

(* ----------------------------------------------------------------- *)
(** *** A page request that fails *)

Section FailingPage.

Variable srv : server.
Variable ParentId : option string.

Lemma fetch_page_failed (start_index : nat) (all_items : list item)
    (lines : list string) (w : world) :
  failed (srv (requests w) (page_request ParentId start_index)) = Some lines ->
  fetch_page srv ParentId start_index all_items w =
  (Ret (Break all_items),
   mkWorld (requests w ++ [page_request ParentId start_index])
           (stdout w ++ lines) (stdin w) (files w)).
Proof.
  unfold failed, fetch_page, bind, try_except, session_get, page_request.
  destruct (srv (requests w) (ItemsPage ParentId start_index page_limit))
    as [e|status_code [e|data]]; cbn [fst snd].
  - intros H. injection H as <-. reflexivity.
  - destruct (status_code =? 200)%Z; intros H; injection H as <-;
      cbn [response_json raise ret print]; [reflexivity|].
    now rewrite app_nil_r.
  - destruct (status_code =? 200)%Z; [discriminate|].
    intros H; injection H as <-. cbn [ret]. now rewrite app_nil_r.
Qed.

Variable held : list item.
Variable k : nat.
Variable answer : http_result.
Variable lines : list string.
Hypothesis serves : serves_until srv ParentId held (k * page_limit) answer.
Hypothesis fails : failed answer = Some lines.
Hypothesis reached : k * page_limit < List.length held.

Lemma failing_loop (r : nat) :
  forall j w fuel,
    j + r = k ->
    S r <= fuel ->
    exists w' progress,
      fetch_loop srv fuel ParentId (j * page_limit)
        (firstn (j * page_limit) held) w =
        (Ret (firstn (k * page_limit) held), w') /\
      requests w' =
        requests w ++
        map (fun i => page_request ParentId ((j + i) * page_limit))
            (seq 0 (S r)) /\
      stdout w' = stdout w ++ progress ++ lines /\
      List.length progress = r.
Proof.
  destruct serves as [Hfull Hfail].
  induction r as [|r IH]; intros j w fuel Hj Hfuel;
    (destruct fuel as [|fuel]; [lia|]).
  - assert (j = k) by lia. subst j.
    pose proof (fetch_page_failed (k * page_limit)
                  (firstn (k * page_limit) held) lines w) as Hpage.
    rewrite Hfail in Hpage. specialize (Hpage fails).
    rewrite (fetch_loop_break _ _ _ _ _ _ _ _ Hpage).
    eexists. exists []. split; [reflexivity|].
    cbn [requests stdout map seq app List.length].
    rewrite Nat.add_0_r. repeat split; reflexivity.
  - assert (Hlt : j * page_limit < k * page_limit).
    { apply Nat.mul_lt_mono_pos_r; unfold page_limit; lia. }
    assert (Hnext : j * page_limit + page_limit <= k * page_limit).
    { replace (j * page_limit + page_limit) with (S j * page_limit) by lia.
      apply Nat.mul_le_mono_r. lia. }
    pose proof (fetch_page_200 srv ParentId (j * page_limit)
                  (firstn (j * page_limit) held) _ w
                  (Hfull (requests w) (j * page_limit) Hlt)) as Hpage.
    cbn [Py.get Items TotalRecordCount] in Hpage.
    rewrite firstn_app_skipn, length_firstn in Hpage.
    destruct (Z.geb_spec (Z.of_nat (Nat.min (j * page_limit + page_limit)
                                           (List.length held)))
                         (Z.of_nat (List.length held))) as [Hge|_]; [lia|].
    rewrite (fetch_loop_continue _ _ _ _ _ _ _ _ _ Hpage).
    rewrite length_firstn, length_skipn.
    replace (j * page_limit +
             Nat.min page_limit (List.length held - j * page_limit))
      with (S j * page_limit) by lia.
    replace (j * page_limit + page_limit) with (S j * page_limit) by lia.
    match goal with
    | |- context [fetch_loop srv fuel ParentId _ _ ?w1] =>
        destruct (IH (S j) w1 fuel) as (w' & progress & Hrun & Hreq & Hout & Hlen);
          try lia
    end.
    exists w'. eexists (_ :: progress).
    split; [exact Hrun|]. split; [|split].
    + rewrite Hreq. cbn [printed sent requests]. rewrite <- app_assoc.
      f_equal. change (seq 0 (S (S r))) with (0 :: seq 1 (S r)).
      rewrite <- seq_shift. cbn [map app]. rewrite Nat.add_0_r. f_equal.
      rewrite map_map. apply map_ext. intros i. f_equal. lia.
    + rewrite Hout. cbn [printed sent stdout]. rewrite <- !app_assoc.
      reflexivity.
    + cbn [List.length]. now rewrite Hlen.
Qed.

End FailingPage.

(** X4.  When the server serves full pages up to the offset k * 1000,
    which lies inside the list, and the request at that offset fails, the
    fetch returns the k * 1000 items received before, after k + 1 requests;
    it prints one progress line per page received and then the error
    message of an exception, or nothing more for a status other than
    200. *)
Theorem failed_page_truncates (srv : server) (ParentId : option string)
    (held : list item) (k : nat) (answer : http_result) (lines : list string)
    (w : world) (fuel : nat) :
  serves_until srv ParentId held (k * page_limit) answer ->
  failed answer = Some lines ->
  k * page_limit < List.length held ->
  S k <= fuel ->
  exists w' progress,
    fetch_loop srv fuel ParentId 0 [] w =
      (Ret (firstn (k * page_limit) held), w') /\
    requests w' =
      requests w ++ map (page_request ParentId) (full_page_offsets (S k)) /\
    stdout w' = stdout w ++ progress ++ lines /\
    List.length progress = k.
Proof.
  intros Hserves Hfails Hreached Hfuel.
  destruct (failing_loop srv ParentId held k answer lines Hserves Hfails
              Hreached k 0 w fuel) as (w' & progress & Hrun & Hreq & Hout & Hlen);
    try lia.
  exists w', progress. cbn [Nat.mul firstn] in Hrun.
  split; [exact Hrun|]. split; [|now split].
  rewrite Hreq. unfold full_page_offsets. now rewrite map_map.
Qed.

Lemma failed_page_truncates_witness :
  exists w',
    fetch_loop MockFailing.breaks_at_2000 3 None 0 [] Mock.start =
      (Ret (firstn 2000 MockFailing.many), w') /\
    requests w' = [ItemsPage None 0 1000; ItemsPage None 1000 1000;
                   ItemsPage None 2000 1000].
Proof.
  assert (Hserves : serves_until MockFailing.breaks_at_2000 None
                      MockFailing.many (2 * page_limit)
                      (Reply 500 (Json (mkData None None None)))).
  { split.
    - intros history start_index Hlt. unfold MockFailing.breaks_at_2000, page_request.
      destruct (Nat.eqb_spec start_index 2000) as [->|_]; [|reflexivity].
      unfold page_limit in Hlt. lia.
    - intros history. reflexivity. }
  destruct (failed_page_truncates MockFailing.breaks_at_2000 None
              MockFailing.many 2 _ [] Mock.start 3 Hserves eq_refl)
    as (w' & progress & Hrun & Hreq & _).
  - unfold MockFailing.many. rewrite repeat_length. unfold page_limit. lia.
  - lia.
  - exists w'. split; [exact Hrun|]. rewrite Hreq. reflexivity.
Defined.

(* ----------------------------------------------------------------- *)
(** *** Fetching by library name *)

Lemma find_library_first (library_name : string) (libraries : list library) :
  match find_library library_name libraries with
  | None =>
      Forall (fun lib => Py.lower (lib_name lib) <> Py.lower library_name)
             libraries
  | Some found =>
      exists before lib after,
        libraries = before ++ lib :: after /\
        lib_id lib = found /\
        Py.lower (lib_name lib) = Py.lower library_name /\
        Forall (fun lib => Py.lower (lib_name lib) <> Py.lower library_name)
               before
  end.
Proof.
  induction libraries as [|lib rest IH]; cbn [find_library]; [constructor|].
  destruct (String.eqb_spec (Py.lower (lib_name lib)) (Py.lower library_name))
    as [Heq|Hne].
  - exists [], lib, rest. repeat split; [exact Heq | constructor].
  - destruct (find_library library_name rest) as [found|].
    + destruct IH as (before & lib' & after & -> & Hid & Hname & Hbefore).
      exists (lib :: before), lib', after.
      repeat split; try assumption. now constructor.
    + now constructor.
Qed.

(** X5.  Called with a library name, [get_movies_from_library] runs
    discovery and scopes the fetch to the identifier of the first
    discovered library whose name equals the given one up to case; when no
    discovered library has that name, the fetch is not scoped at all and
    collects the movies of every library. *)
Theorem library_name_resolution (srv : server) (fuel : nat)
    (library_name : string) (libraries : list library) (w w1 : world) :
  library_name <> "" ->
  get_libraries srv w = (Ret libraries, w1) ->
  exists ParentId,
    get_movies_from_library srv fuel (Some library_name) None w =
      fetch_loop srv fuel ParentId 0 []
        (printed ("Fetching movies from library: " +++ library_name +++ "...")
                 w1) /\
    match ParentId with
    | None =>
        Forall (fun lib => Py.lower (lib_name lib) <> Py.lower library_name)
               libraries
    | Some found =>
        exists before lib after,
          libraries = before ++ lib :: after /\
          lib_id lib = found /\
          Py.lower (lib_name lib) = Py.lower library_name /\
          Forall (fun lib => Py.lower (lib_name lib) <> Py.lower library_name)
                 before
    end.
Proof.
  intros Hname Hlibs.
  exists (find_library library_name libraries).
  split; [|apply find_library_first].
  unfold get_movies_from_library. cbn [given Py.get].
  apply truthy_true in Hname. rewrite Hname.
  unfold bind at 1 2. rewrite Hlibs. reflexivity.
Qed.

Lemma library_name_resolution_witness :
  exists ParentId,
    get_movies_from_library Mock.two_libraries 1 (Some "tv shows") None
      Mock.start =
    fetch_loop Mock.two_libraries 1 ParentId 0 []
      (printed "Fetching movies from library: tv shows..."
         (mkWorld [MediaFolders; ItemsProbe "lib-tv"] [] [] [])) /\
    ParentId = None.
Proof.
  destruct (library_name_resolution Mock.two_libraries 1 "tv shows"
              [mkLibrary "lib-movies" "Movies" "Movie"] Mock.start
              (mkWorld [MediaFolders; ItemsProbe "lib-tv"] [] [] []))
    as (ParentId & Hrun & Hscope); [discriminate | reflexivity |].
  exists ParentId. split; [exact Hrun|].
  destruct ParentId as [found|]; [|reflexivity].
  destruct Hscope as (before & lib & after & Hlibs & _ & Hlower & _).
  exfalso.
  destruct before as [|lib0 [|lib1 before]]; cbn in Hlibs;
    try (injection Hlibs as <- _; cbn in Hlower; discriminate).
Defined.


(* ================================================================= *)
(** ** Further properties: the driver *)

(** X7.  When the connection test fails (the request raises, the status
    is not 200, or the body cannot be decoded) the run returns [False]
    after that single request: it discovers nothing, reads no console
    input, prints nothing from the collection methods and writes no
    file. *)
Theorem failed_connection_halts (srv : server) (py : token_reader)
    (self : session)
    (writable : string -> bool) (current_time : string) (fuel : nat)
    (w : world) :
  connected (srv (requests w) SystemInfo) = false ->
  generate_playlists srv py self writable current_time fuel w =
  (Ret false, sent SystemInfo w).
Proof.
  intros Hconn.
  unfold generate_playlists, collect_and_write, test_connection, bind,
    try_except, session_get.
  unfold connected in Hconn.
  destruct (srv (requests w) SystemInfo) as [e|status_code [e|data]];
    cbn [fst snd]; try reflexivity.
  - destruct (status_code =? 200)%Z; reflexivity.
  - rewrite Hconn. reflexivity.
Qed.

Lemma failed_connection_halts_witness :
  generate_playlists Mock.unavailable ascii_reader Sample.host MockCinema.any_file
    "2024-01-01 10:00:00" 5 MockCinema.both_libraries =
  (Ret false, mkWorld [SystemInfo] [] ["2"; "1,2"; "3"] []).
Proof.
  rewrite (failed_connection_halts Mock.unavailable ascii_reader Sample.host
             MockCinema.any_file "2024-01-01 10:00:00" 5
             MockCinema.both_libraries eq_refl).
  reflexivity.
Defined.

(** X8.  A run that does not return [True] has written no file: whether it
    returned [False] (no connection, no movie library, no movie), raised
    (out of console input, or at a token [int] refuses), or did not come
    back from a fetch, the files are as they were before.  Only a run that reaches the playlists writes, and it
    then returns [True]. *)
Theorem no_file_unless_complete (srv : server) (py : token_reader)
    (self : session)
    (writable : string -> bool) (current_time : string) (fuel : nat)
    (w : world) :
  let run := generate_playlists srv py self writable current_time fuel w in
  fst run = Ret true \/ files (snd run) = files w.
Proof.
  intros run. subst run. rewrite generate_playlists_eq.
  pose proof (collect_and_write_cases srv py self writable fuel w) as Hcases.
  destruct (collect_and_write srv py self writable fuel w)
    as [[[[[saved_files library_movies] url_types]|]|e|] w1]; cbn [fst snd].
  - now left.
  - now right.
  - right. exact (proj1 Hcases).
  - now right.
Qed.




(* ----------------------------------------------------------------- *)
(** *** The selection step *)

Lemma dict_set_keys {V : Type} (k x : string) (v : V) (d : list (string * V)) :
  In x (map fst (dict_set k v d)) -> x = k \/ In x (map fst d).
Proof.
  induction d as [|[k' v'] rest IH]; cbn [dict_set map fst In].
  - intros [<-|[]]. now left.
  - destruct (String.eqb_spec k' k) as [->|Hne]; cbn [map fst In].
    + intros [<-|Hin]; [now left | right; now right].
    + intros [<-|Hin]; [right; now left|].
      destruct (IH Hin) as [->|Hin']; [now left | right; now right].
Qed.

Lemma dict_set_nodup {V : Type} (k : string) (v : V) (d : list (string * V)) :
  NoDup (map fst d) -> NoDup (map fst (dict_set k v d)).
Proof.
  induction d as [|[k' v'] rest IH]; cbn [dict_set map fst]; intros Hnd.
  - constructor; [intros [] | constructor].
  - inversion Hnd as [|? ? Hnotin Hrest]; subst.
    destruct (String.eqb_spec k' k) as [->|Hne]; cbn [map fst].
    + now constructor.
    + constructor; [|now apply IH].
      intros Hin. apply dict_set_keys in Hin as [->|Hin]; contradiction.
Qed.

Lemma dict_set_ok (libraries : list library) (k : string) (movies : list item)
    (library_movies : list (string * list item)) :
  selectable libraries k ->
  movies <> [] ->
  selection_ok libraries library_movies ->
  selection_ok libraries (dict_set k movies library_movies).
Proof.
  intros Hk Hne (Hgroups & Hnd & Hkeys). split; [|split].
  - now apply dict_set_nonempty.
  - now apply dict_set_nodup.
  - apply Forall_forall. intros x Hin.
    apply dict_set_keys in Hin as [->|Hin]; [exact Hk|].
    rewrite Forall_forall in Hkeys. now apply Hkeys.
Qed.

Lemma selection_ok_nil (libraries : list library) : selection_ok libraries [].
Proof. repeat split; constructor. Qed.

Section SelectionInvariant.

Variable srv : server.
Variable py : token_reader.
Variable libraries : list library.

Lemma use_all_libraries_ok (fuel : nat)
    (library_movies result : list (string * list item)) (w w' : world) :
  selection_ok libraries library_movies ->
  use_all_libraries srv fuel library_movies w = (Ret result, w') ->
  selection_ok libraries result.
Proof.
  intros Hok. unfold use_all_libraries, bind.
  destruct (get_all_movies srv fuel ["all"] w) as [[all_movies|e|] w1];
    try discriminate.
  destruct all_movies as [|m ms]; cbn [ret]; intros H; injection H as <- _.
  - exact Hok.
  - apply dict_set_ok; [now left | discriminate | exact Hok].
Qed.

Lemma select_by_numbers_ok (fuel : nat) (selected_nums : list string) :
  forall (library_movies result : list (string * list item)) (w w' : world),
    selection_ok libraries library_movies ->
    select_by_numbers srv py fuel libraries selected_nums library_movies w =
      (Ret result, w') ->
    selection_ok libraries result.
Proof.
  induction selected_nums as [|num rest IH];
    intros library_movies result w w' Hok; cbn [select_by_numbers].
  - cbn [ret]. intros H. injection H as <- _. exact Hok.
  - destruct (isdigit py num); [|apply IH; exact Hok].
    destruct (int py num) as [n|]; [|discriminate].
    cbv zeta.
    destruct ((0 <=? n - 1)%Z && (n - 1 <? Z.of_nat (List.length libraries))%Z);
      [|apply IH; exact Hok].
    destruct (nth_error libraries (Z.to_nat (n - 1))) as [lib|] eqn:Hnth;
      [|discriminate].
    unfold bind.
    destruct (get_movies_from_library srv fuel (Some (lib_name lib)) None w)
      as [[movies|e|] w1]; try discriminate.
    destruct movies as [|m ms]; [apply IH; exact Hok|].
    apply IH. apply dict_set_ok; [|discriminate | exact Hok].
    right. apply in_map. eapply nth_error_In. exact Hnth.
Qed.

Lemma select_by_numbers_invalid (fuel : nat) (selected_nums : list string)
    (library_movies : list (string * list item)) (w : world) :
  Forall (fun num => skipped py (List.length libraries) num = true)
         selected_nums ->
  select_by_numbers srv py fuel libraries selected_nums library_movies w =
  (Ret library_movies, w).
Proof.
  induction 1 as [|num rest Hnum _ IH]; cbn [select_by_numbers]; [reflexivity|].
  unfold skipped in Hnum.
  destruct (isdigit py num); [|exact IH].
  destruct (int py num) as [n|]; [|discriminate].
  cbv zeta. apply negb_true_iff in Hnum. rewrite Hnum. exact IH.
Qed.

End SelectionInvariant.

(** X10.  The mapping the selection step returns has no empty group and no
    repeated key, and every key is the name of a discovered library or
    [All Movies]; choosing a library twice, or two numbers of libraries
    with one name, gives one group.  The step writes no file. *)
Theorem selection_invariant (srv : server) (py : token_reader) (fuel : nat)
    (libraries : list library) (library_movies : list (string * list item))
    (w w' : world) :
  select_libraries srv py fuel libraries w = (Ret library_movies, w') ->
  selection_ok libraries library_movies /\ files w' = files w.
Proof.
  intros Hrun. split.
  - revert Hrun. unfold select_libraries, bind, input.
    destruct (stdin w) as [|line1 rest1]; [discriminate|].
    destruct (Py.strip line1 =? "1")%string.
    { apply use_all_libraries_ok. apply selection_ok_nil. }
    destruct (Py.strip line1 =? "2")%string.
    2: { apply use_all_libraries_ok. apply selection_ok_nil. }
    cbn [stdin]. destruct rest1 as [|line2 rest2]; [discriminate|].
    destruct (Py.truthy (Py.strip line2)).
    + match goal with
      | |- context [select_by_numbers srv py fuel libraries ?nums [] ?w0] =>
          destruct (select_by_numbers srv py fuel libraries nums [] w0)
            as [[selected|e|] w1] eqn:Hsel; try discriminate
      end.
      apply select_by_numbers_ok in Hsel; [|apply selection_ok_nil].
      destruct selected as [|kv kvs].
      * apply use_all_libraries_ok. apply selection_ok_nil.
      * cbn [ret]. intros H. injection H as <- _. exact Hsel.
    + cbn [ret]. apply use_all_libraries_ok. apply selection_ok_nil.
  - pose proof (select_libraries_cases srv py fuel libraries w) as [Hfiles _].
    now rewrite Hrun in Hfiles.
Qed.

Lemma selection_invariant_witness :
  selection_ok MockCinema.libraries
    [("Movies", MockCinema.films); ("Kids Movies/New", MockCinema.kids)].
Proof.
  assert (Hrun :
    select_libraries MockCinema.cinema ascii_reader 5 MockCinema.libraries
      (mkWorld [] [] ["2"; "1, 2,1"; "3"] []) =
    (Ret [("Movies", MockCinema.films); ("Kids Movies/New", MockCinema.kids)],
     mkWorld [MediaFolders; ItemsPage (Some "lib-movies") 0 1000;
              MediaFolders; ItemsPage (Some "lib-kids") 0 1000;
              MediaFolders; ItemsPage (Some "lib-movies") 0 1000]
             ["Fetching movies from library: Movies...";
              "Fetching movies from library: Kids Movies/New...";
              "Fetching movies from library: Movies..."]
             ["3"] [])) by reflexivity.
  exact (proj1 (selection_invariant _ _ _ _ _ _ _ Hrun)).
Defined.

(** X11.  When the user chooses individual libraries and the loop passes
    over every token of the answer (each is one that [isdigit] rejects,
    such as an empty token or a word, or one that [int] converts to a
    number that is zero or above the number of libraries), nothing is
    fetched for the answer and the step goes on exactly as if all
    libraries had been chosen.  A token that [isdigit] accepts and [int]
    refuses is not passed over, and is outside this statement. *)
Theorem invalid_selection_uses_all (srv : server) (py : token_reader)
    (fuel : nat) (libraries : list library) (line1 line2 : string)
    (rest : list string) (w : world) :
  stdin w = line1 :: line2 :: rest ->
  Py.strip line1 = "2" ->
  Forall (fun num => skipped py (List.length libraries) num = true)
         (map Py.strip (Py.split "," (Py.strip line2))) ->
  select_libraries srv py fuel libraries w =
  use_all_libraries srv fuel []
    (mkWorld (requests w) (stdout w) rest (files w)).
Proof.
  intros Hin Hchoice Hinvalid.
  unfold select_libraries, bind, input. rewrite Hin, Hchoice.
  cbn [String.eqb Ascii.eqb Bool.eqb stdin].
  destruct (Py.truthy (Py.strip line2)).
  - rewrite (select_by_numbers_invalid srv py libraries fuel _ [] _ Hinvalid).
    reflexivity.
  - reflexivity.
Qed.

Lemma invalid_selection_uses_all_witness :
  select_libraries MockCinema.cinema ascii_reader 5 MockCinema.libraries
    (mkWorld [] [] [" 2 "; "0, 7,x,"; "1"] []) =
  use_all_libraries MockCinema.cinema 5 [] (mkWorld [] [] ["1"] []).
Proof.
  apply (invalid_selection_uses_all MockCinema.cinema ascii_reader 5
           MockCinema.libraries
           " 2 " "0, 7,x," ["1"] (mkWorld [] [] [" 2 "; "0, 7,x,"; "1"] []));
    [reflexivity | reflexivity |].
  repeat (apply Forall_cons; [reflexivity|]). apply Forall_nil.
Defined.

(** X19.  Unless the user answers 2 to the first question, the mapping has
    at most one group, named [All Movies], holding what the fetch across
    all libraries returned; the combined block therefore writes nothing,
    and the only playlist of such a run is the one of that group. *)
Theorem all_libraries_is_one_group (srv : server) (py : token_reader)
    (fuel : nat)
    (libraries : list library) (line1 : string) (rest : list string)
    (library_movies : list (string * list item)) (w w' : world) :
  stdin w = line1 :: rest ->
  Py.strip line1 <> "2" ->
  select_libraries srv py fuel libraries w = (Ret library_movies, w') ->
  (library_movies = [] \/
   exists movies,
     movies <> [] /\
     library_movies = [("All Movies", movies)] /\
     get_all_movies srv fuel ["all"]
       (mkWorld (requests w) (stdout w) rest (files w)) = (Ret movies, w')) /\
  (forall self writable url_type saved_files w0,
     write_combined_playlist self writable url_type library_movies
       saved_files w0 = (Ret saved_files, w0)).
Proof.
  intros Hin Hchoice Hrun.
  assert (Hall : use_all_libraries srv fuel []
                   (mkWorld (requests w) (stdout w) rest (files w)) =
                 (Ret library_movies, w')).
  { revert Hrun. unfold select_libraries, bind, input. rewrite Hin.
    destruct (Py.strip line1 =? "1")%string; [trivial|].
    destruct (String.eqb_spec (Py.strip line1) "2"); [contradiction | trivial]. }
  assert (Hshape : library_movies = [] \/
    exists movies,
      movies <> [] /\
      library_movies = [("All Movies", movies)] /\
      get_all_movies srv fuel ["all"]
        (mkWorld (requests w) (stdout w) rest (files w)) = (Ret movies, w')).
  { revert Hall. unfold use_all_libraries, bind.
    destruct (get_all_movies srv fuel ["all"] _) as [[all_movies|e|] w1];
      try discriminate.
    destruct all_movies as [|m ms]; cbn [ret dict_set]; intros H;
      injection H as <- <-; [now left|].
    right. exists (m :: ms). repeat split. discriminate. }
  split; [exact Hshape|].
  intros self writable url_type saved_files w0.
  unfold write_combined_playlist.
  destruct Hshape as [-> | (movies & _ & -> & _)]; reflexivity.
Qed.

Lemma all_libraries_is_one_group_witness :
  select_libraries MockCinema.cinema ascii_reader 5 MockCinema.libraries
    MockCinema.all_libraries =
  (Ret [("All Movies", MockCinema.films ++ MockCinema.kids)],
   mkWorld [ItemsPage None 0 1000]
     ["Fetching movies from all libraries...";
      "Fetching movies from library: All Libraries..."] ["1"] []) /\
  write_combined_playlist Sample.host MockCinema.any_file "simple"
    [("All Movies", MockCinema.films ++ MockCinema.kids)] [] Mock.start =
  (Ret [], Mock.start).
Proof.
  assert (Hrun :
    select_libraries MockCinema.cinema ascii_reader 5 MockCinema.libraries
      MockCinema.all_libraries =
    (Ret [("All Movies", MockCinema.films ++ MockCinema.kids)],
     mkWorld [ItemsPage None 0 1000]
       ["Fetching movies from all libraries...";
        "Fetching movies from library: All Libraries..."] ["1"] []))
    by reflexivity.
  split; [exact Hrun|].
  destruct (all_libraries_is_one_group MockCinema.cinema ascii_reader 5
              MockCinema.libraries
              "1" ["1"] _ MockCinema.all_libraries _ eq_refl
              ltac:(discriminate) Hrun) as [_ Hnone].
  apply Hnone.
Defined.

(* ================================================================= *)
(** ** Further properties: file names, playlists, the summary *)

Lemma safe_name_cons (c : ascii) (r : string) :
  safe_name (String c r) =
  String (if unsafe_char c then "_"%char else c) (safe_name r).
Proof.
  unfold safe_name, unsafe_char. cbn [Py.replace_char].
  destruct (Ascii.eqb c " ") eqn:E1; [reflexivity|].
  destruct (Ascii.eqb c "/") eqn:E2; [reflexivity|].
  cbn [orb]. destruct (Ascii.eqb c Py.backslash); reflexivity.
Qed.

Lemma safe_name_length (lib_name : string) :
  String.length (safe_name lib_name) = String.length lib_name.
Proof.
  induction lib_name as [|c r IH]; [reflexivity|].
  rewrite safe_name_cons. cbn [String.length]. now rewrite IH.
Qed.

Lemma safe_name_chars (lib_name : string) :
  chars (safe_name lib_name) =
  map (fun c => if unsafe_char c then "_"%char else c) (chars lib_name).
Proof.
  induction lib_name as [|c r IH]; [reflexivity|].
  rewrite safe_name_cons. cbn [chars map]. now rewrite IH.
Qed.

Lemma safe_name_free (lib_name : string) :
  Forall (fun c => unsafe_char c = false) (chars (safe_name lib_name)).
Proof.
  induction lib_name as [|c r IH]; [constructor|].
  rewrite safe_name_cons. cbn [chars]. constructor; [|exact IH].
  destruct (unsafe_char c) eqn:E; [reflexivity | exact E].
Qed.

Lemma safe_name_keep (lib_name : string) :
  Forall (fun c => unsafe_char c = false) (chars lib_name) ->
  safe_name lib_name = lib_name.
Proof.
  induction lib_name as [|c r IH]; [reflexivity|].
  cbn [chars]. intros H. inversion H as [|? ? Hc Hr]; subst.
  rewrite safe_name_cons, Hc, (IH Hr). reflexivity.
Qed.

(** X12.  The name [safe_name] derives from a library name has the same
    length, contains no space, slash or backslash, and differs from the
    library name only where one of these stood, which is now an
    underscore; a name without them is unchanged, and deriving twice
    changes nothing more.  The library [Kids Movies/New] gets the file
    [jellyfin_Kids_Movies_New_simple.m3u]. *)
Theorem safe_name_properties (lib_name : string) :
  String.length (safe_name lib_name) = String.length lib_name /\
  Forall (fun c => unsafe_char c = false) (chars (safe_name lib_name)) /\
  chars (safe_name lib_name) =
    map (fun c => if unsafe_char c then "_"%char else c) (chars lib_name) /\
  (Forall (fun c => unsafe_char c = false) (chars lib_name) ->
   safe_name lib_name = lib_name) /\
  safe_name (safe_name lib_name) = safe_name lib_name /\
  library_filename "Kids Movies/New" "simple" =
    "jellyfin_Kids_Movies_New_simple.m3u".
Proof.
  split; [apply safe_name_length|].
  split; [apply safe_name_free|].
  split; [apply safe_name_chars|].
  split; [apply safe_name_keep|].
  split; [apply safe_name_keep, safe_name_free | reflexivity].
Qed.

(** X13.  The per-library loop writes one playlist for every non-empty
    group whose file can be opened, in the order of the mapping, and
    records exactly those names as saved; a file that cannot be opened is
    skipped and the loop goes on to the next library. *)
Theorem failed_write_does_not_abort (self : session)
    (writable : string -> bool) (url_type : string)
    (library_movies : list (string * list item)) (saved_files : list string)
    (w : world) :
  let written := playlist_writes self writable url_type library_movies in
  write_library_playlists self writable url_type library_movies saved_files w =
    (Ret (saved_files ++ map fst written),
     mkWorld (requests w) (stdout w) (stdin w) (files w ++ written)) /\
  (forall lib_name movies,
     In (lib_name, movies) library_movies ->
     movies <> [] ->
     writable (library_filename lib_name url_type) = true ->
     In (library_filename lib_name url_type) (map fst written)) /\
  (forall filename, In filename (map fst written) -> writable filename = true).
Proof.
  intros written. subst written.
  split; [apply write_library_playlists_eq|]. split.
  - intros lib_name movies Hin Hne Hopen.
    unfold playlist_writes. rewrite flat_map_concat_map, concat_map, map_map.
    apply in_concat. eexists. split.
    + apply in_map_iff. exists (lib_name, movies). split; [reflexivity | exact Hin].
    + cbn [fst snd]. unfold generate_playlist_for_library.
      destruct movies as [|m ms]; [congruence|]. rewrite Hopen. now left.
  - intros filename Hin. unfold playlist_writes in Hin.
    apply in_map_iff in Hin as ([name content] & <- & Hin).
    apply in_flat_map in Hin as ([lib_name movies] & _ & Hin).
    cbn [fst snd] in Hin.
    destruct (generate_playlist_for_library self movies lib_name url_type);
      [|destruct Hin].
    destruct (writable (library_filename lib_name url_type)) eqn:Hopen;
      [|destruct Hin].
    destruct Hin as [Heq|[]]. injection Heq as <- _. exact Hopen.
Qed.

Lemma failed_write_does_not_abort_witness :
  write_library_playlists Sample.host MockFailing.read_only_movies "simple"
    [("Movies", MockCinema.films); ("Kids Movies/New", MockCinema.kids)] []
    Mock.start =
  (Ret ["jellyfin_Kids_Movies_New_simple.m3u"],
   mkWorld [] [] []
     (playlist_writes Sample.host MockFailing.read_only_movies "simple"
        [("Movies", MockCinema.films); ("Kids Movies/New", MockCinema.kids)])) /\
  MockFailing.read_only_movies "jellyfin_Movies_simple.m3u" = false.
Proof.
  destruct (failed_write_does_not_abort Sample.host
              MockFailing.read_only_movies "simple"
              [("Movies", MockCinema.films); ("Kids Movies/New", MockCinema.kids)]
              [] Mock.start) as [Hrun _].
  split; [rewrite Hrun; reflexivity | reflexivity].
Defined.

Lemma occurs_here (needle : string) :
  exists before, needle = before +++ needle.
Proof. now exists "". Qed.

Lemma occurs_later (a x needle : string) :
  (exists before, x = before +++ needle) ->
  exists before, a +++ x = before +++ needle.
Proof.
  intros (before & ->). exists (a +++ before). now rewrite append_assoc.
Qed.

(** X14.  Writing the summary never fails the run: when the file cannot be
    opened nothing happens.  The summary shows the first ten characters of
    the access token in its URL template, and the complete token on its
    [X-Emby-Token] line. *)
Theorem summary_shows_full_key (self : session) (writable : string -> bool)
    (current_time : string) (saved_files : list string)
    (library_movies : list (string * list item)) (url_types : list string)
    (w : world) :
  let summary :=
    summary_text self current_time saved_files library_movies url_types in
  create_summary_file self writable current_time saved_files library_movies
    url_types w =
    (Ret tt,
     if writable summary_filename then wrote summary_filename summary w else w) /\
  (exists before after,
     summary =
     before +++ "3. Add header: X-Emby-Token: " +++ api_key self +++ Py.nl +++
     after) /\
  (exists before after,
     summary =
     before +++ "/Videos/ITEM_ID/stream.mp4?api_key=" +++
     Py.take 10 (api_key self) +++ "...&static=true" +++ after).
Proof.
  intros summary. subst summary. split; [|split].
  - unfold create_summary_file, bind, write_file.
    destruct (writable summary_filename); reflexivity.
  - cut (exists after before,
           summary_text self current_time saved_files library_movies url_types =
           before +++ "3. Add header: X-Emby-Token: " +++ api_key self +++
           Py.nl +++ after).
    { intros (after & before & H). now exists before, after. }
    eexists. unfold summary_text. cbv zeta.
    repeat first [apply occurs_here | apply occurs_later].
  - cut (exists after before,
           summary_text self current_time saved_files library_movies url_types =
           before +++ "/Videos/ITEM_ID/stream.mp4?api_key=" +++
           Py.take 10 (api_key self) +++ "...&static=true" +++ after).
    { intros (after & before & H). now exists before, after. }
    eexists. unfold summary_text. cbv zeta.
    repeat first [apply occurs_here | apply occurs_later].
Qed.

(** X15.  A playlist in simple mode does not depend on the access token:
    with the same server URL, any two tokens give the same per-library
    text and the same combined text. *)
Theorem simple_playlists_hide_token (self : session) (token : string)
    (movies : list item) (library_name : string) :
  let other := mkSession (server_url self) token in
  generate_playlist_for_library other movies library_name "simple" =
    generate_playlist_for_library self movies library_name "simple" /\
  combined_playlist_text other "simple" movies =
    combined_playlist_text self "simple" movies.
Proof.
  intros other.
  assert (Hentries : forall p,
    library_entries other "simple" movies p =
    library_entries self "simple" movies p).
  { intros p. rewrite !library_entries_flatten. reflexivity. }
  split.
  - unfold generate_playlist_for_library. destruct movies as [|m ms];
      [reflexivity|]. now rewrite Hentries.
  - unfold combined_playlist_text.
    rewrite !combined_entries_known by (left; reflexivity).
    now rewrite Hentries.
Qed.

(** X16.  [generate_playlist_for_library] returns [None] exactly for an
    empty list.  Called with a URL type that is neither [simple] nor
    [with_key], it writes the four header lines without a URL format or
    note line, and renders every entry with the simple URL. *)
Theorem unknown_mode_renders_simple (self : session)
    (url_type library_name : string) (movies : list item) :
  (generate_playlist_for_library self movies library_name url_type = None <->
   movies = []) /\
  (url_type <> "simple" -> url_type <> "with_key" -> movies <> [] ->
   generate_playlist_for_library self movies library_name url_type =
   Some ("#EXTM3U" +++ Py.nl +++
         "# Jellyfin Playlist - " +++ library_name +++ Py.nl +++
         "# Generated from: " +++ server_url self +++ Py.nl +++
         "# Total movies: " +++ Py.str_nat (List.length movies) +++ Py.nl +++
         Py.nl +++
         flatten (map (rendered_entry self "simple") movies))).
Proof.
  split.
  - unfold generate_playlist_for_library.
    destruct movies; split; congruence.
  - intros Hs Hk Hne. unfold generate_playlist_for_library.
    destruct movies as [|m ms]; [congruence|].
    rewrite library_entries_flatten. f_equal.
    assert (Hentries :
      map (rendered_entry self url_type) (m :: ms) =
      map (rendered_entry self "simple") (m :: ms)).
    { apply map_ext. intros movie. unfold rendered_entry, url_for.
      destruct (String.eqb_spec url_type "with_key"); [contradiction|].
      reflexivity. }
    rewrite Hentries.
    unfold library_header. cbv zeta.
    destruct (String.eqb_spec url_type "simple"); [contradiction|].
    destruct (String.eqb_spec url_type "with_key"); [contradiction|].
    now rewrite !append_assoc.
Qed.

Lemma unknown_mode_renders_simple_witness :
  generate_playlist_for_library Sample.host [Sample.alien] "Movies" "fancy" =
  Some ("#EXTM3U" +++ Py.nl +++
        "# Jellyfin Playlist - Movies" +++ Py.nl +++
        "# Generated from: http://host:8096" +++ Py.nl +++
        "# Total movies: 1" +++ Py.nl +++ Py.nl +++
        "#EXTINF:3600,Alien" +++ Py.nl +++
        "http://host:8096/Videos/abc123/stream.mp4?static=true" +++ Py.nl).
Proof.
  destruct (unknown_mode_renders_simple Sample.host "fancy" "Movies"
              [Sample.alien]) as [_ H].
  rewrite H by discriminate. reflexivity.
Defined.

Lemma fold_left_add_length (library_movies : list (string * list item))
    (acc : nat) :
  fold_left (fun acc kv => acc + List.length (snd kv)) library_movies acc =
  acc + List.length (List.concat (map snd library_movies)).
Proof.
  revert acc. induction library_movies as [|kv rest IH]; intros acc;
    cbn [fold_left map List.concat List.length]; [lia|].
  rewrite IH, length_app. lia.
Qed.

(** X17.  The total the summary reports is the number of movies of the
    combined playlist: the sum of the sizes of the groups is the length of
    their concatenation, which the summary prints after [## Total Movies:]
    and the combined playlist after [# Total movies:]. *)
Theorem summary_total_is_combined_count (self : session)
    (current_time url_type : string) (saved_files url_types : list string)
    (library_movies : list (string * list item)) :
  let n := List.length (List.concat (map snd library_movies)) in
  total_movies library_movies = n /\
  (exists before after,
     summary_text self current_time saved_files library_movies url_types =
     before +++ "## Total Movies: " +++ Py.str_nat n +++ after) /\
  (exists before after,
     combined_header self n url_type =
     before +++ "# Total movies: " +++ Py.str_nat n +++ after).
Proof.
  intros n.
  assert (H : total_movies library_movies = n).
  { unfold total_movies. now rewrite fold_left_add_length. }
  split; [exact H|]. split.
  - cut (exists after before,
           summary_text self current_time saved_files library_movies url_types =
           before +++ "## Total Movies: " +++ Py.str_nat n +++ after).
    { intros (after & before & E). now exists before, after. }
    eexists. unfold summary_text. cbv zeta. rewrite H, !append_assoc.
    repeat first [apply occurs_here | apply occurs_later].
  - cut (exists after before,
           combined_header self n url_type =
           before +++ "# Total movies: " +++ Py.str_nat n +++ after).
    { intros (after & before & E). now exists before, after. }
    unfold combined_header. cbv zeta.
    destruct (url_type =? "simple")%string;
      [|destruct (url_type =? "with_key")%string];
      eexists; rewrite !append_assoc;
      repeat first [apply occurs_here | apply occurs_later].
Qed.

(* ================================================================= *)
(** ** Further properties: the constructor *)

Lemma has_scheme_http (url : string) : has_scheme ("http://" +++ url) = true.
Proof. unfold has_scheme. cbn. now destruct url. Qed.

(** X18.  When a server URL is given, by argument or by [JELLYFIN_SERVER],
    the constructor keeps it as it is, with or without a scheme, and does
    not ask for one; when both URL and key are given it prompts for nothing
    and prints nothing.  When no URL is given it reads one line: the
    answer, stripped, is kept if it starts with [http://] or [https://] and
    gets [http://] in front otherwise, so a URL that was asked for always
    has a scheme.  After the constructor the URL is never empty and the key
    is set, possibly to the empty string. *)
Theorem init_credentials (getpass : M string) (server_url api_key : option string)
    (env : environ) (w w' : world) (url key : option string) :
  init getpass server_url api_key env w = (Ret (url, key), w') ->
  let given_url := py_or server_url (JELLYFIN_SERVER env) in
  let given_key := py_or api_key (JELLYFIN_API_KEY env) in
  (given given_url = true -> url = given_url) /\
  (given given_url = true -> given given_key = true ->
   key = given_key /\ w' = w) /\
  (given given_url = false ->
   exists line rest,
     stdin w = line :: rest /\
     url = Some (if has_scheme (Py.strip line) then Py.strip line
                 else "http://" +++ Py.strip line) /\
     has_scheme (Py.get url "") = true) /\
  given url = true /\
  key <> None.
Proof.
  intros Hrun given_url given_key.
  unfold init in Hrun. fold given_url given_key in Hrun.
  destruct (given given_url) eqn:Hgu; cbn [negb orb] in Hrun.
  - destruct (given given_key) eqn:Hgk; cbn [negb] in Hrun.
    + injection Hrun as <- <- <-.
      split; [reflexivity|]. split; [now split|]. split; [discriminate|].
      split; [exact Hgu|]. intros E. rewrite E in Hgk. discriminate.
    + unfold prompt_for_credentials, bind, print in Hrun.
      rewrite Hgu, Hgk in Hrun.
      cbn [negb ret fst snd stdin requests stdout files] in Hrun.
      match type of Hrun with
      | context [getpass ?w0] =>
          destruct (getpass w0) as [[secret|e|] w1]; try discriminate
      end.
      injection Hrun as <- <- _.
      split; [reflexivity|]. split; [discriminate|]. split; [discriminate|].
      split; [exact Hgu | discriminate].
  - unfold prompt_for_credentials, bind, print, input in Hrun.
    rewrite Hgu in Hrun.
    cbn [negb fst snd stdin requests stdout files] in Hrun.
    destruct (stdin w) as [|line rest] eqn:Hin; [discriminate|].
    cbn [ret negb fst snd stdin requests stdout files] in Hrun.
    assert (Hnonempty : forall u, has_scheme u = true -> given (Some u) = true).
    { intros u Hu. cbn [given]. apply truthy_true. intros E.
      rewrite E in Hu. discriminate. }
    revert Hrun.
    destruct (has_scheme (Py.strip line)) eqn:Hs; cbn [negb];
      (destruct (given given_key) eqn:Hgk; cbn [negb ret];
       [|match goal with
         | |- context [getpass ?w0] =>
             destruct (getpass w0) as [[secret|e|] w1]; try discriminate
         end]);
      intros Hrun; injection Hrun as <- <- _;
      (split; [discriminate|]); (split; [discriminate|]);
      (split; [intros _; exists line, rest;
               split; [reflexivity|]; split; [now rewrite Hs|];
               first [exact Hs | exact (has_scheme_http (Py.strip line))]|]);
      (split; [apply Hnonempty;
               first [exact Hs | exact (has_scheme_http (Py.strip line))]|]);
      first [discriminate | intros E; rewrite E in Hgk; discriminate].
Qed.

Lemma init_credentials_witness :
  init (ret "k3y") None None (mkEnviron None None)
    (mkWorld [] [] ["  host:8096 "] []) =
  (Ret (Some "http://host:8096", Some "k3y"),
   mkWorld [] [Py.nl +++ rule50; "Jellyfin Configuration"; rule50] [] []) /\
  has_scheme "http://host:8096" = true.
Proof.
  assert (Hrun :
    init (ret "k3y") None None (mkEnviron None None)
      (mkWorld [] [] ["  host:8096 "] []) =
    (Ret (Some "http://host:8096", Some "k3y"),
     mkWorld [] [Py.nl +++ rule50; "Jellyfin Configuration"; rule50] [] []))
    by reflexivity.
  split; [exact Hrun|].
  destruct (init_credentials _ _ _ _ _ _ _ _ Hrun) as (_ & _ & Hasked & _).
  destruct (Hasked eq_refl) as (line & rest & _ & _ & Hscheme).
  exact Hscheme.
Defined.
